(** * RtpRtcp node and RTCP Sender-Report generator

    A shallow embedding of
      - [projects/modules/rtp_rtcp/rtp_rtcp.cpp]                       (class RtpRtcp)
      - [projects/modules/rtp_rtcp/rtcp_info/rtcp_sr_generator.cpp]    (class RtcpSRGenerator)
    of OvenMediaEngine, and the properties of both that the specification
    states.

    Conventions.
      - C++ unsigned integers are [Z] with the wrap-around written out
        ([to_uint32], [to_uint8]).
      - [std::map] tables are [gmap]s keyed by [Z].
      - The methods run in a state monad [M] over a [World]: the node object,
        the system clock, the node below and the trace of observable effects
        (log lines, downward sends, observer calls, datagram byte reads).
        Reading outside a buffer or through a null pointer is [Undefined].
      - A [double] is an IEEE 754 binary64 number, [spec_float] with 53 bits of
        precision, and its operations round to nearest, ties to even. C++
        gives the conversion of a double to [uint32_t] a meaning only when
        the truncated value is a [uint32_t]; what an implementation yields
        otherwise is the field [uint32_of_unrepresentable] of
        [Collaborators].
      - Classes the two files only use (statistics entries, jitter buffers,
        the RTCP parser and serialiser, the media track) are the fields of the
        class [Collaborators]. *)

From Stdlib Require Import ZArith List Lia Bool String.
From Stdlib.Strings Require Import Byte.
From Stdlib Require Import SpecFloat.
From stdpp Require Import base option gmap.
Import ListNotations.

Local Open Scope Z_scope.

(** ** Machine integers *)

Definition to_uint32 (z : Z) : Z := z mod 2 ^ 32.
Definition to_uint8 (z : Z) : Z := z mod 2 ^ 8.

(** ** Doubles *)

(** [(double)z] for an integer: exact for the values a [uint32_t] or an
    [int] holds. *)
Definition double_of_Z (z : Z) : spec_float := binary_normalize 53 1024 z 0 false.

Definition double_div : spec_float -> spec_float -> spec_float := SFdiv 53 1024.
Definition double_mul : spec_float -> spec_float -> spec_float := SFmul 53 1024.
Definition double_sub : spec_float -> spec_float -> spec_float := SFsub 53 1024.

(** The literal [1.0e-6]: the double nearest to 10^-6, 0x3EB0C6F7A0B5ED8D. *)
Definition double_1e_6 : spec_float := S754_finite false 0x10C6F7A0B5ED8D (-72).

(** The value of a finite double with its fractional part discarded. *)
Definition truncate (x : spec_float) : option Z :=
  match x with
  | S754_zero _ => Some 0
  | S754_finite s m e => Some (cond_Zopp s (Z.shiftl (Zpos m) e))
  | _ => None
  end.

(** [fraction = modf(x, &ipart)], as the pair [(fraction, ipart)]: both have
    the sign of [x]; the integral part of a double is a double and the
    subtraction is exact. *)
Definition modf (x : spec_float) : spec_float * spec_float :=
  match x with
  | S754_nan => (S754_nan, S754_nan)
  | S754_infinity s => (S754_zero s, x)
  | S754_zero _ => (x, x)
  | S754_finite s m e =>
      let ipart := binary_normalize 53 1024 (cond_Zopp s (Z.shiftl (Zpos m) e)) 0 s in
      let fraction := match double_sub x ipart with
                      | S754_zero _ => S754_zero s
                      | f => f
                      end in
      (fraction, ipart)
  end.

(** [ov::Data]: a datagram is its bytes. *)
Definition Data : Type := list byte.

Definition byte_value (b : byte) : Z := Z.of_N (Byte.to_N b).

(** ** Collaborator types

    Classes of the repository that the two files hold in their tables but do
    not define. *)
Class CollaboratorTypes := {
  ReportBlock : Type;
  RtpReceiveStatistics : Type;
  RtpFrameJitterBuffer : Type;
  RtpMinimalJitterBuffer : Type
}.

Section Model.

Context {T : CollaboratorTypes}.

(** ** Packets *)

(** The accessors of [RtpPacket] the two files call. *)
Record RtpPacket := {
  PayloadType : Z;
  Ssrc : Z;
  Timestamp : Z;
  PayloadSize : Z
}.

(** [SenderReport], as filled by the setters called in
    [AddRTPPacketAndGenerateRtcpSR]. *)
Record SenderReport := {
  sr_SenderSsrc : Z;
  sr_Msw : Z;
  sr_Lsw : Z;
  sr_Timestamp : Z;
  sr_PacketCount : Z;
  sr_OctetCount : Z
}.

(** [ReceiverReport], as filled in [OnRtpReceived]. *)
Record ReceiverReport := {
  rr_RtpPayloadType : Z;
  rr_SenderSsrc : Z;
  rr_ReportBlocks : list ReportBlock
}.

(** [FIR]: the requester and its (media ssrc, sequence number) entries. *)
Record FIR := {
  fir_SrcSsrc : Z;
  fir_Messages : list (Z * Z)
}.

(** [RtcpInfo] with its [GetPacketType()]: a tagged union. *)
Inductive RtcpInfo :=
  | InfoSR (sr : SenderReport)
  | InfoRR (rr : ReceiverReport)
  | InfoFIR (fir : FIR)
  | InfoOther (packet_type : Z).

(** [RtcpPacket]: the info it was built from and what [Build] returned. *)
Record RtcpPacket := {
  rtcp_info : RtcpInfo;
  rtcp_built : bool
}.

(** [cmn::BitstreamFormat] is declared outside the two files; the four
    enumerators the switches name are kept apart, every other enumerator is
    [OtherBitstreamFormat] with its number. *)
Inductive BitstreamFormat :=
  | H264_RTP_RFC_6184
  | VP8_RTP_RFC_7741
  | AAC_MPEG4_GENERIC
  | OPUS_RTP_RFC_7587
  | OtherBitstreamFormat (code : Z).

(** [MediaTrack], through the two accessors used:
    [GetOriginBitstream()] and [GetTimeBase().GetDen()]. *)
Record MediaTrack := {
  GetOriginBitstream : BitstreamFormat;
  GetTimeBaseDen : Z
}.

(** Modelled from the spec: [ov::Node::NodeState] is declared outside the two
    files; the specification gives the lifecycle
    Created, Ready, Started, Stopped. *)
Inductive NodeState := Created | Ready | Started | Stopped.

Inductive NodeType := Rtp | Rtcp | OtherNode (n : Z).

(** ** Collaborator operations *)

(** Operations that consult the wall clock take the reading as [now]. *)
Class Collaborators := {
  (* constants of the headers *)
  RTCP_HEADER_SIZE : nat;
  RECEIVER_REPORT_CYCLE_MS : Z;
  (* std::make_shared<RtpPacket>(data) *)
  RtpPacket_parse : Data -> RtpPacket;
  (* RtcpPacket::Build: whether serialising the info succeeds *)
  RtcpPacket_Build : RtcpInfo -> bool;
  (* RtcpReceiver::ParseCompoundPacket, then the infos it pops, in order *)
  ParseCompoundPacket : Data -> option (list RtcpInfo);
  (* (uint32_t)x for a double whose truncated value is no uint32_t (an
     infinity, a NaN, a value below 0 or from 2^32 on): C++ gives this
     conversion no meaning; the field is what the implementation leaves *)
  uint32_of_unrepresentable : spec_float -> Z;
  (* RtpReceiveStatistics *)
  RtpReceiveStatistics_new : Z -> Z -> Z -> Z -> RtpReceiveStatistics;
  AddReceivedRtpPacket : RtpReceiveStatistics -> RtpPacket -> Z -> RtpReceiveStatistics;
  HasElapsedSinceLastReportBlock : RtpReceiveStatistics -> Z -> Z -> bool;
  GenerateReportBlock : RtpReceiveStatistics -> Z -> ReportBlock * RtpReceiveStatistics;
  AddReceivedRtcpSenderReport : RtpReceiveStatistics -> SenderReport -> Z -> RtpReceiveStatistics;
  GetReceiverSSRC : RtpReceiveStatistics -> Z;
  GetPayloadType : RtpReceiveStatistics -> Z;
  GetNumberOfFirRequests : RtpReceiveStatistics -> Z;
  OnFirRequested : RtpReceiveStatistics -> RtpReceiveStatistics;
  (* RtpFrameJitterBuffer; a popped frame is its packets, first to last *)
  RtpFrameJitterBuffer_new : RtpFrameJitterBuffer;
  FrameInsertPacket : RtpFrameJitterBuffer -> RtpPacket -> RtpFrameJitterBuffer;
  PopAvailableFrame : RtpFrameJitterBuffer -> option (list RtpPacket) * RtpFrameJitterBuffer;
  (* RtpMinimalJitterBuffer *)
  RtpMinimalJitterBuffer_new : RtpMinimalJitterBuffer;
  MinimalInsertPacket : RtpMinimalJitterBuffer -> RtpPacket -> RtpMinimalJitterBuffer;
  PopAvailablePacket : RtpMinimalJitterBuffer -> option RtpPacket * RtpMinimalJitterBuffer
}.

Context {C : Collaborators}.

(** ** Objects *)

(** The counters of the generator are declared in its header; they feed the
    32-bit packet and octet counts of the Sender Report and are kept as
    32-bit unsigned, starting at 0. Time points count
    [std::chrono::system_clock] ticks. *)
Record RtcpSRGenerator := {
  _ssrc : Z;
  _codec_rate : Z;
  _created_time : Z;
  _last_generated_time : Z;
  _packet_count : Z;
  _octec_count : Z;
  _rtcp_generated_count : Z;
  _rtcp_packet : option RtcpPacket
}.

(** The node. [_observer] records whether the pointer is non-null. The
    tracks are held by shared pointer; they are read, never written, here. *)
Record RtpRtcp := {
  node_state : NodeState;
  _observer : bool;
  _rtcp_sr_generators : gmap Z RtcpSRGenerator;
  _tracks : gmap Z MediaTrack;
  _rtp_frame_jitter_buffers : gmap Z RtpFrameJitterBuffer;
  _rtp_minimal_jitter_buffers : gmap Z RtpMinimalJitterBuffer;
  _receive_statistics : gmap Z RtpReceiveStatistics;
  _last_sent_rtp_packet : option RtpPacket;
  _last_sent_rtcp_packet : option RtcpPacket
}.

(** ** Observable effects *)

(** What [GetData()] of a packet hands to the node below. *)
Inductive Payload :=
  | RtpData (p : RtpPacket)
  | RtcpData (p : RtcpPacket)
  | RawData (d : Data).

Inductive Event :=
  | EvLog (text : string)                               (* logtd, logte, logd, loge *)
  | EvRead (index : nat)                                (* data->GetDataAs<uint8_t>()[index] *)
  | EvSend (to : NodeType) (p : Payload) (ok : bool)    (* SendDataToNextNode *)
  | EvRtpFrame (rtp_packets : list RtpPacket)           (* _observer->OnRtpFrameReceived *)
  | EvRtcp (info : RtcpInfo).                           (* _observer->OnRtcpReceived *)

(** The world a method runs in. [clock k] is what the k-th call of
    [std::chrono::system_clock::now()] returns, in ticks of a nanosecond;
    [next_node] is the answer of the node below to a send, given what has
    happened so far. *)
Record World := {
  node : RtpRtcp;
  clock : nat -> Z;
  clock_reads : nat;
  next_node : list Event -> NodeType -> Payload -> bool;
  trace : list Event
}.

Inductive Outcome (A : Type) :=
  | Done (a : A) (w : World)
  | Undefined.
Arguments Done {A} a w.
Arguments Undefined {A}.

Definition M (A : Type) : Type := World -> Outcome A.

#[export] Instance M_ret : MRet M := fun A a w => Done a w.
#[export] Instance M_bind : MBind M := fun A B f m w =>
  match m w with
  | Done a w' => f a w'
  | Undefined => Undefined
  end.

Definition undefined {A} : M A := fun _ => Undefined.

Definition this : M RtpRtcp := fun w => Done (node w) w.

Definition store (n : RtpRtcp) : M unit := fun w =>
  Done tt {| node := n; clock := clock w; clock_reads := clock_reads w;
             next_node := next_node w; trace := trace w |}.

Definition emit (e : Event) : M unit := fun w =>
  Done tt {| node := node w; clock := clock w; clock_reads := clock_reads w;
             next_node := next_node w; trace := trace w ++ [e] |}.

Definition log (text : string) : M unit := emit (EvLog text).

Definition system_clock_now : M Z := fun w =>
  Done (clock w (clock_reads w))
       {| node := node w; clock := clock w; clock_reads := S (clock_reads w);
          next_node := next_node w; trace := trace w |}.

(** [ov::Node::SendDataToNextNode]. *)
Definition SendDataToNextNode (to : NodeType) (p : Payload) : M bool := fun w =>
  let ok := next_node w (trace w) to p in
  Done ok {| node := node w; clock := clock w; clock_reads := clock_reads w;
             next_node := next_node w; trace := trace w ++ [EvSend to p ok] |}.

(** [data->GetDataAs<uint8_t>()[index]] *)
Definition GetDataAs_uint8 (data : Data) (index : nat) : M Z :=
  _ ← emit (EvRead index);
  match nth_error data index with
  | Some b => mret (byte_value b)
  | None => undefined
  end.

(** ** rtcp_sr_generator.cpp *)

(** [std::chrono::system_clock] counts nanoseconds. *)
Definition ticks_per_ms : Z := 1000000.

(** [duration_cast<milliseconds>(to - from).count()] returned as [uint32_t]:
    the division truncates, the 64-bit count is cut to its low 32 bits. *)
Definition elapsed_ms (from to : Z) : Z :=
  to_uint32 (Z.quot (to - from) ticks_per_ms).

Definition RtcpSRGenerator_new (ssrc codec_rate : Z) : M RtcpSRGenerator :=
  created_time ← system_clock_now;
  last_generated_time ← system_clock_now;
  mret {| _ssrc := ssrc;
          _codec_rate := codec_rate;
          _created_time := created_time;
          _last_generated_time := last_generated_time;
          _packet_count := 0;
          _octec_count := 0;
          _rtcp_generated_count := 0;
          _rtcp_packet := None |}.

Definition GetElapsedTimeMSFromCreated (g : RtcpSRGenerator) : M Z :=
  now ← system_clock_now;
  mret (elapsed_ms (_created_time g) now).

Definition GetElapsedTimeMSFromRtcpSRGenerated (g : RtcpSRGenerator) : M Z :=
  now ← system_clock_now;
  mret (elapsed_ms (_last_generated_time g) now).

(** [(uint32_t)x] for a double: the fractional part is discarded. *)
Definition uint32_of_double (x : spec_float) : Z :=
  match truncate x with
  | Some z => if (0 <=? z) && (z <? 2 ^ 32) then z else uint32_of_unrepresentable x
  | None => uint32_of_unrepresentable x
  end.

(** Lines 31-38: the media time [timestamp / codec_rate] in seconds, computed
    in doubles and split by [modf]; [msw] is its integral part and [lsw] its
    fraction scaled by 2^32, by way of milliseconds and microseconds. *)
Definition media_clock (timestamp codec_rate : Z) : Z * Z :=
  let clock := double_div (double_of_Z timestamp) (double_of_Z codec_rate) in
  let '(fraction, ipart) := modf clock in
  let fraction := double_mul fraction (double_of_Z 1000) in
  let msw := uint32_of_double ipart in
  let lsw := uint32_of_double
               (double_mul (double_mul (double_mul fraction (double_of_Z 1000))
                                       (double_of_Z (2 ^ 32)))
                           double_1e_6) in
  (msw, lsw).

Definition media_clock_msw (timestamp codec_rate : Z) : Z :=
  fst (media_clock timestamp codec_rate).

Definition media_clock_lsw (timestamp codec_rate : Z) : Z :=
  snd (media_clock timestamp codec_rate).

#[local] Arguments media_clock_msw : simpl never.
#[local] Arguments media_clock_lsw : simpl never.

(** The report built at lines 23-49. *)
Definition build_report (g : RtcpSRGenerator) (rtp_packet : RtpPacket)
    (packet_count octec_count : Z) : SenderReport :=
  {| sr_SenderSsrc := _ssrc g;
     sr_Msw := media_clock_msw (Timestamp rtp_packet) (_codec_rate g);
     sr_Lsw := media_clock_lsw (Timestamp rtp_packet) (_codec_rate g);
     sr_Timestamp := Timestamp rtp_packet;
     sr_PacketCount := packet_count;
     sr_OctetCount := octec_count |}.

Definition AddRTPPacketAndGenerateRtcpSR (g : RtcpSRGenerator) (rtp_packet : RtpPacket)
    : M RtcpSRGenerator :=
  let packet_count := to_uint32 (_packet_count g + 1) in
  let octec_count := to_uint32 (_octec_count g + PayloadSize rtp_packet) in
  (* (A && B) || C, evaluated left to right with short circuit *)
  from_created ← GetElapsedTimeMSFromCreated g;
  early ← (if from_created <? 10000
           then from_sr ← GetElapsedTimeMSFromRtcpSRGenerated g; mret (500 <? from_sr)
           else mret false);
  due ← (if early : bool
         then mret true
         else from_sr ← GetElapsedTimeMSFromRtcpSRGenerated g; mret (4999 <? from_sr));
  if due : bool then
    let report := build_report g rtp_packet packet_count octec_count in
    let rtcp_packet := {| rtcp_info := InfoSR report;
                          rtcp_built := RtcpPacket_Build (InfoSR report) |} in
    (* Reset RTCP information *)
    now ← system_clock_now;
    mret {| _ssrc := _ssrc g;
            _codec_rate := _codec_rate g;
            _created_time := _created_time g;
            _last_generated_time := now;
            _packet_count := 0;
            _octec_count := 0;
            _rtcp_generated_count := to_uint32 (_rtcp_generated_count g + 1);
            _rtcp_packet := Some rtcp_packet |}
  else
    mret {| _ssrc := _ssrc g;
            _codec_rate := _codec_rate g;
            _created_time := _created_time g;
            _last_generated_time := _last_generated_time g;
            _packet_count := packet_count;
            _octec_count := octec_count;
            _rtcp_generated_count := _rtcp_generated_count g;
            _rtcp_packet := _rtcp_packet g |}.

Definition IsAvailableRtcpSRPacket (g : RtcpSRGenerator) : bool :=
  match _rtcp_packet g with Some _ => true | None => false end.

(** [std::move] empties the slot. *)
Definition PopRtcpSRPacket (g : RtcpSRGenerator) : option RtcpPacket * RtcpSRGenerator :=
  match _rtcp_packet g with
  | None => (None, g)
  | Some p =>
      (Some p, {| _ssrc := _ssrc g;
                  _codec_rate := _codec_rate g;
                  _created_time := _created_time g;
                  _last_generated_time := _last_generated_time g;
                  _packet_count := _packet_count g;
                  _octec_count := _octec_count g;
                  _rtcp_generated_count := _rtcp_generated_count g;
                  _rtcp_packet := None |})
  end.

(** ** A sender's use of one generator

    [observe_all] drives a generator the way [RtpRtcp::SendRtpPacket] does:
    every packet is observed, and a report that became available is popped.
    It returns, oldest first, one [Emission] per popped report. *)
Record Emission := {
  em_report : RtcpPacket;             (* the popped report *)
  em_observed : list RtpPacket;       (* packets observed since the report before *)
  em_before : RtcpSRGenerator;        (* the generator when the call began *)
  em_after : RtcpSRGenerator;         (* the generator when the call returned *)
  em_clock_reads : nat                (* clock readings taken when it returned *)
}.

Definition clock_readings_taken : M nat := fun w => Done (clock_reads w) w.

Fixpoint observe_all (g : RtcpSRGenerator) (since : list RtpPacket)
    (rtp_packets : list RtpPacket) : M (list Emission) :=
  match rtp_packets with
  | [] => mret []
  | rtp_packet :: rest =>
      g1 ← AddRTPPacketAndGenerateRtcpSR g rtp_packet;
      k ← clock_readings_taken;
      match PopRtcpSRPacket g1 with
      | (Some sr, g2) =>
          later ← observe_all g2 [] rest;
          mret ({| em_report := sr;
                   em_observed := since ++ [rtp_packet];
                   em_before := g;
                   em_after := g1;
                   em_clock_reads := k |} :: later)
      | (None, g2) => observe_all g2 (since ++ [rtp_packet]) rest
      end
  end.

(** ** rtp_rtcp.cpp *)

Definition modify (f : RtpRtcp -> RtpRtcp) : M unit :=
  n ← this; store (f n).

Definition with_node_state (v : NodeState) (n : RtpRtcp) : RtpRtcp :=
  {| node_state := v;
     _observer := _observer n;
     _rtcp_sr_generators := _rtcp_sr_generators n;
     _tracks := _tracks n;
     _rtp_frame_jitter_buffers := _rtp_frame_jitter_buffers n;
     _rtp_minimal_jitter_buffers := _rtp_minimal_jitter_buffers n;
     _receive_statistics := _receive_statistics n;
     _last_sent_rtp_packet := _last_sent_rtp_packet n;
     _last_sent_rtcp_packet := _last_sent_rtcp_packet n |}.

Definition with_observer (v : bool) (n : RtpRtcp) : RtpRtcp :=
  {| node_state := node_state n;
     _observer := v;
     _rtcp_sr_generators := _rtcp_sr_generators n;
     _tracks := _tracks n;
     _rtp_frame_jitter_buffers := _rtp_frame_jitter_buffers n;
     _rtp_minimal_jitter_buffers := _rtp_minimal_jitter_buffers n;
     _receive_statistics := _receive_statistics n;
     _last_sent_rtp_packet := _last_sent_rtp_packet n;
     _last_sent_rtcp_packet := _last_sent_rtcp_packet n |}.

Definition with_rtcp_sr_generator (payload_type : Z) (g : RtcpSRGenerator) (n : RtpRtcp)
    : RtpRtcp :=
  {| node_state := node_state n;
     _observer := _observer n;
     _rtcp_sr_generators := <[payload_type := g]> (_rtcp_sr_generators n);
     _tracks := _tracks n;
     _rtp_frame_jitter_buffers := _rtp_frame_jitter_buffers n;
     _rtp_minimal_jitter_buffers := _rtp_minimal_jitter_buffers n;
     _receive_statistics := _receive_statistics n;
     _last_sent_rtp_packet := _last_sent_rtp_packet n;
     _last_sent_rtcp_packet := _last_sent_rtcp_packet n |}.

Definition with_track (payload_type : Z) (track : MediaTrack) (n : RtpRtcp) : RtpRtcp :=
  {| node_state := node_state n;
     _observer := _observer n;
     _rtcp_sr_generators := _rtcp_sr_generators n;
     _tracks := <[payload_type := track]> (_tracks n);
     _rtp_frame_jitter_buffers := _rtp_frame_jitter_buffers n;
     _rtp_minimal_jitter_buffers := _rtp_minimal_jitter_buffers n;
     _receive_statistics := _receive_statistics n;
     _last_sent_rtp_packet := _last_sent_rtp_packet n;
     _last_sent_rtcp_packet := _last_sent_rtcp_packet n |}.

Definition with_rtp_frame_jitter_buffer (payload_type : Z) (b : RtpFrameJitterBuffer)
    (n : RtpRtcp) : RtpRtcp :=
  {| node_state := node_state n;
     _observer := _observer n;
     _rtcp_sr_generators := _rtcp_sr_generators n;
     _tracks := _tracks n;
     _rtp_frame_jitter_buffers := <[payload_type := b]> (_rtp_frame_jitter_buffers n);
     _rtp_minimal_jitter_buffers := _rtp_minimal_jitter_buffers n;
     _receive_statistics := _receive_statistics n;
     _last_sent_rtp_packet := _last_sent_rtp_packet n;
     _last_sent_rtcp_packet := _last_sent_rtcp_packet n |}.

Definition with_rtp_minimal_jitter_buffer (payload_type : Z) (b : RtpMinimalJitterBuffer)
    (n : RtpRtcp) : RtpRtcp :=
  {| node_state := node_state n;
     _observer := _observer n;
     _rtcp_sr_generators := _rtcp_sr_generators n;
     _tracks := _tracks n;
     _rtp_frame_jitter_buffers := _rtp_frame_jitter_buffers n;
     _rtp_minimal_jitter_buffers := <[payload_type := b]> (_rtp_minimal_jitter_buffers n);
     _receive_statistics := _receive_statistics n;
     _last_sent_rtp_packet := _last_sent_rtp_packet n;
     _last_sent_rtcp_packet := _last_sent_rtcp_packet n |}.

Definition with_receive_statistics (ssrc : Z) (stat : RtpReceiveStatistics) (n : RtpRtcp)
    : RtpRtcp :=
  {| node_state := node_state n;
     _observer := _observer n;
     _rtcp_sr_generators := _rtcp_sr_generators n;
     _tracks := _tracks n;
     _rtp_frame_jitter_buffers := _rtp_frame_jitter_buffers n;
     _rtp_minimal_jitter_buffers := _rtp_minimal_jitter_buffers n;
     _receive_statistics := <[ssrc := stat]> (_receive_statistics n);
     _last_sent_rtp_packet := _last_sent_rtp_packet n;
     _last_sent_rtcp_packet := _last_sent_rtcp_packet n |}.

Definition with_last_sent_rtp_packet (v : option RtpPacket) (n : RtpRtcp) : RtpRtcp :=
  {| node_state := node_state n;
     _observer := _observer n;
     _rtcp_sr_generators := _rtcp_sr_generators n;
     _tracks := _tracks n;
     _rtp_frame_jitter_buffers := _rtp_frame_jitter_buffers n;
     _rtp_minimal_jitter_buffers := _rtp_minimal_jitter_buffers n;
     _receive_statistics := _receive_statistics n;
     _last_sent_rtp_packet := v;
     _last_sent_rtcp_packet := _last_sent_rtcp_packet n |}.

Definition with_last_sent_rtcp_packet (v : option RtcpPacket) (n : RtpRtcp) : RtpRtcp :=
  {| node_state := node_state n;
     _observer := _observer n;
     _rtcp_sr_generators := _rtcp_sr_generators n;
     _tracks := _tracks n;
     _rtp_frame_jitter_buffers := _rtp_frame_jitter_buffers n;
     _rtp_minimal_jitter_buffers := _rtp_minimal_jitter_buffers n;
     _receive_statistics := _receive_statistics n;
     _last_sent_rtp_packet := _last_sent_rtp_packet n;
     _last_sent_rtcp_packet := v |}.

(** The constructor. The state [ov::Node] starts in is decided outside the two
    files and is passed in; the tables start empty. *)
Definition RtpRtcp_new (observer : bool) (initial_state : NodeState) : RtpRtcp :=
  {| node_state := initial_state;
     _observer := observer;
     _rtcp_sr_generators := ∅;
     _tracks := ∅;
     _rtp_frame_jitter_buffers := ∅;
     _rtp_minimal_jitter_buffers := ∅;
     _receive_statistics := ∅;
     _last_sent_rtp_packet := None;
     _last_sent_rtcp_packet := None |}.

Definition AddRtcpSRGenerator (payload_type ssrc codec_rate : Z) : M bool :=
  n ← this;
  match node_state n with
  | Ready =>
      g ← RtcpSRGenerator_new ssrc codec_rate;
      _ ← modify (with_rtcp_sr_generator payload_type g);
      mret true
  | _ =>
      _ ← log "It can only be called in the ready state.";
      mret false
  end.

Definition AddRtpReceiver (payload_type : Z) (track : MediaTrack) : M bool :=
  n ← this;
  match node_state n with
  | Ready =>
      _ ← modify (with_track payload_type track);
      match GetOriginBitstream track with
      | H264_RTP_RFC_6184 | VP8_RTP_RFC_7741 | AAC_MPEG4_GENERIC =>
          _ ← modify (with_rtp_frame_jitter_buffer payload_type RtpFrameJitterBuffer_new);
          mret true
      | OPUS_RTP_RFC_7587 =>
          _ ← modify (with_rtp_minimal_jitter_buffer payload_type RtpMinimalJitterBuffer_new);
          mret true
      | OtherBitstreamFormat _ =>
          _ ← log "RTP Receiver cannot support %d input stream format";
          mret false
      end
  | _ =>
      _ ← log "It can only be called in the ready state.";
      mret false
  end.

(** Modelled from the spec: [ov::Node::Start] and [ov::Node::Stop] are
    outside the two files. Start takes Ready to Started; Stop takes any
    state to Stopped and may be repeated. *)
Definition Node_Start : M bool :=
  n ← this;
  match node_state n with
  | Ready => _ ← modify (with_node_state Started); mret true
  | _ => mret false
  end.

Definition Node_Stop : M bool :=
  _ ← modify (with_node_state Stopped); mret true.

Definition Stop : M bool :=
  _ ← modify (with_observer false);
  Node_Stop.

Definition SendRtpPacket (rtp_packet : RtpPacket) : M bool :=
  n ← this;
  match node_state n with
  | Started =>
      _ ← match _rtcp_sr_generators n !! PayloadType rtp_packet with
          | Some rtcp_sr_generator =>
              g1 ← AddRTPPacketAndGenerateRtcpSR rtcp_sr_generator rtp_packet;
              if IsAvailableRtcpSRPacket g1 then
                let (rtcp_sr_packet, g2) := PopRtcpSRPacket g1 in
                _ ← modify (with_rtcp_sr_generator (PayloadType rtp_packet) g2);
                _ ← modify (with_last_sent_rtcp_packet rtcp_sr_packet);
                match rtcp_sr_packet with
                | Some p =>
                    ok ← SendDataToNextNode Rtcp (RtcpData p);
                    if ok : bool
                    then log "Send RTCP succeed : pt(%d) ssrc(%u) length(%d)"
                    else log "Send RTCP failed : pt(%d) ssrc(%u)"
                | None => undefined
                end
              else
                modify (with_rtcp_sr_generator (PayloadType rtp_packet) g1)
          | None => mret tt
          end;
      _ ← modify (with_last_sent_rtp_packet (Some rtp_packet));
      SendDataToNextNode Rtp (RtpData rtp_packet)
  | _ =>
      _ ← log "Node has not started, so the received data has been canceled.";
      mret false
  end.

Definition SendFir (media_ssrc : Z) : M bool :=
  n ← this;
  match _receive_statistics n !! media_ssrc with
  | None =>
      (* Never received such SSRC packet *)
      mret false
  | Some stat =>
      let fir :=
        {| fir_SrcSsrc := GetReceiverSSRC stat;
           fir_Messages :=
             [(media_ssrc, to_uint8 (Z.rem (GetNumberOfFirRequests stat) 256))] |} in
      let rtcp_packet := {| rtcp_info := InfoFIR fir;
                            rtcp_built := RtcpPacket_Build (InfoFIR fir) |} in
      _ ← modify (with_receive_statistics media_ssrc (OnFirRequested stat));
      _ ← modify (with_last_sent_rtcp_packet (Some rtcp_packet));
      SendDataToNextNode Rtcp (RtcpData rtcp_packet)
  end.

Definition GetReceivedPayloadType (ssrc : Z) : M Z :=
  n ← this;
  match _receive_statistics n !! ssrc with
  | None => mret 0
  | Some stat => mret (GetPayloadType stat)
  end.

Definition OnDataReceivedFromPrevNode (from_node : NodeType) (data : Data) : M bool :=
  n ← this;
  match node_state n with
  | Started =>
      ok ← SendDataToNextNode from_node (RawData data);
      if ok : bool then mret true
      else _ ← log "Send data failed from(%d) data_len(%d)"; mret false
  | _ =>
      _ ← log "Node has not started, so the received data has been canceled.";
      mret false
  end.

Definition OnRtpReceived (data : Data) : M bool :=
  let packet := RtpPacket_parse data in
  _ ← log "%s";
  n ← this;
  match _tracks n !! PayloadType packet with
  | None =>
      _ ← log "Could not find track info for payload type %d";
      mret false
  | Some track =>
      stat ← match _receive_statistics n !! Ssrc packet with
             | None =>
                 (* First receive *)
                 now ← system_clock_now;
                 let stat := RtpReceiveStatistics_new (PayloadType packet) (Ssrc packet)
                               (GetTimeBaseDen track) now in
                 _ ← modify (with_receive_statistics (Ssrc packet) stat);
                 mret stat
             | Some stat => mret stat
             end;
      now ← system_clock_now;
      let stat := AddReceivedRtpPacket stat packet now in
      _ ← modify (with_receive_statistics (Ssrc packet) stat);
      (* Send ReceiverReport *)
      now ← system_clock_now;
      _ ← (if HasElapsedSinceLastReportBlock stat RECEIVER_REPORT_CYCLE_MS now then
             now ← system_clock_now;
             let (block, stat') := GenerateReportBlock stat now in
             let report := {| rr_RtpPayloadType := PayloadType packet;
                              rr_SenderSsrc := GetReceiverSSRC stat;
                              rr_ReportBlocks := [block] |} in
             _ ← modify (with_receive_statistics (Ssrc packet) stat');
             if RtcpPacket_Build (InfoRR report) then
               let rtcp_packet := {| rtcp_info := InfoRR report; rtcp_built := true |} in
               _ ← modify (with_last_sent_rtcp_packet (Some rtcp_packet));
               _ ← SendDataToNextNode Rtcp (RtcpData rtcp_packet);
               mret tt
             else mret tt
           else mret tt);
      let jitter_buffer_type :=
        match GetOriginBitstream track with
        | H264_RTP_RFC_6184 | VP8_RTP_RFC_7741 | AAC_MPEG4_GENERIC => 1
        | OPUS_RTP_RFC_7587 => 2
        | OtherBitstreamFormat _ => 0
        end in
      if jitter_buffer_type =? 1 then
        n ← this;
        match _rtp_frame_jitter_buffers n !! PayloadType packet with
        | None =>
            (* can not happen *)
            _ ← log "Could not find jitter buffer for payload type %d";
            mret false
        | Some jitter_buffer =>
            let (frame, jitter_buffer') :=
              PopAvailableFrame (FrameInsertPacket jitter_buffer packet) in
            _ ← modify (with_rtp_frame_jitter_buffer (PayloadType packet) jitter_buffer');
            match frame with
            | Some frame_packets =>
                if _observer n then
                  match frame_packets with
                  | [] =>
                      (* can not happen; the log line reads through the null packet *)
                      undefined
                  | first :: others =>
                      _ ← emit (EvRtpFrame (first :: others));
                      mret true
                  end
                else mret true
            | None => mret true
            end
        end
      else if jitter_buffer_type =? 2 then
        n ← this;
        match _rtp_minimal_jitter_buffers n !! PayloadType packet with
        | None =>
            (* can not happen *)
            _ ← log "Could not find jitter buffer for payload type %d";
            mret false
        | Some jitter_buffer =>
            let (pop_packet, jitter_buffer') :=
              PopAvailablePacket (MinimalInsertPacket jitter_buffer packet) in
            _ ← modify (with_rtp_minimal_jitter_buffer (PayloadType packet) jitter_buffer');
            match pop_packet with
            | Some p =>
                if _observer n then _ ← emit (EvRtpFrame [p]); mret true
                else undefined
            | None => mret true
            end
        end
      else
        _ ← log "Could not find jitter buffer for payload type %d";
        mret true
  end.

(** The loop of [OnRtcpReceived] over the parsed infos. *)
Fixpoint deliver_rtcp_infos (infos : list RtcpInfo) : M unit :=
  match infos with
  | [] => mret tt
  | info :: rest =>
      _ ← match info with
          | InfoSR sr =>
              n ← this;
              match _receive_statistics n !! sr_SenderSsrc sr with
              | Some stat =>
                  now ← system_clock_now;
                  modify (with_receive_statistics (sr_SenderSsrc sr)
                            (AddReceivedRtcpSenderReport stat sr now))
              | None => mret tt
              end
          | _ => mret tt
          end;
      n ← this;
      _ ← (if _observer n then emit (EvRtcp info) else mret tt);
      deliver_rtcp_infos rest
  end.

Definition OnRtcpReceived (data : Data) : M bool :=
  _ ← log "Get RTCP Packet - length(%d)";
  match ParseCompoundPacket data with
  | None => mret false
  | Some infos => _ ← deliver_rtcp_infos infos; mret true
  end.

Definition OnDataReceivedFromNextNode (from_node : NodeType) (data : Data) : M bool :=
  n ← this;
  match node_state n with
  | Started =>
      (* std::min(FIXED_HEADER_SIZE, RTCP_HEADER_SIZE) *)
      if (length data <? RTCP_HEADER_SIZE)%nat then
        _ ← log "It is not an RTP or RTCP packet.";
        mret false
      else
        first_byte ← GetDataAs_uint8 data 0;
        if (128 <=? first_byte) && (first_byte <=? 191) then
          (* Distinguish between RTP and RTCP *)
          payload_type ← GetDataAs_uint8 data 1;
          if (192 <=? payload_type) && (payload_type <=? 223)
          then OnRtcpReceived data
          else OnRtpReceived data
        else
          _ ← log "It is not an RTP or RTCP packet.";
          mret false
  | _ =>
      _ ← log "Node has not started, so the received data has been canceled.";
      mret false
  end.

Definition GetLastSentRtpPacket : M (option RtpPacket) :=
  n ← this; mret (_last_sent_rtp_packet n).

Definition GetLastSentRtcpPacket : M (option RtcpPacket) :=
  n ← this; mret (_last_sent_rtcp_packet n).

End Model.

Arguments Done {T A} a w.
Arguments media_clock_msw : simpl never.
Arguments media_clock_lsw : simpl never.
Arguments Undefined {T A}.

(** * Vocabulary of the properties *)

Section Vocabulary.

Context {T : CollaboratorTypes} {C : Collaborators}.

Definition result {A} (o : Outcome A) : option A :=
  match o with Done a _ => Some a | Undefined => None end.

Definition final {A} (o : Outcome A) : option World :=
  match o with Done _ w => Some w | Undefined => None end.

(** [n] milliseconds in clock ticks. *)
Definition ms (n : Z) : Z := n * ticks_per_ms.

(** The clock never runs backwards. *)
Definition monotone_clock (w : World) : Prop :=
  ∀ i j : nat, (i ≤ j)%nat → clock w i ≤ clock w j.

(** The world after [n] more clock readings, and the [i]-th reading ahead. *)
Definition advance (n : nat) (w : World) : World :=
  {| node := node w; clock := clock w; clock_reads := n + clock_reads w;
     next_node := next_node w; trace := trace w |}.

Definition reading (w : World) (i : nat) : Z := clock w (i + clock_reads w).

(** The condition of lines 20-21 at the readings a call in [w] takes. *)
Definition sr_due (g : RtcpSRGenerator) (w : World) : bool :=
  if elapsed_ms (_created_time g) (reading w 0) <? 10000 then
    (500 <? elapsed_ms (_last_generated_time g) (reading w 1))
    || (4999 <? elapsed_ms (_last_generated_time g) (reading w 2))
  else 4999 <? elapsed_ms (_last_generated_time g) (reading w 1).

(** How many clock readings that call takes. *)
Definition readings_used (g : RtcpSRGenerator) (w : World) : nat :=
  if elapsed_ms (_created_time g) (reading w 0) <? 10000 then
    if 500 <? elapsed_ms (_last_generated_time g) (reading w 1) then 3%nat
    else if 4999 <? elapsed_ms (_last_generated_time g) (reading w 2) then 4%nat
    else 3%nat
  else
    if 4999 <? elapsed_ms (_last_generated_time g) (reading w 1) then 3%nat
    else 2%nat.

(** The generator after a call that built a report at [now], and after one
    that did not. *)
Definition generated (g : RtcpSRGenerator) (rtp_packet : RtpPacket) (now : Z)
    : RtcpSRGenerator :=
  let report := build_report g rtp_packet
                  (to_uint32 (_packet_count g + 1))
                  (to_uint32 (_octec_count g + PayloadSize rtp_packet)) in
  {| _ssrc := _ssrc g;
     _codec_rate := _codec_rate g;
     _created_time := _created_time g;
     _last_generated_time := now;
     _packet_count := 0;
     _octec_count := 0;
     _rtcp_generated_count := to_uint32 (_rtcp_generated_count g + 1);
     _rtcp_packet := Some {| rtcp_info := InfoSR report;
                             rtcp_built := RtcpPacket_Build (InfoSR report) |} |}.

Definition accumulated (g : RtcpSRGenerator) (rtp_packet : RtpPacket) : RtcpSRGenerator :=
  {| _ssrc := _ssrc g;
     _codec_rate := _codec_rate g;
     _created_time := _created_time g;
     _last_generated_time := _last_generated_time g;
     _packet_count := to_uint32 (_packet_count g + 1);
     _octec_count := to_uint32 (_octec_count g + PayloadSize rtp_packet);
     _rtcp_generated_count := _rtcp_generated_count g;
     _rtcp_packet := _rtcp_packet g |}.


(** Each time of [times] is more than [gap] after the one before it,
    starting from [previous]. *)
Fixpoint spaced (gap previous : Z) (times : list Z) : Prop :=
  match times with
  | [] => True
  | t :: later => previous + gap < t ∧ spaced gap t later
  end.

(** When the report of an emission was built. *)
Definition built_at (e : Emission) : Z := _last_generated_time (em_after e).


(** The world with [evs] appended to its trace. *)
Definition record_events (evs : list Event) (w : World) : World :=
  {| node := node w; clock := clock w; clock_reads := clock_reads w;
     next_node := next_node w; trace := trace w ++ evs |}.

(** The four formats the switches of [AddRtpReceiver] and [OnRtpReceived]
    name. *)
Definition supported (f : BitstreamFormat) : Prop :=
  f = H264_RTP_RFC_6184 ∨ f = VP8_RTP_RFC_7741 ∨ f = AAC_MPEG4_GENERIC ∨ f = OPUS_RTP_RFC_7587.

(** The sequence numbers of the FIR entries for [media_ssrc] among events. *)
Definition fir_sequence_numbers (media_ssrc : Z) (evs : list Event) : list Z :=
  flat_map (fun e =>
    match e with
    | EvSend Rtcp (RtcpData {| rtcp_info := InfoFIR fir |}) _ =>
        map snd (List.filter (fun m => fst m =? media_ssrc) (fir_Messages fir))
    | _ => []
    end) evs.

(** [n] calls of [SendFir] in a row. *)
Fixpoint SendFir_times (n : nat) (media_ssrc : Z) : M unit :=
  match n with
  | O => mret tt
  | S k => _ ← SendFir media_ssrc; SendFir_times k media_ssrc
  end.

(** Each number is the one before plus 1, modulo 256. *)
Fixpoint steps_of_one_mod_256 (l : list Z) : Prop :=
  match l with
  | a :: (b :: _) as later => b = (a + 1) mod 256 ∧ steps_of_one_mod_256 later
  | _ => True
  end.

(** A computation only ever appends to the trace. *)
Definition grows {A} (m : M A) : Prop :=
  ∀ w a w', m w = Done a w' → ∃ evs, trace w' = trace w ++ evs.

(** The cadence of the reports of a run, for a generator created at
    [created]; [previous] is when the report before was built (for the
    first one, the time the constructor stored as last report). Each report
    is built more than 500 ms after creation and after the report before;
    and more than 4999 ms after the report before when that one was built
    10 s or more after creation, as long as the time since creation is
    below 2^32 ms. *)
Fixpoint cadence (created previous : Z) (es : list Emission) : Prop :=
  match es with
  | [] => True
  | e :: later =>
      created + ms 500 < built_at e
      ∧ previous + ms 500 < built_at e
      ∧ (created + ms 10000 ≤ previous →
         built_at e - created < ms (2 ^ 32) →
         previous + ms 4999 < built_at e)
      ∧ cadence created (built_at e) later
  end.

(** What a report of a run says of the generator [g] that built it: it
    carries the ssrc of [g], the RTP timestamp of the packet that triggered
    it and the media clock that lines 31-38 compute from that timestamp and
    the codec rate of [g]; for a timestamp and a nonzero codec rate that are
    [uint32_t] values, [msw] is the whole seconds of media time, the
    quotient of the timestamp by the codec rate; its built flag is what
    [Build] returned; building it left ssrc, codec rate and creation time
    alone. *)
Definition report_identity_ok (g : RtcpSRGenerator) (e : Emission) : Prop :=
  ∃ report p,
    em_report e = {| rtcp_info := InfoSR report;
                     rtcp_built := RtcpPacket_Build (InfoSR report) |}
    ∧ last (em_observed e) = Some p
    ∧ sr_SenderSsrc report = _ssrc g
    ∧ sr_Timestamp report = Timestamp p
    ∧ sr_Msw report = media_clock_msw (Timestamp p) (_codec_rate g)
    ∧ sr_Lsw report = media_clock_lsw (Timestamp p) (_codec_rate g)
    ∧ (0 ≤ Timestamp p < 2 ^ 32 → 0 < _codec_rate g < 2 ^ 32 →
       sr_Msw report = Timestamp p / _codec_rate g)
    ∧ _ssrc (em_after e) = _ssrc g
    ∧ _codec_rate (em_after e) = _codec_rate g
    ∧ _created_time (em_after e) = _created_time g.

(** What RTCP handling may change of the node: entries of the statistics
    table that exist. *)
Definition rtcp_footprint (n n' : RtpRtcp) : Prop :=
  node_state n' = node_state n
  ∧ _observer n' = _observer n
  ∧ _rtcp_sr_generators n' = _rtcp_sr_generators n
  ∧ _tracks n' = _tracks n
  ∧ _rtp_frame_jitter_buffers n' = _rtp_frame_jitter_buffers n
  ∧ _rtp_minimal_jitter_buffers n' = _rtp_minimal_jitter_buffers n
  ∧ _last_sent_rtp_packet n' = _last_sent_rtp_packet n
  ∧ _last_sent_rtcp_packet n' = _last_sent_rtcp_packet n
  ∧ dom (_receive_statistics n') = dom (_receive_statistics n).

(** The ssrcs of the sender reports among some infos. *)
Definition sender_report_ssrcs (infos : list RtcpInfo) : list Z :=
  flat_map (fun info => match info with InfoSR sr => [sr_SenderSsrc sr] | _ => [] end) infos.

(** What RTP handling of a packet with payload type [pt] and ssrc [ssrc] may
    change of the node: the statistics entry of [ssrc], the jitter buffers
    registered for [pt], and the last sent RTCP packet. *)
Definition rtp_footprint (pt ssrc : Z) (n n' : RtpRtcp) : Prop :=
  node_state n' = node_state n
  ∧ _observer n' = _observer n
  ∧ _rtcp_sr_generators n' = _rtcp_sr_generators n
  ∧ _tracks n' = _tracks n
  ∧ _last_sent_rtp_packet n' = _last_sent_rtp_packet n
  ∧ dom (_rtp_frame_jitter_buffers n') = dom (_rtp_frame_jitter_buffers n)
  ∧ (∀ k, k ≠ pt → _rtp_frame_jitter_buffers n' !! k = _rtp_frame_jitter_buffers n !! k)
  ∧ dom (_rtp_minimal_jitter_buffers n') = dom (_rtp_minimal_jitter_buffers n)
  ∧ (∀ k, k ≠ pt →
          _rtp_minimal_jitter_buffers n' !! k = _rtp_minimal_jitter_buffers n !! k)
  ∧ (∀ k, k ≠ ssrc → _receive_statistics n' !! k = _receive_statistics n !! k)
  ∧ dom (_receive_statistics n) ⊆ dom (_receive_statistics n').

(** Every track of a supported format has a jitter buffer of the kind its
    format selects, under the same payload type. *)
Definition buffers_match (n : RtpRtcp) : Prop :=
  ∀ pt track, _tracks n !! pt = Some track →
    match GetOriginBitstream track with
    | H264_RTP_RFC_6184 | VP8_RTP_RFC_7741 | AAC_MPEG4_GENERIC =>
        is_Some (_rtp_frame_jitter_buffers n !! pt)
    | OPUS_RTP_RFC_7587 => is_Some (_rtp_minimal_jitter_buffers n !! pt)
    | OtherBitstreamFormat _ => True
    end.

(** No generator of the node holds a report that was not sent. *)
Definition slots_empty (n : RtpRtcp) : Prop :=
  ∀ pt g, _rtcp_sr_generators n !! pt = Some g → _rtcp_packet g = None.

(** No key leaves a table. *)
Definition tables_only_grow (n n' : RtpRtcp) : Prop :=
  dom (_rtcp_sr_generators n) ⊆ dom (_rtcp_sr_generators n')
  ∧ dom (_tracks n) ⊆ dom (_tracks n')
  ∧ dom (_rtp_frame_jitter_buffers n) ⊆ dom (_rtp_frame_jitter_buffers n')
  ∧ dom (_rtp_minimal_jitter_buffers n) ⊆ dom (_rtp_minimal_jitter_buffers n')
  ∧ dom (_receive_statistics n) ⊆ dom (_receive_statistics n').

(** Outside Ready the registrations stand: same tracks, same payload types
    with a generator and with a jitter buffer of each kind. *)
Definition registration_frozen (n n' : RtpRtcp) : Prop :=
  node_state n ≠ Ready →
  node_state n' ≠ Ready
  ∧ _tracks n' = _tracks n
  ∧ dom (_rtcp_sr_generators n') = dom (_rtcp_sr_generators n)
  ∧ dom (_rtp_frame_jitter_buffers n') = dom (_rtp_frame_jitter_buffers n)
  ∧ dom (_rtp_minimal_jitter_buffers n') = dom (_rtp_minimal_jitter_buffers n).

(** What every call keeps, taken together. *)
Definition keeps (n n' : RtpRtcp) : Prop :=
  (buffers_match n → buffers_match n')
  ∧ (slots_empty n → slots_empty n')
  ∧ tables_only_grow n n'
  ∧ registration_frozen n n'.

(** What a call on the send or receive path may change. *)
Definition hot_path_footprint (n n' : RtpRtcp) : Prop :=
  node_state n' = node_state n
  ∧ _observer n' = _observer n
  ∧ _tracks n' = _tracks n
  ∧ dom (_rtcp_sr_generators n') = dom (_rtcp_sr_generators n)
  ∧ (∀ k g', _rtcp_sr_generators n' !! k = Some g' →
             _rtcp_sr_generators n !! k = Some g' ∨ _rtcp_packet g' = None)
  ∧ dom (_rtp_frame_jitter_buffers n') = dom (_rtp_frame_jitter_buffers n)
  ∧ dom (_rtp_minimal_jitter_buffers n') = dom (_rtp_minimal_jitter_buffers n)
  ∧ dom (_receive_statistics n) ⊆ dom (_receive_statistics n').

(** The calls a user of the node makes. *)
Inductive Call :=
  | CallAddRtcpSRGenerator (payload_type ssrc codec_rate : Z)
  | CallAddRtpReceiver (payload_type : Z) (track : MediaTrack)
  | CallStart
  | CallStop
  | CallSendRtpPacket (rtp_packet : RtpPacket)
  | CallSendFir (media_ssrc : Z)
  | CallOnDataReceivedFromPrevNode (from_node : NodeType) (data : Data)
  | CallOnDataReceivedFromNextNode (from_node : NodeType) (data : Data).

(** Start is [ov::Node::Start], which the class inherits. *)
Definition perform (c : Call) : M bool :=
  match c with
  | CallAddRtcpSRGenerator payload_type ssrc codec_rate =>
      AddRtcpSRGenerator payload_type ssrc codec_rate
  | CallAddRtpReceiver payload_type track => AddRtpReceiver payload_type track
  | CallStart => Node_Start
  | CallStop => Stop
  | CallSendRtpPacket rtp_packet => SendRtpPacket rtp_packet
  | CallSendFir media_ssrc => SendFir media_ssrc
  | CallOnDataReceivedFromPrevNode from_node data => OnDataReceivedFromPrevNode from_node data
  | CallOnDataReceivedFromNextNode from_node data => OnDataReceivedFromNextNode from_node data
  end.

Fixpoint perform_all (cs : list Call) : M (list bool) :=
  match cs with
  | [] => mret []
  | c :: later => b ← perform c; bs ← perform_all later; mret (b :: bs)
  end.

(** What [OnRtpReceived] returns for a packet, read from the track, the
    jitter buffers and the observer alone; [None] stands for [Undefined]. *)
Definition OnRtpReceived_verdict (n : RtpRtcp) (packet : RtpPacket) : option bool :=
  match _tracks n !! PayloadType packet with
  | None => Some false
  | Some track =>
      match GetOriginBitstream track with
      | H264_RTP_RFC_6184 | VP8_RTP_RFC_7741 | AAC_MPEG4_GENERIC =>
          match _rtp_frame_jitter_buffers n !! PayloadType packet with
          | None => Some false
          | Some jb =>
              match fst (PopAvailableFrame (FrameInsertPacket jb packet)) with
              | Some [] => if _observer n then None else Some true
              | _ => Some true
              end
          end
      | OPUS_RTP_RFC_7587 =>
          match _rtp_minimal_jitter_buffers n !! PayloadType packet with
          | None => Some false
          | Some jb =>
              match fst (PopAvailablePacket (MinimalInsertPacket jb packet)) with
              | Some _ => if _observer n then Some true else None
              | None => Some true
              end
          end
      | OtherBitstreamFormat _ => Some true
      end
  end.

(** The calls that begin with the lifecycle check. *)
Definition gated (c : Call) : Prop :=
  match c with
  | CallSendRtpPacket _
  | CallOnDataReceivedFromPrevNode _ _
  | CallOnDataReceivedFromNextNode _ _ => True
  | _ => False
  end.

(** The RTCP packets and the RTP packets among the sends of some events. *)
Definition sent_rtcp_packets (evs : list Event) : list RtcpPacket :=
  flat_map (fun e => match e with EvSend _ (RtcpData p) _ => [p] | _ => [] end) evs.

Definition sent_rtp_packets (evs : list Event) : list RtpPacket :=
  flat_map (fun e => match e with EvSend _ (RtpData p) _ => [p] | _ => [] end) evs.

End Vocabulary.

(** * A sample instantiation

    Simple collaborators, to run the model on concrete inputs. *)

Module Sample.

Record Statistics := {
  payload_type : Z;
  media_ssrc : Z;
  clock_rate : Z;
  received : Z;
  last_report : Z;
  fir_requests : Z
}.

Definition types : CollaboratorTypes :=
  {| ReportBlock := Z;
     RtpReceiveStatistics := Statistics;
     RtpFrameJitterBuffer := list RtpPacket;
     RtpMinimalJitterBuffer := list RtpPacket |}.

Definition byte_at (data : Data) (i : nat) : Z :=
  match nth_error data i with Some b => byte_value b | None => 0 end.

Definition be32 (data : Data) (i : nat) : Z :=
  Z.lor (Z.shiftl (byte_at data i) 24)
    (Z.lor (Z.shiftl (byte_at data (i + 1)) 16)
       (Z.lor (Z.shiftl (byte_at data (i + 2)) 8) (byte_at data (i + 3)))).

(** The fixed RTP header: payload type in the low 7 bits of byte 1,
    timestamp in bytes 4-7, ssrc in bytes 8-11. *)
Definition parse (data : Data) : RtpPacket :=
  {| PayloadType := Z.land (byte_at data 1) 127;
     Ssrc := be32 data 8;
     Timestamp := be32 data 4;
     PayloadSize := Z.of_nat (length data - 12) |}.

Definition statistics_new (pt ssrc rate now : Z) : Statistics :=
  {| payload_type := pt; media_ssrc := ssrc; clock_rate := rate;
     received := 0; last_report := now; fir_requests := 0 |}.

Definition add_received (s : Statistics) (p : RtpPacket) (now : Z) : Statistics :=
  {| payload_type := payload_type s; media_ssrc := media_ssrc s;
     clock_rate := clock_rate s; received := received s + 1;
     last_report := last_report s; fir_requests := fir_requests s |}.

Definition report_block (s : Statistics) (now : Z) : Z * Statistics :=
  (received s,
   {| payload_type := payload_type s; media_ssrc := media_ssrc s;
      clock_rate := clock_rate s; received := received s;
      last_report := now; fir_requests := fir_requests s |}).

Definition fir_requested (s : Statistics) : Statistics :=
  {| payload_type := payload_type s; media_ssrc := media_ssrc s;
     clock_rate := clock_rate s; received := received s;
     last_report := last_report s; fir_requests := fir_requests s + 1 |}.

#[local] Existing Instance types.

Definition collaborators : @Collaborators types :=
  {| RTCP_HEADER_SIZE := 4%nat;
     RECEIVER_REPORT_CYCLE_MS := 1000;
     RtpPacket_parse := parse;
     RtcpPacket_Build := fun _ => true;
     ParseCompoundPacket := fun _ => Some [];
     uint32_of_unrepresentable := fun _ => 0;
     RtpReceiveStatistics_new := statistics_new;
     AddReceivedRtpPacket := add_received;
     HasElapsedSinceLastReportBlock :=
       fun s interval now => interval * 1000000 <? now - last_report s;
     GenerateReportBlock := report_block;
     AddReceivedRtcpSenderReport := fun s _ _ => s;
     GetReceiverSSRC := fun _ => 1;
     GetPayloadType := payload_type;
     GetNumberOfFirRequests := fir_requests;
     OnFirRequested := fir_requested;
     RtpFrameJitterBuffer_new := [];
     FrameInsertPacket := fun b p => b ++ [p];
     PopAvailableFrame := fun b => match b with [] => (None, []) | _ => (Some b, []) end;
     RtpMinimalJitterBuffer_new := [];
     MinimalInsertPacket := fun b p => b ++ [p];
     PopAvailablePacket := fun b => match b with [] => (None, []) | p :: b' => (Some p, b') end |}.

(** A node with empty tables and an observer, in a given lifecycle state. *)
Definition node_in (state : NodeState) : @RtpRtcp types := RtpRtcp_new true state.

(** A world around it: the node below accepts every send. *)
Definition world (n : @RtpRtcp types) (clk : nat -> Z) : @World types :=
  {| node := n; clock := clk; clock_reads := 0;
     next_node := fun _ _ _ => true; trace := [] |}.

(** The same, but the node below refuses every RTCP send. *)
Definition world_refusing_rtcp (n : @RtpRtcp types) (clk : nat -> Z) : @World types :=
  {| node := n; clock := clk; clock_reads := 0;
     next_node := fun _ to _ => match to with Rtcp => false | _ => true end;
     trace := [] |}.

(** A clock that stands at 0 for the two readings of the generator's
    constructor, at 2^32 - 1000 ms for the next three readings and at
    2^32 + 1 ms from then on. *)
Definition clock_across_wrap (k : nat) : Z :=
  if (k <? 2)%nat then 0
  else if (k <? 5)%nat then 4294966296 * 1000000
  else 4294967297 * 1000000.

Definition rtp_packet_96 : RtpPacket :=
  {| PayloadType := 96; Ssrc := 7; Timestamp := 3000; PayloadSize := 100 |}.

(** A packet one and a half seconds into a 90 kHz stream. *)
Definition rtp_packet_at_1500_ms : RtpPacket :=
  {| PayloadType := 96; Ssrc := 7; Timestamp := 135000; PayloadSize := 100 |}.

(** A clock that advances 2 s from one reading to the next. *)
Definition steady_clock (k : nat) : Z := Z.of_nat k * 2000000000.

Definition h264_track : MediaTrack :=
  {| GetOriginBitstream := H264_RTP_RFC_6184; GetTimeBaseDen := 90000 |}.

Definition unsupported_track : MediaTrack :=
  {| GetOriginBitstream := OtherBitstreamFormat 1; GetTimeBaseDen := 90000 |}.

(** An RTP datagram: payload type 96, timestamp 3000, ssrc 7, two payload
    bytes. *)
Definition rtp_datagram : Data :=
  [x80; x60; x00; x01; x00; x00; x0b; xb8; x00; x00; x00; x07; x01; x02].

(** The first bytes of an RTCP sender report (packet type 200). *)
Definition rtcp_datagram : Data := [x80; xc8; x00; x06].

(** Register an H.264 receiver for payload type 96, start, receive one RTP
    datagram, stop. *)
Definition receive_then_stop : M bool :=
  _ ← AddRtpReceiver (C := collaborators) 96 h264_track;
  _ ← Node_Start;
  _ ← OnDataReceivedFromNextNode (C := collaborators) Rtp rtp_datagram;
  Stop.

(** Try to register a receiver with an unsupported format for payload type
    96, then start. *)
Definition register_unsupported_then_start : M bool :=
  _ ← AddRtpReceiver (C := collaborators) 96 unsupported_track;
  Node_Start.

(** A statistics entry for ssrc 7 that has seen 254 FIR requests. *)
Definition statistics_254 : Statistics :=
  {| payload_type := 96; media_ssrc := 7; clock_rate := 90000;
     received := 10; last_report := 0; fir_requests := 254 |}.

Definition node_with_statistics : @RtpRtcp types :=
  with_receive_statistics 7 statistics_254 (node_in Started).

(** A generator for payload type 96 that is due to report. *)
Definition node_with_generator : @RtpRtcp types :=
  with_rtcp_sr_generator 96
    {| _ssrc := 1; _codec_rate := 90000; _created_time := 0;
       _last_generated_time := 0; _packet_count := 4; _octec_count := 400;
       _rtcp_generated_count := 0; _rtcp_packet := None |}
    (node_in Started).

(** A clock that advances 100 ms from one reading to the next, and one that
    does so starting 2^32 ms after time 0. *)
Definition slow_clock (k : nat) : Z := Z.of_nat k * 100000000.

Definition clock_after_silence (k : nat) : Z :=
  4294967296 * 1000000 + Z.of_nat k * 100000000.

(** A generator created at time 0 that has not reported yet. *)
Definition generator_at_0 : @RtcpSRGenerator types :=
  {| _ssrc := 1; _codec_rate := 90000; _created_time := 0;
     _last_generated_time := 0; _packet_count := 0; _octec_count := 0;
     _rtcp_generated_count := 0; _rtcp_packet := None |}.

(** A started node with an H.264 receiver for payload type 96; the same
    with a statistics entry for ssrc 7; and a started node whose track for
    payload type 96 has an unsupported format and no jitter buffer. *)
Definition node_with_receiver : @RtpRtcp types :=
  with_rtp_frame_jitter_buffer 96 []
    (with_track 96 h264_track (node_in Started)).

Definition node_with_receiver_and_statistics : @RtpRtcp types :=
  with_receive_statistics 7 statistics_254 node_with_receiver.

Definition node_with_unsupported_track : @RtpRtcp types :=
  with_track 96 unsupported_track (node_in Started).

(** A session: registrations, start, one datagram in, one packet out, a FIR,
    stop, and a late registration. *)
Definition session : list Call :=
  [CallAddRtcpSRGenerator 96 1 90000;
   CallAddRtpReceiver 96 h264_track;
   CallAddRtpReceiver 97 unsupported_track;
   CallStart;
   CallOnDataReceivedFromNextNode Rtp rtp_datagram;
   CallSendRtpPacket rtp_packet_96;
   CallSendFir 7;
   CallStop;
   CallAddRtpReceiver 98 h264_track].

(** Calls on a started node, a registration among them. *)
Definition calls_after_start : list Call :=
  [CallAddRtpReceiver 97 h264_track;
   CallAddRtcpSRGenerator 97 2 48000;
   CallOnDataReceivedFromNextNode Rtp rtp_datagram;
   CallSendRtpPacket rtp_packet_96;
   CallSendFir 7;
   CallStop;
   CallStart].

(** Calls of the three methods that check the lifecycle state. *)
Definition gated_calls : list Call :=
  [CallSendRtpPacket rtp_packet_96;
   CallOnDataReceivedFromNextNode Rtp rtp_datagram;
   CallOnDataReceivedFromPrevNode Rtp rtcp_datagram].

End Sample.

(** * Properties *)

(** * The media clock of a report

    What lines 31-38 of the generator compute in doubles. The integral part
    of the rounded quotient is the integer quotient: between the quotient of
    two [uint32_t] values and the next integer there is room for more than
    one unit in the last place of a double. *)

Section DoubleProperties.

Context {T : CollaboratorTypes} {C : Collaborators}.

(** Hide the powers of 2 from [lia]. *)
Ltac hide_pow :=
  repeat match goal with
         | H : context [2 ^ ?e] |- _ =>
             let x := fresh "pw" in set (x := 2 ^ e) in *; clearbody x
         | |- context [2 ^ ?e] =>
             let x := fresh "pw" in set (x := 2 ^ e) in *; clearbody x
         end.

(** The number of binary digits of a positive number. *)
Lemma digits2_pos_bounds (p : positive) :
  2 ^ (Zpos (digits2_pos p) - 1) ≤ Zpos p < 2 ^ Zpos (digits2_pos p).
Proof.
  induction p as [p IH|p IH|]; cbn [digits2_pos].
  - rewrite Pos2Z.inj_succ, Pos2Z.inj_xI.
    replace (Z.succ (Zpos (digits2_pos p)) - 1) with (Z.succ (Zpos (digits2_pos p) - 1)) by lia.
    rewrite !Z.pow_succ_r by lia. hide_pow. lia.
  - rewrite Pos2Z.inj_succ, (Pos2Z.inj_xO p).
    replace (Z.succ (Zpos (digits2_pos p)) - 1) with (Z.succ (Zpos (digits2_pos p) - 1)) by lia.
    rewrite !Z.pow_succ_r by lia. hide_pow. lia.
  - cbn. lia.
Qed.

Lemma digits2_pos_unique (p : positive) (d : Z) :
  2 ^ (d - 1) ≤ Zpos p < 2 ^ d → Zpos (digits2_pos p) = d.
Proof.
  intros [Hlo Hhi]. pose proof (digits2_pos_bounds p) as [Hlo' Hhi'].
  assert (0 < d).
  { destruct (Z.lt_trichotomy d 0) as [Hd|[Hd|Hd]]; [|subst; cbn in Hhi; lia|lia].
    rewrite Z.pow_neg_r in Hhi by lia. lia. }
  destruct (Z.lt_trichotomy (Zpos (digits2_pos p)) d) as [Hd|[Hd|Hd]]; [|exact Hd|].
  - exfalso. assert (2 ^ Zpos (digits2_pos p) ≤ 2 ^ (d - 1)) by (apply Z.pow_le_mono_r; lia). lia.
  - exfalso. assert (2 ^ d ≤ 2 ^ (Zpos (digits2_pos p) - 1)) by (apply Z.pow_le_mono_r; lia). lia.
Qed.

(** Shifting a mantissa left and right. *)
Lemma iter_xO_pow (p n : positive) : Zpos (Pos.iter xO p n) = Zpos p * 2 ^ Zpos n.
Proof.
  revert p. induction n as [|n IH] using Pos.peano_ind; intros p.
  - cbn. lia.
  - rewrite Pos.iter_succ, (Pos2Z.inj_xO (Pos.iter xO p n)), IH, Pos2Z.inj_succ, Z.pow_succ_r by lia. lia.
Qed.

Lemma shr_1_m (p : positive) r s :
  shr_m (shr_1 {| shr_m := Zpos p; shr_r := r; shr_s := s |}) = Zpos p / 2.
Proof.
  destruct p as [p|p|]; cbn [shr_1 shr_m].
  - rewrite Pos2Z.inj_xI. apply Z.div_unique with 1; lia.
  - rewrite (Pos2Z.inj_xO p). apply Z.div_unique with 0; lia.
  - reflexivity.
Qed.

Lemma shr_m_of_loc (m : Z) l : shr_m (shr_record_of_loc m l) = m.
Proof. destruct l as [|[]]; reflexivity. Qed.

Lemma shr_1_of_loc_m (p : positive) l :
  shr_m (shr_1 (shr_record_of_loc (Zpos p) l)) = Zpos p / 2.
Proof. destruct l as [|[]]; apply shr_1_m. Qed.

Lemma round_nearest_even_bounds (m : Z) l :
  m ≤ round_nearest_even m l ≤ m + 1.
Proof. destruct l as [|[]]; cbn [round_nearest_even]; try destruct (Z.even m); lia. Qed.

(** A mantissa of 53 bits stays, one of 54 bits loses its last bit. *)
Lemma shr_fexp_step (m : positive) (e : Z) l :
  2 ^ 52 ≤ Zpos m < 2 ^ 54 → -1050 ≤ e ≤ 950 →
  (Zpos m < 2 ^ 53
   ∧ shr_fexp 53 1024 (Zpos m) e l = (shr_record_of_loc (Zpos m) l, e))
  ∨ (2 ^ 53 ≤ Zpos m
     ∧ shr_fexp 53 1024 (Zpos m) e l = (shr_1 (shr_record_of_loc (Zpos m) l), e + 1)).
Proof.
  intros Hm He. unfold shr_fexp, Zdigits2, fexp, emin.
  destruct (Z_lt_le_dec (Zpos m) (2 ^ 53)) as [Hlt|Hge]; [left|right]; (split; [assumption|]).
  - rewrite (digits2_pos_unique m 53) by (split; [exact (proj1 Hm)|exact Hlt]).
    rewrite Z.max_l by lia.
    replace (53 + e - 53 - e) with 0 by lia. reflexivity.
  - rewrite (digits2_pos_unique m 54) by (split; [exact Hge|exact (proj2 Hm)]).
    rewrite Z.max_l by lia.
    replace (54 + e - 53 - e) with 1 by lia. reflexivity.
Qed.

(** Rounding a mantissa of 53 or 54 bits to a double: the result is finite,
    its mantissa is the shifted mantissa or the next number, and nothing
    changes when the mantissa has 53 bits and no bits were lost before. *)
Lemma binary_round_aux_bounds (q : positive) (e : Z) (l : location) :
  2 ^ 52 ≤ Zpos q < 2 ^ 54 → -1000 ≤ e ≤ 900 →
  ∃ M n,
    binary_round_aux 53 1024 false (Zpos q) e l = S754_finite false M (e + n)
    ∧ 0 ≤ n ≤ 2
    ∧ Zpos q / 2 ^ n ≤ Zpos M ≤ Zpos q / 2 ^ n + 1
    ∧ (l = loc_Exact → Zpos q < 2 ^ 53 → M = q ∧ n = 0).
Proof.
  intros Hq He. unfold binary_round_aux.
  destruct (shr_fexp_step q e l Hq ltac:(lia)) as [[Hlt Hs]|[Hge Hs]]; rewrite Hs.
  - rewrite shr_m_of_loc.
    pose proof (round_nearest_even_bounds (Zpos q)
                  (loc_of_shr_record (shr_record_of_loc (Zpos q) l))) as Hr.
    destruct (round_nearest_even _ _) as [|m1|m1] eqn:E1; try lia.
    destruct (shr_fexp_step m1 e loc_Exact) as [[Hlt2 Hs2]|[Hge2 Hs2]];
      [lia|lia| |]; rewrite Hs2.
    + cbn [shr_record_of_loc shr_m].
      replace (e <=? 1024 - 53) with true by (symmetry; apply Z.leb_le; lia).
      exists m1, 0. rewrite Z.add_0_r, Z.pow_0_r, Z.div_1_r.
      split; [reflexivity|]. split; [lia|]. split; [lia|].
      intros -> _. cbn in E1. split; [congruence|reflexivity].
    + rewrite shr_1_of_loc_m.
      assert (Hm1 : Zpos m1 = 2 ^ 53) by lia.
      rewrite Hm1. change (2 ^ 53 / 2) with (Zpos (Z.to_pos (2 ^ 52))).
      cbv beta iota.
      replace (e + 1 <=? 1024 - 53) with true by (symmetry; apply Z.leb_le; lia).
      exists (Z.to_pos (2 ^ 52)), 1.
      split; [reflexivity|]. split; [lia|].
      split; [change (Zpos (Z.to_pos (2 ^ 52))) with (2 ^ 52); change (2 ^ 1) with 2;
              Z.to_euclidean_division_equations; lia|].
      intros -> _. cbn in E1. exfalso. injection E1 as ->. lia.
  - rewrite shr_1_of_loc_m.
    assert (Hh : 2 ^ 52 ≤ Zpos q / 2 < 2 ^ 53)
      by (Z.to_euclidean_division_equations; lia).
    pose proof (round_nearest_even_bounds (Zpos q / 2)
                  (loc_of_shr_record (shr_1 (shr_record_of_loc (Zpos q) l)))) as Hr.
    destruct (round_nearest_even _ _) as [|m1|m1] eqn:E1; try lia.
    destruct (shr_fexp_step m1 (e + 1) loc_Exact) as [[Hlt2 Hs2]|[Hge2 Hs2]];
      [lia|lia| |]; rewrite Hs2.
    + cbn [shr_record_of_loc shr_m].
      replace (e + 1 <=? 1024 - 53) with true by (symmetry; apply Z.leb_le; lia).
      exists m1, 1. change (2 ^ 1) with 2.
      split; [reflexivity|]. split; [lia|]. split; [lia|].
      intros _ ?. lia.
    + rewrite shr_1_of_loc_m.
      assert (Hm1 : Zpos m1 = 2 ^ 53) by lia.
      rewrite Hm1. change (2 ^ 53 / 2) with (Zpos (Z.to_pos (2 ^ 52))).
      cbv beta iota.
      replace (e + 1 + 1 <=? 1024 - 53) with true by (symmetry; apply Z.leb_le; lia).
      exists (Z.to_pos (2 ^ 52)), 2. replace (e + 2) with (e + 1 + 1) by lia.
      split; [reflexivity|]. split; [lia|].
      split; [change (Zpos (Z.to_pos (2 ^ 52))) with (2 ^ 52); change (2 ^ 2) with 4;
              Z.to_euclidean_division_equations; lia|].
      intros _ ?. lia.
Qed.

(** [(double)z] is exact for a positive integer below 2^53. *)
Lemma double_of_Z_pos (p : positive) :
  Zpos p < 2 ^ 53 →
  ∃ m a,
    double_of_Z (Zpos p) = S754_finite false m (- a)
    ∧ 0 ≤ a ≤ 52
    ∧ Zpos m = Zpos p * 2 ^ a
    ∧ 2 ^ 52 ≤ Zpos m < 2 ^ 53.
Proof.
  intros Hp. pose proof (digits2_pos_bounds p) as [Hlo Hhi].
  set (d := Zpos (digits2_pos p)) in *.
  assert (Hd : 1 ≤ d ≤ 53).
  { split; [unfold d; lia|].
    destruct (Z_lt_le_dec 53 d) as [H|H]; [|exact H]. exfalso.
    assert (2 ^ 53 ≤ 2 ^ (d - 1)) by (apply Z.pow_le_mono_r; lia). lia. }
  unfold double_of_Z, binary_normalize, binary_round, shl_align.
  fold d.
  assert (Hfexp : fexp 53 1024 (d + 0) = d - 53)
    by (unfold fexp, emin; rewrite Z.max_l by lia; lia).
  rewrite Hfexp.
  destruct (d - 53 - 0) as [|k|k] eqn:Ek; try lia.
  - assert (Hd53 : d = 53) by lia. rewrite Hd53 in Hlo, Hhi.
    destruct (binary_round_aux_bounds p 0 loc_Exact) as (M & n & Heq & _ & _ & Hexact);
      [split; [exact Hlo|lia]|lia|].
    destruct (Hexact eq_refl Hhi) as [-> ->].
    exists p, 0. rewrite Heq. split; [reflexivity|]. split; [lia|].
    split; [rewrite Z.pow_0_r; lia|]. split; assumption.
  - assert (Hk : Zpos k = 53 - d) by lia.
    assert (Hm : 2 ^ 52 ≤ Zpos (Pos.iter xO p k) < 2 ^ 53).
    { rewrite iter_xO_pow, Hk.
      replace (2 ^ 52) with (2 ^ (d - 1) * 2 ^ (53 - d))
        by (rewrite <- Z.pow_add_r by lia; f_equal; lia).
      replace (2 ^ 53) with (2 ^ d * 2 ^ (53 - d))
        by (rewrite <- Z.pow_add_r by lia; f_equal; lia).
      assert (0 < 2 ^ (53 - d)) by (apply Z.pow_pos_nonneg; lia).
      split; [apply Z.mul_le_mono_nonneg_r; lia | apply Z.mul_lt_mono_pos_r; lia]. }
    destruct (binary_round_aux_bounds (Pos.iter xO p k) (d - 53) loc_Exact)
      as (M & n & Heq & _ & _ & Hexact); [split; [apply Hm|lia]|lia|].
    destruct (Hexact eq_refl (proj2 Hm)) as [-> ->].
    exists (Pos.iter xO p k), (53 - d). rewrite Heq.
    split; [f_equal; lia|]. split; [lia|].
    split; [rewrite iter_xO_pow, Hk; reflexivity | exact Hm].
Qed.

(** The arithmetic of the division: [q] is the quotient of the aligned
    mantissas and [M], the mantissa after rounding, is its shifted value or
    the next number; cutting [M] to its integral part gives [t / r], because
    [r] is less than the weight [2 ^ (a - b + 53 - n)] of one unit of the
    quotient. *)
Lemma quotient_survives_rounding (t r a b n M q : Z) :
  0 ≤ t → 0 < r → 0 ≤ b → 0 ≤ n ≤ a → r * 2 ^ b < 2 ^ 53 →
  q = (t * 2 ^ a * 2 ^ 53) / (r * 2 ^ b) →
  q / 2 ^ n ≤ M ≤ q / 2 ^ n + 1 →
  M / 2 ^ (a - b + 53 - n) = t / r.
Proof.
  intros Ht Hr Hb Hn Hrb -> HM.
  set (c := a - b + 53 - n) in *.
  assert (Hc : 0 ≤ c).
  { destruct (Z_lt_le_dec b 53) as [H|H]; [unfold c; lia|]. exfalso.
    assert (2 ^ 53 ≤ 2 ^ b) by (apply Z.pow_le_mono_r; lia). nia. }
  assert (Hpc : 0 < 2 ^ c) by (apply Z.pow_pos_nonneg; lia).
  assert (Hpbn : 0 < 2 ^ (b + n)) by (apply Z.pow_pos_nonneg; lia).
  assert (Hq : t * 2 ^ a * 2 ^ 53 / (r * 2 ^ b) / 2 ^ n = t * 2 ^ c / r).
  { rewrite Z.div_div by (try apply Z.pow_pos_nonneg; nia).
    replace (t * 2 ^ a * 2 ^ 53) with (t * 2 ^ c * 2 ^ (b + n)).
    2:{ rewrite <- !Z.mul_assoc, <- !Z.pow_add_r by lia. do 2 f_equal. unfold c. lia. }
    replace (r * 2 ^ b * 2 ^ n) with (r * 2 ^ (b + n))
      by (rewrite Z.pow_add_r by lia; ring).
    apply Z.div_mul_cancel_r; lia. }
  rewrite Hq in HM. clear Hq.
  assert (Hrc : r < 2 ^ c).
  { assert (Hle : 2 ^ (53 - b) ≤ 2 ^ c) by (apply Z.pow_le_mono_r; unfold c; lia).
    destruct (Z_lt_le_dec b 53) as [Hb53|Hb53].
    - assert (Hsplit : 2 ^ 53 = 2 ^ (53 - b) * 2 ^ b)
        by (rewrite <- Z.pow_add_r by lia; f_equal; lia).
      assert (0 < 2 ^ b) by (apply Z.pow_pos_nonneg; lia).
      rewrite Hsplit in Hrb. apply Z.mul_lt_mono_pos_r in Hrb; lia.
    - exfalso. assert (2 ^ 53 ≤ 2 ^ b) by (apply Z.pow_le_mono_r; lia). nia. }
  pose proof (Z.div_mod t r ltac:(lia)) as Hdm.
  pose proof (Z.mod_pos_bound t r Hr) as Hmod.
  pose proof (Z.div_mod (t * 2 ^ c) r ltac:(lia)) as Hdm'.
  pose proof (Z.mod_pos_bound (t * 2 ^ c) r Hr) as Hmod'.
  set (k := t / r) in *. set (ρ := t mod r) in *.
  set (q' := t * 2 ^ c / r) in *. set (ρ' := (t * 2 ^ c) mod r) in *.
  set (P := 2 ^ c) in *. clearbody k ρ q' ρ' P.
  symmetry. apply Z.div_unique with (M - k * P); [|lia].
  left. split.
  - assert (k * P ≤ q') by nia. lia.
  - assert (q' + 1 < (k + 1) * P) by nia. lia.
Qed.

(** [clock] of line 31 is a finite double whose integral part is the
    integer quotient. *)
Lemma clock_truncate (t r : positive) :
  Zpos t < 2 ^ 32 → Zpos r < 2 ^ 32 →
  ∃ M c,
    double_div (double_of_Z (Zpos t)) (double_of_Z (Zpos r)) = S754_finite false M (- c)
    ∧ 0 < c ≤ 110
    ∧ Zpos M / 2 ^ c = Zpos t / Zpos r.
Proof.
  intros Ht Hr.
  destruct (double_of_Z_pos t) as (mt & a & Et & Ha & Hmt & Hmt53); [lia|].
  destruct (double_of_Z_pos r) as (mr & b & Er & Hb & Hmr & Hmr53); [lia|].
  assert (Ha21 : 21 ≤ a).
  { destruct (Z_lt_le_dec a 21) as [H|H]; [|exact H]. exfalso.
    assert (2 ^ a ≤ 2 ^ 20) by (apply Z.pow_le_mono_r; lia).
    assert (Zpos t * 2 ^ a ≤ (2 ^ 32 - 1) * 2 ^ 20) by (apply Z.mul_le_mono_nonneg; lia).
    lia. }
  unfold double_div. rewrite Et, Er. unfold SFdiv, SFdiv_core_binary, Zdigits2.
  rewrite (digits2_pos_unique mt 53), (digits2_pos_unique mr 53) by assumption.
  replace (53 + - a - (53 + - b)) with (b - a) by lia.
  replace (fexp 53 1024 (b - a)) with (b - a - 53)
    by (unfold fexp, emin; rewrite Z.max_l by lia; lia).
  replace (- a - - b) with (b - a) by lia.
  rewrite Z.min_l by lia.
  replace (b - a - (b - a - 53)) with 53 by lia.
  rewrite Z.shiftl_mul_pow2 by lia.
  pose proof (Z.div_eucl_eq (Zpos mt * 2 ^ 53) (Zpos mr) ltac:(lia)) as Hdiv.
  pose proof (Z.mod_pos_bound (Zpos mt * 2 ^ 53) (Zpos mr) ltac:(lia)) as Hrem.
  unfold Z.modulo in Hrem.
  assert (Hq : fst (Z.div_eucl (Zpos mt * 2 ^ 53) (Zpos mr)) = Zpos mt * 2 ^ 53 / Zpos mr)
    by reflexivity.
  destruct (Z.div_eucl (Zpos mt * 2 ^ 53) (Zpos mr)) as [q rem]. cbn [fst snd] in *.
  assert (Hqb : 2 ^ 52 ≤ q < 2 ^ 54).
  { rewrite Hq. split.
    - apply Z.div_le_lower_bound; lia.
    - apply Z.div_lt_upper_bound; lia. }
  destruct q as [|qp|qp]; try lia.
  destruct (binary_round_aux_bounds qp (b - a - 53) (new_location (Zpos mr) rem))
    as (M & n & Heq & Hn & HM & _); [exact Hqb|lia|].
  cbn [xorb]. rewrite Heq.
  exists M, (a - b + 53 - n).
  split; [f_equal; lia|]. split; [lia|].
  apply (quotient_survives_rounding (Zpos t) (Zpos r) a b n (Zpos M) (Zpos qp));
    try lia.
  rewrite Hq, Hmt, Hmr. reflexivity.
Qed.

(** [ipart] of [modf] converts back to the integral part. *)
Lemma truncate_ipart (M : positive) (c : Z) :
  0 < c → Zpos M / 2 ^ c < 2 ^ 53 →
  truncate (snd (modf (S754_finite false M (- c)))) = Some (Zpos M / 2 ^ c).
Proof.
  intros Hc HK. unfold modf. cbn [snd cond_Zopp].
  assert (Hsh : Z.shiftl (Zpos M) (- c) = Zpos M / 2 ^ c).
  { rewrite <- Z.shiftr_div_pow2 by lia. unfold Z.shiftr. reflexivity. }
  rewrite Hsh.
  assert (HK0 : 0 ≤ Zpos M / 2 ^ c) by (apply Z.div_pos; [lia|apply Z.pow_pos_nonneg; lia]).
  destruct (Zpos M / 2 ^ c) as [|k|k] eqn:EK; try lia.
  - reflexivity.
  - destruct (double_of_Z_pos k HK) as (m & a & Ek & Ha & Hm & _).
    unfold double_of_Z in Ek. rewrite Ek. cbn [truncate cond_Zopp].
    f_equal. rewrite <- Z.shiftr_opp_r, Z.opp_involutive, Z.shiftr_div_pow2 by lia.
    rewrite Hm. apply Z.div_mul. apply Z.pow_nonzero; lia.
Qed.

Lemma uint32_of_double_truncate (x : spec_float) (z : Z) :
  truncate x = Some z → 0 ≤ z < 2 ^ 32 → uint32_of_double x = z.
Proof.
  intros Hx Hz. unfold uint32_of_double. rewrite Hx.
  replace (0 <=? z) with true by (symmetry; apply Z.leb_le; lia).
  replace (z <? 2 ^ 32) with true by (symmetry; apply Z.ltb_lt; lia).
  reflexivity.
Qed.

(** Line 37: for [uint32_t] values and a codec rate that is not 0, [msw] is
    the whole seconds of media time. *)
Lemma media_clock_msw_whole_seconds (timestamp codec_rate : Z) :
  0 ≤ timestamp < 2 ^ 32 → 0 < codec_rate < 2 ^ 32 →
  media_clock_msw timestamp codec_rate = timestamp / codec_rate.
Proof.
  intros Ht Hr. unfold media_clock_msw, media_clock.
  destruct codec_rate as [|r|r]; try lia.
  assert (Hk : 0 ≤ timestamp / Zpos r < 2 ^ 32).
  { split; [apply Z.div_pos; lia|].
    apply Z.div_lt_upper_bound; nia. }
  destruct timestamp as [|t|t]; try lia.
  - destruct (double_of_Z_pos r) as (mr & b & Er & _); [lia|].
    rewrite Er. reflexivity.
  - destruct (clock_truncate t r) as (M & c & Eclock & Hc & Hdiv); [lia|lia|].
    rewrite Eclock.
    pose proof (truncate_ipart M c ltac:(lia) ltac:(lia)) as Hip.
    destruct (modf (S754_finite false M (- c))) as [fraction ipart].
    cbn [fst snd] in *.
    apply uint32_of_double_truncate; [rewrite Hip; f_equal; exact Hdiv | exact Hk].
Qed.

(** With a codec rate of 0, [clock] is an infinity (or NaN, for timestamp
    0) and line 37 converts a value that is no [uint32_t]: [msw] is what the
    implementation leaves. *)
Lemma media_clock_msw_unrepresentable (timestamp : Z) :
  0 ≤ timestamp < 2 ^ 32 →
  media_clock_msw timestamp 0
  = uint32_of_unrepresentable
      (if timestamp =? 0 then S754_nan else S754_infinity false).
Proof.
  intros Ht. unfold media_clock_msw, media_clock.
  destruct timestamp as [|t|t]; try lia.
  - reflexivity.
  - destruct (double_of_Z_pos t) as (m & a & Et & _); [lia|].
    rewrite Et. reflexivity.
Qed.

End DoubleProperties.

Section GeneratorProperties.

Context {T : CollaboratorTypes} {C : Collaborators}.

(** A call always returns: it builds a report exactly when [sr_due] holds
    and takes [readings_used] clock readings. *)
Lemma AddRTPPacketAndGenerateRtcpSR_eq (g : RtcpSRGenerator) (rtp_packet : RtpPacket)
    (w : World) :
  AddRTPPacketAndGenerateRtcpSR g rtp_packet w =
  Done (if sr_due g w
        then generated g rtp_packet (reading w (readings_used g w - 1))
        else accumulated g rtp_packet)
       (advance (readings_used g w) w).
Proof.
  unfold AddRTPPacketAndGenerateRtcpSR, sr_due, readings_used, reading.
  unfold GetElapsedTimeMSFromCreated, GetElapsedTimeMSFromRtcpSRGenerated.
  unfold mbind, M_bind, mret, M_ret, system_clock_now; cbn.
  destruct (elapsed_ms (_created_time g) (clock w (clock_reads w)) <? 10000); cbn.
  - destruct (500 <? elapsed_ms (_last_generated_time g) (clock w (S (clock_reads w)))); cbn.
    + reflexivity.
    + destruct (4999 <? elapsed_ms (_last_generated_time g) (clock w (S (S (clock_reads w)))));
        reflexivity.
  - destruct (4999 <? elapsed_ms (_last_generated_time g) (clock w (S (clock_reads w))));
      reflexivity.
Qed.

(** One step of [observe_all] on a generator whose slot is empty. *)
Lemma observe_all_cons (g : RtcpSRGenerator) since p rest (w : World) :
  _rtcp_packet g = None →
  observe_all g since (p :: rest) w =
  let n := readings_used g w in
  let g1 := generated g p (reading w (n - 1)) in
  if sr_due g w then
    match observe_all (snd (PopRtcpSRPacket g1)) [] rest (advance n w) with
    | Done later w' =>
        Done ({| em_report :=
                   {| rtcp_info :=
                        InfoSR (build_report g p (to_uint32 (_packet_count g + 1))
                                  (to_uint32 (_octec_count g + PayloadSize p)));
                      rtcp_built :=
                        RtcpPacket_Build
                          (InfoSR (build_report g p (to_uint32 (_packet_count g + 1))
                                     (to_uint32 (_octec_count g + PayloadSize p)))) |};
                 em_observed := since ++ [p];
                 em_before := g;
                 em_after := g1;
                 em_clock_reads := n + clock_reads w |} :: later) w'
    | Undefined => Undefined
    end
  else observe_all (accumulated g p) (since ++ [p]) rest (advance n w).
Proof.
  intros Hnone. cbn [observe_all].
  unfold mbind at 1. unfold M_bind at 1.
  rewrite AddRTPPacketAndGenerateRtcpSR_eq.
  unfold mbind at 1. unfold M_bind at 1. unfold clock_readings_taken.
  destruct (sr_due g w); cbn.
  - reflexivity.
  - unfold PopRtcpSRPacket. cbn. rewrite Hnone. reflexivity.
Qed.




Lemma readings_used_bounds (g : RtcpSRGenerator) (w : World) :
  (2 ≤ readings_used g w ≤ 4)%nat.
Proof. unfold readings_used. repeat case_match; lia. Qed.



(** [elapsed_ms] never exceeds the true elapsed time. *)
Lemma elapsed_ms_gt from to k :
  from ≤ to → k < elapsed_ms from to → from + ms k < to.
Proof.
  unfold elapsed_ms, to_uint32, ms, ticks_per_ms. intros Hle Hk.
  rewrite Z.quot_div_nonneg in Hk by lia.
  assert (0 ≤ (to - from) / 1000000) by (apply Z.div_pos; lia).
  assert ((to - from) / 1000000 mod 2 ^ 32 ≤ (to - from) / 1000000)
    by (apply Z.mod_le; lia).
  assert (1000000 * ((to - from) / 1000000) ≤ to - from)
    by (apply Z.mul_div_le; lia).
  lia.
Qed.

Lemma elapsed_ms_no_wrap from to :
  from ≤ to → to - from < ms (2 ^ 32) →
  elapsed_ms from to = (to - from) / ticks_per_ms.
Proof.
  unfold elapsed_ms, to_uint32, ms, ticks_per_ms. intros Hle Hlt.
  rewrite Z.quot_div_nonneg by lia.
  apply Z.mod_small. split.
  - apply Z.div_pos; lia.
  - apply Z.div_lt_upper_bound; lia.
Qed.

Lemma reading_mono (w : World) i j :
  monotone_clock w → (i ≤ j)%nat → reading w i ≤ reading w j.
Proof. intros Hm Hij. unfold reading. apply Hm. lia. Qed.

Lemma sr_due_spacing (g : RtcpSRGenerator) (w : World) :
  monotone_clock w →
  _created_time g ≤ _last_generated_time g →
  _last_generated_time g ≤ reading w 0 →
  sr_due g w = true →
  let now := reading w (readings_used g w - 1) in
  _last_generated_time g + ms 500 < now
  ∧ (_created_time g + ms 10000 ≤ _last_generated_time g →
     now - _created_time g < ms (2 ^ 32) →
     _last_generated_time g + ms 4999 < now).
Proof.
  intros Hm Hcl Hl0. unfold sr_due, readings_used. cbv zeta.
  pose proof (reading_mono w 0 1 Hm ltac:(lia)) as H01.
  pose proof (reading_mono w 1 2 Hm ltac:(lia)) as H12.
  pose proof (reading_mono w 2 3 Hm ltac:(lia)) as H23.
  destruct (elapsed_ms (_created_time g) (reading w 0) <? 10000) eqn:Ec.
  - assert (Hearly : _created_time g + ms 10000 ≤ _last_generated_time g →
                     reading w 0 - _created_time g < ms (2 ^ 32) → False).
    { intros Hlate Hwrap. apply Z.ltb_lt in Ec.
      rewrite elapsed_ms_no_wrap in Ec by lia.
      unfold ms, ticks_per_ms in *.
      assert (10000 ≤ (reading w 0 - _created_time g) / 1000000)
        by (apply Z.div_le_lower_bound; lia).
      lia. }
    destruct (500 <? elapsed_ms (_last_generated_time g) (reading w 1)) eqn:E1.
    + intros _. apply Z.ltb_lt in E1. apply elapsed_ms_gt in E1; [|lia].
      change (3 - 1)%nat with 2%nat. split; [lia|].
      intros Hlate Hwrap. exfalso. apply Hearly; [exact Hlate|lia].
    + destruct (4999 <? elapsed_ms (_last_generated_time g) (reading w 2)) eqn:E2;
        [|discriminate].
      intros _. apply Z.ltb_lt in E2. apply elapsed_ms_gt in E2; [|lia].
      change (4 - 1)%nat with 3%nat. unfold ms in *. split; lia.
  - destruct (4999 <? elapsed_ms (_last_generated_time g) (reading w 1)) eqn:E1;
      [|discriminate].
    intros _. apply Z.ltb_lt in E1. apply elapsed_ms_gt in E1; [|lia].
    change (3 - 1)%nat with 2%nat. unfold ms in *. split; lia.
Qed.

Lemma observe_all_cadence rtp_packets :
  ∀ (g : RtcpSRGenerator) since (w : World),
    _rtcp_packet g = None →
    monotone_clock w →
    _created_time g ≤ _last_generated_time g →
    _last_generated_time g ≤ reading w 0 →
    ∃ es w', observe_all g since rtp_packets w = Done es w'
             ∧ cadence (_created_time g) (_last_generated_time g) es.
Proof.
  induction rtp_packets as [|p rest IH]; intros g since w Hnone Hm Hcl Hl0.
  - exists [], w. split; [reflexivity|exact I].
  - rewrite observe_all_cons by exact Hnone. cbv zeta.
    pose proof (readings_used_bounds g w) as Hn.
    destruct (sr_due g w) eqn:Hdue.
    + destruct (sr_due_spacing g w Hm Hcl Hl0 Hdue) as [H500 H4999].
      destruct (IH (snd (PopRtcpSRPacket (generated g p (reading w (readings_used g w - 1)))))
                  [] (advance (readings_used g w) w)) as (later & w' & Hrun & Hcad).
      * reflexivity.
      * exact Hm.
      * cbn. unfold ms, ticks_per_ms in H500. lia.
      * cbn. unfold reading. cbn. apply Hm. lia.
      * rewrite Hrun. eexists _, w'. split; [reflexivity|].
        cbn [cadence]. unfold built_at at 1 2 3 4. cbn -[ms].
        split; [unfold ms, ticks_per_ms in *; lia|].
        split; [exact H500|]. split; [exact H4999|].
        exact Hcad.
    + apply (IH (accumulated g p) (since ++ [p]) (advance (readings_used g w) w)).
      * exact Hnone.
      * exact Hm.
      * exact Hcl.
      * cbn. unfold reading in *. cbn. etransitivity; [exact Hl0|]. apply Hm. lia.
Qed.

(** X1. What holds of the cadence under a clock that never runs backwards: no
    report before 500 ms after creation, more than 500 ms between
    consecutive reports, and more than 4999 ms between consecutive reports
    built 10 s or more after creation while the time since creation stays
    below 2^32 ms. *)
Lemma sr_cadence (ssrc codec_rate : Z) (rtp_packets : list RtpPacket) (w : World) :
  monotone_clock w →
  ∃ g0 w1 es w2,
    RtcpSRGenerator_new ssrc codec_rate w = Done g0 w1
    ∧ observe_all g0 [] rtp_packets w1 = Done es w2
    ∧ cadence (_created_time g0) (_last_generated_time g0) es.
Proof.
  intros Hm. eexists _, _.
  destruct (observe_all_cadence rtp_packets
              {| _ssrc := ssrc; _codec_rate := codec_rate;
                 _created_time := clock w (clock_reads w);
                 _last_generated_time := clock w (S (clock_reads w));
                 _packet_count := 0; _octec_count := 0;
                 _rtcp_generated_count := 0; _rtcp_packet := None |}
              [] (advance 2 w)) as (es & w2 & Hrun & Hcad).
  - reflexivity.
  - exact Hm.
  - cbn. apply Hm. lia.
  - cbn. unfold reading. cbn. apply Hm. lia.
  - exists es, w2. split; [reflexivity|]. split; [exact Hrun|exact Hcad].
Qed.



(** [elapsed_ms] against the true elapsed time, from above and, below
    2^32 ms, from below. *)
Lemma elapsed_ms_le from to k :
  from ≤ to → to ≤ from + ms k → elapsed_ms from to ≤ k.
Proof.
  unfold elapsed_ms, to_uint32, ms, ticks_per_ms. intros Hle Hk.
  rewrite Z.quot_div_nonneg by lia.
  assert (0 ≤ (to - from) / 1000000) by (apply Z.div_pos; lia).
  assert ((to - from) / 1000000 mod 2 ^ 32 ≤ (to - from) / 1000000)
    by (apply Z.mod_le; lia).
  assert ((to - from) / 1000000 ≤ k).
  { apply Z.lt_succ_r. apply Z.div_lt_upper_bound; lia. }
  lia.
Qed.

Lemma elapsed_ms_ge from to k :
  from + ms k ≤ to → to - from < ms (2 ^ 32) → 0 ≤ k → k ≤ elapsed_ms from to.
Proof.
  intros Hk Hwrap H0. rewrite elapsed_ms_no_wrap; [| unfold ms, ticks_per_ms in *; lia | exact Hwrap].
  unfold ms, ticks_per_ms in *. apply Z.div_le_lower_bound; lia.
Qed.

(** One full turn of the 32-bit millisecond count later it reads small
    again. *)
Lemma elapsed_ms_wrapped from to k :
  from + ms (2 ^ 32) ≤ to → to ≤ from + ms (2 ^ 32) + ms k → elapsed_ms from to ≤ k.
Proof.
  unfold elapsed_ms, to_uint32, ms, ticks_per_ms. intros Hlo Hhi.
  rewrite Z.quot_div_nonneg by lia.
  assert (2 ^ 32 ≤ (to - from) / 1000000) by (apply Z.div_le_lower_bound; lia).
  assert ((to - from) / 1000000 ≤ 2 ^ 32 + k).
  { apply Z.lt_succ_r. apply Z.div_lt_upper_bound; lia. }
  replace ((to - from) / 1000000) with (((to - from) / 1000000 - 2 ^ 32) + 1 * 2 ^ 32) by lia.
  rewrite Z_mod_plus_full.
  destruct (Z.eq_dec ((to - from) / 1000000 - 2 ^ 32) (2^32)) as [E|E].
  - rewrite E, Z_mod_same_full. lia.
  - pose proof (Z.mod_le ((to - from) / 1000000 - 2 ^ 32) (2^32)). lia.
Qed.

(** X2. Under a clock that never runs backwards, a packet observed
    when no more than 500 ms have passed since the last report builds no
    report: the call only counts the packet and its payload bytes. *)
Theorem no_report_within_500_ms (g : RtcpSRGenerator) p (w : World) :
  monotone_clock w →
  _last_generated_time g ≤ reading w 0 →
  reading w 2 ≤ _last_generated_time g + ms 500 →
  ∃ w', AddRTPPacketAndGenerateRtcpSR g p w = Done (accumulated g p) w'.
Proof.
  intros Hm Hl Hq. rewrite AddRTPPacketAndGenerateRtcpSR_eq.
  pose proof (reading_mono w 0 1 Hm ltac:(lia)) as H01.
  pose proof (reading_mono w 1 2 Hm ltac:(lia)) as H12.
  assert (E1 : elapsed_ms (_last_generated_time g) (reading w 1) ≤ 500)
    by (apply elapsed_ms_le; unfold ms in *; lia).
  assert (E2 : elapsed_ms (_last_generated_time g) (reading w 2) ≤ 500)
    by (apply elapsed_ms_le; unfold ms in *; lia).
  assert (Hdue : sr_due g w = false).
  { unfold sr_due.
    destruct (elapsed_ms (_created_time g) (reading w 0) <? 10000).
    - apply orb_false_iff. split; apply Z.ltb_ge; lia.
    - apply Z.ltb_ge. lia. }
  rewrite Hdue. eexists. reflexivity.
Qed.

(** X3. Under a clock that never runs backwards and less than 2^32 ms
    after the last report, a packet builds a report when 5000 ms or more
    have passed since the last report, and also when less than 10000 ms have
    passed since creation and 501 ms or more since the last report. *)
Theorem report_when_due (g : RtcpSRGenerator) p (w : World) :
  monotone_clock w →
  reading w 1 - _last_generated_time g < ms (2 ^ 32) →
  (_last_generated_time g + ms 5000 ≤ reading w 1)
  ∨ ((_created_time g ≤ reading w 0 < _created_time g + ms 10000)
     ∧ _last_generated_time g + ms 501 ≤ reading w 1) →
  ∃ now w',
    AddRTPPacketAndGenerateRtcpSR g p w = Done (generated g p now) w'
    ∧ reading w 1 ≤ now.
Proof.
  intros Hm Hwrap Hcase. rewrite AddRTPPacketAndGenerateRtcpSR_eq.
  pose proof (reading_mono w 1 2 Hm ltac:(lia)) as H12.
  pose proof (reading_mono w 2 3 Hm ltac:(lia)) as H23.
  unfold sr_due, readings_used.
  destruct Hcase as [H5|[Hc H501]].
  - assert (E1 : 5000 ≤ elapsed_ms (_last_generated_time g) (reading w 1))
      by (apply elapsed_ms_ge; [exact H5 | exact Hwrap | lia]).
    destruct (elapsed_ms (_created_time g) (reading w 0) <? 10000).
    + destruct (Z.ltb_spec 500 (elapsed_ms (_last_generated_time g) (reading w 1))); [|lia].
      cbn. eexists _, _. split; [reflexivity|]. exact H12.
    + destruct (Z.ltb_spec 4999 (elapsed_ms (_last_generated_time g) (reading w 1))); [|lia].
      cbn. eexists _, _. split; [reflexivity|]. exact H12.
  - assert (E1 : 501 ≤ elapsed_ms (_last_generated_time g) (reading w 1))
      by (apply elapsed_ms_ge; [exact H501 | exact Hwrap | lia]).
    assert (E0 : (elapsed_ms (_created_time g) (reading w 0) <? 10000) = true).
    { apply Z.ltb_lt. rewrite elapsed_ms_no_wrap; unfold ms, ticks_per_ms in *; try lia.
      apply Z.div_lt_upper_bound; lia. }
    rewrite E0.
    destruct (Z.ltb_spec 500 (elapsed_ms (_last_generated_time g) (reading w 1))); [|lia].
    cbn. eexists _, _. split; [reflexivity|]. exact H12.
Qed.

(** X4. The time since the last report is cut to 32 bits as well:
    a packet observed between 2^32 ms and 2^32 + 500 ms after the last
    report builds no report, although more than 49 days have passed. *)
Theorem no_report_after_uint32_wrap_of_silence (g : RtcpSRGenerator) p (w : World) :
  monotone_clock w →
  _last_generated_time g + ms (2 ^ 32) ≤ reading w 1 →
  reading w 2 ≤ _last_generated_time g + ms (2 ^ 32) + ms 500 →
  ∃ w', AddRTPPacketAndGenerateRtcpSR g p w = Done (accumulated g p) w'.
Proof.
  intros Hm Hlo Hhi. rewrite AddRTPPacketAndGenerateRtcpSR_eq.
  pose proof (reading_mono w 1 2 Hm ltac:(lia)) as H12.
  assert (E1 : elapsed_ms (_last_generated_time g) (reading w 1) ≤ 500)
    by (apply elapsed_ms_wrapped; lia).
  assert (E2 : elapsed_ms (_last_generated_time g) (reading w 2) ≤ 500)
    by (apply elapsed_ms_wrapped; lia).
  assert (Hdue : sr_due g w = false).
  { unfold sr_due.
    destruct (elapsed_ms (_created_time g) (reading w 0) <? 10000).
    - apply orb_false_iff. split; apply Z.ltb_ge; lia.
    - apply Z.ltb_ge. lia. }
  rewrite Hdue. eexists. reflexivity.
Qed.


Lemma observe_all_identity rtp_packets :
  ∀ (g0 g : RtcpSRGenerator) since (w : World),
    _rtcp_packet g = None →
    _ssrc g = _ssrc g0 → _codec_rate g = _codec_rate g0 →
    _created_time g = _created_time g0 →
    ∃ es w', observe_all g since rtp_packets w = Done es w'
             ∧ Forall (report_identity_ok g0) es.
Proof.
  induction rtp_packets as [|p rest IH]; intros g0 g since w Hnone Hs Hr Hc.
  - exists [], w. split; [reflexivity|constructor].
  - rewrite observe_all_cons by exact Hnone. cbv zeta.
    destruct (sr_due g w).
    + destruct (IH g0 (snd (PopRtcpSRPacket (generated g p (reading w (readings_used g w - 1)))))
                  [] (advance (readings_used g w) w)) as (later & w' & Hrun & Hall);
        try assumption; try reflexivity.
      rewrite Hrun. eexists _, w'. split; [reflexivity|].
      constructor; [|exact Hall].
      eexists _, p. cbn. split; [reflexivity|].
      split; [apply last_snoc|]. cbn. rewrite Hs, Hr, Hc.
      repeat match goal with |- _ ∧ _ => split end; try reflexivity.
      intros Ht Hrate. apply media_clock_msw_whole_seconds; assumption.
    + apply (IH g0 (accumulated g p)); assumption.
Qed.

(** X5. Every report of a run from creation carries the ssrc the
    generator was created with, the RTP timestamp of the packet that
    triggered it and the [msw] and [lsw] that lines 31-38 compute in doubles
    from that timestamp and the codec rate; when both are [uint32_t] values
    and the codec rate is not 0, [msw] is the quotient of the timestamp by
    the codec rate. The report is made available whatever [Build]
    returned. *)
Theorem sender_report_identity (ssrc codec_rate : Z) (rtp_packets : list RtpPacket)
    (w : World) :
  ∃ g0 w1 es w2,
    RtcpSRGenerator_new ssrc codec_rate w = Done g0 w1
    ∧ _ssrc g0 = ssrc ∧ _codec_rate g0 = codec_rate
    ∧ observe_all g0 [] rtp_packets w1 = Done es w2
    ∧ Forall (report_identity_ok g0) es.
Proof.
  set (g0 := {| _ssrc := ssrc; _codec_rate := codec_rate;
                _created_time := clock w (clock_reads w);
                _last_generated_time := clock w (S (clock_reads w));
                _packet_count := 0; _octec_count := 0;
                _rtcp_generated_count := 0; _rtcp_packet := None |}).
  exists g0, (advance 2 w).
  destruct (observe_all_identity rtp_packets g0 g0 [] (advance 2 w)
              eq_refl eq_refl eq_refl eq_refl)
    as (es & w2 & Hrun & Hall).
  exists es, w2. split; [reflexivity|]. split; [reflexivity|]. split; [reflexivity|].
  split; [exact Hrun|exact Hall].
Qed.

End GeneratorProperties.

Section NodeProperties.

Context {T : CollaboratorTypes} {C : Collaborators}.

(** Unfold the monad and simplify, leaving comparisons and wrap-arounds
    folded. *)
Ltac run :=
  unfold modify, log; unfold mbind, M_bind, mret, M_ret, this, store, emit, record_events;
  cbn -[Nat.ltb Z.leb Z.ltb Z.eqb to_uint32 to_uint8].

(** The lifecycle gate of [SendRtpPacket] and [OnDataReceivedFromNextNode]:
    outside Started they log, return false and leave the node as it is. *)
Lemma SendRtpPacket_not_started (w : World) p :
  node_state (node w) ≠ Started →
  SendRtpPacket p w
  = Done false (record_events
      [EvLog "Node has not started, so the received data has been canceled."] w).
Proof.
  intros H. unfold SendRtpPacket. run.
  destruct (node_state (node w)); try reflexivity. congruence.
Qed.

Lemma OnDataReceivedFromNextNode_not_started (w : World) from data :
  node_state (node w) ≠ Started →
  OnDataReceivedFromNextNode from data w
  = Done false (record_events
      [EvLog "Node has not started, so the received data has been canceled."] w).
Proof.
  intros H. unfold OnDataReceivedFromNextNode. run.
  destruct (node_state (node w)); try reflexivity. congruence.
Qed.

(** C8. While Started, a datagram shorter than RTCP_HEADER_SIZE (so, when
    that is at least 2, any datagram of length 0 or 1) is refused: the call
    returns false, whatever the bytes are, and its only effect is the log
    line; the trace gains no [EvRead], the call is not [Undefined]. *)
Theorem short_datagram_rejected_unread (w : World) from data :
  node_state (node w) = Started →
  ((length data < RTCP_HEADER_SIZE)%nat →
   OnDataReceivedFromNextNode from data w
   = Done false (record_events [EvLog "It is not an RTP or RTCP packet."] w))
  ∧ ((2 ≤ RTCP_HEADER_SIZE)%nat → (length data ≤ 1)%nat →
     OnDataReceivedFromNextNode from data w
     = Done false (record_events [EvLog "It is not an RTP or RTCP packet."] w)).
Proof.
  intros Hs.
  assert (Hshort : (length data < RTCP_HEADER_SIZE)%nat →
                   OnDataReceivedFromNextNode from data w
                   = Done false
                       (record_events [EvLog "It is not an RTP or RTCP packet."] w)).
  { intros Hlen. unfold OnDataReceivedFromNextNode. run. rewrite Hs.
    apply Nat.ltb_lt in Hlen. rewrite Hlen. reflexivity. }
  split; [exact Hshort|].
  intros Hmin Hlen. apply Hshort. lia.
Qed.

(** C9, amended. In Ready, [AddRtpReceiver] with a track whose format is
    none of the four supported ones returns false after it has put the track
    in the track table, and neither jitter-buffer table changes: a payload
    type that had no jitter buffer of either kind before the call is left
    with a track and no jitter buffer of either kind. *)
Theorem unsupported_receiver_leaves_track (w : World) payload_type track :
  node_state (node w) = Ready →
  ¬ supported (GetOriginBitstream track) →
  ∃ w',
    AddRtpReceiver payload_type track w = Done false w'
    ∧ _tracks (node w') = <[payload_type := track]> (_tracks (node w))
    ∧ _rtp_frame_jitter_buffers (node w') = _rtp_frame_jitter_buffers (node w)
    ∧ _rtp_minimal_jitter_buffers (node w') = _rtp_minimal_jitter_buffers (node w)
    ∧ (_rtp_frame_jitter_buffers (node w) !! payload_type = None →
       _rtp_minimal_jitter_buffers (node w) !! payload_type = None →
       _tracks (node w') !! payload_type = Some track
       ∧ _rtp_frame_jitter_buffers (node w') !! payload_type = None
       ∧ _rtp_minimal_jitter_buffers (node w') !! payload_type = None).
Proof.
  intros Hs Hf. unfold AddRtpReceiver. run. rewrite Hs.
  destruct (GetOriginBitstream track) eqn:E;
    try solve [exfalso; apply Hf; unfold supported; auto].
  eexists. split; [reflexivity|]. cbn.
  repeat split; try assumption.
  apply lookup_insert_eq.
Qed.

(** C5, amended. In Ready, [AddRtcpSRGenerator] succeeds and registers a
    fresh generator, and [AddRtpReceiver] succeeds when the track's format is
    one of the four supported ones, registering the track and a jitter
    buffer. In every other state both return false and change nothing but
    the log. *)
Theorem registration_gate (w : World) payload_type ssrc codec_rate track :
  (node_state (node w) = Ready →
     (∃ g w1 w',
        RtcpSRGenerator_new ssrc codec_rate w = Done g w1
        ∧ AddRtcpSRGenerator payload_type ssrc codec_rate w = Done true w'
        ∧ _rtcp_sr_generators (node w')
          = <[payload_type := g]> (_rtcp_sr_generators (node w)))
     ∧ (supported (GetOriginBitstream track) →
        ∃ w', AddRtpReceiver payload_type track w = Done true w'
              ∧ _tracks (node w') = <[payload_type := track]> (_tracks (node w))
              ∧ (is_Some (_rtp_frame_jitter_buffers (node w') !! payload_type)
                 ∨ is_Some (_rtp_minimal_jitter_buffers (node w') !! payload_type))))
  ∧ (node_state (node w) ≠ Ready →
     AddRtcpSRGenerator payload_type ssrc codec_rate w
     = Done false (record_events [EvLog "It can only be called in the ready state."] w)
     ∧ AddRtpReceiver payload_type track w
       = Done false (record_events [EvLog "It can only be called in the ready state."] w)).
Proof.
  split.
  - intros Hs. split.
    + unfold AddRtcpSRGenerator, RtcpSRGenerator_new, system_clock_now. run. rewrite Hs. cbn.
      eexists _, _, _. repeat split.
    + intros Hf. unfold AddRtpReceiver. run. rewrite Hs.
      destruct Hf as [E|[E|[E|E]]]; rewrite E; cbn;
        (eexists; split; [reflexivity|]; cbn; split; [reflexivity|]).
      1-3: left; rewrite lookup_insert_eq; eauto.
      right; rewrite lookup_insert_eq; eauto.
  - intros Hs. split.
    + unfold AddRtcpSRGenerator. run.
      destruct (node_state (node w)); try reflexivity. congruence.
    + unfold AddRtpReceiver. run.
      destruct (node_state (node w)); try reflexivity. congruence.
Qed.

(** C7. [SendRtpPacket] while Started returns what forwarding the RTP
    packet returned; the packet is remembered as last sent and its send is
    the last event. When the generator of the payload type holds a report
    after observing the packet, that report is popped, remembered as the last
    sent RTCP packet and sent first; whether that send succeeded only
    changes the log line. *)
Theorem rtp_forwarded_after_report (w : World) (rtp_packet : RtpPacket) :
  node_state (node w) = Started →
  ∃ ok w' before,
    SendRtpPacket rtp_packet w = Done ok w'
    ∧ _last_sent_rtp_packet (node w') = Some rtp_packet
    ∧ trace w' = before ++ [EvSend Rtp (RtpData rtp_packet) ok]
    ∧ ok = next_node w before Rtp (RtpData rtp_packet)
    ∧ match _rtcp_sr_generators (node w) !! PayloadType rtp_packet with
      | Some g =>
          ∃ g1 w1,
            AddRTPPacketAndGenerateRtcpSR g rtp_packet w = Done g1 w1
            ∧ match _rtcp_packet g1 with
              | Some sr =>
                  let sr_ok := next_node w (trace w) Rtcp (RtcpData sr) in
                  before = trace w ++
                    [EvSend Rtcp (RtcpData sr) sr_ok;
                     EvLog (if sr_ok
                            then "Send RTCP succeed : pt(%d) ssrc(%u) length(%d)"
                            else "Send RTCP failed : pt(%d) ssrc(%u)")]
                  ∧ _last_sent_rtcp_packet (node w') = Some sr
                  ∧ ∃ g2, _rtcp_sr_generators (node w') !! PayloadType rtp_packet = Some g2
                          ∧ _rtcp_packet g2 = None
              | None =>
                  before = trace w
                  ∧ _last_sent_rtcp_packet (node w') = _last_sent_rtcp_packet (node w)
              end
      | None =>
          before = trace w
          ∧ _last_sent_rtcp_packet (node w') = _last_sent_rtcp_packet (node w)
      end.
Proof.
  intros Hs. unfold SendRtpPacket. run. rewrite Hs.
  destruct (_rtcp_sr_generators (node w) !! PayloadType rtp_packet) as [g|] eqn:Hg.
  - rewrite AddRTPPacketAndGenerateRtcpSR_eq.
    set (g1 := if sr_due g w then _ else _).
    unfold IsAvailableRtcpSRPacket, PopRtcpSRPacket.
    destruct (_rtcp_packet g1) as [sr|] eqn:Hsr; unfold SendDataToNextNode; run.
    + destruct (next_node w (trace w) Rtcp (RtcpData sr)) eqn:Hok; cbn.
      * eexists _, _, _. split; [reflexivity|]. cbn.
        split; [reflexivity|]. split; [reflexivity|]. split; [reflexivity|].
        eexists _, _. split; [reflexivity|]. rewrite Hsr. cbn. rewrite Hok.
        split; [rewrite <- app_assoc; reflexivity|]. split; [reflexivity|].
        eexists. rewrite lookup_insert_eq. split; reflexivity.
      * eexists _, _, _. split; [reflexivity|]. cbn.
        split; [reflexivity|]. split; [reflexivity|]. split; [reflexivity|].
        eexists _, _. split; [reflexivity|]. rewrite Hsr. cbn. rewrite Hok.
        split; [rewrite <- app_assoc; reflexivity|]. split; [reflexivity|].
        eexists. rewrite lookup_insert_eq. split; reflexivity.
    + eexists _, _, _. split; [reflexivity|]. cbn.
      split; [reflexivity|]. split; [reflexivity|]. split; [reflexivity|].
      eexists _, _. split; [reflexivity|]. rewrite Hsr. split; reflexivity.
  - unfold SendDataToNextNode. run.
    eexists _, _, _. split; [reflexivity|]. cbn.
    split; [reflexivity|]. split; [reflexivity|]. split; [reflexivity|].
    split; reflexivity.
Qed.

(** [static_cast<uint8_t>(count % 256)] is the count modulo 256, whatever
    its sign. *)
Lemma rem_256_to_uint8 c : to_uint8 (Z.rem c 256) = c mod 256.
Proof.
  unfold to_uint8. change (2 ^ 8) with 256.
  pose proof (Z.quot_rem' c 256) as H.
  replace (Z.rem c 256) with (c + (- (c ÷ 256)) * 256) by lia.
  apply Z_mod_plus_full.
Qed.

(** What [SendFir] does for an ssrc that has an entry; the lifecycle state
    plays no part. *)
Lemma SendFir_eq (w : World) media_ssrc stat :
  _receive_statistics (node w) !! media_ssrc = Some stat →
  let fir := {| fir_SrcSsrc := GetReceiverSSRC stat;
                fir_Messages := [(media_ssrc, GetNumberOfFirRequests stat mod 256)] |} in
  let rtcp_packet := {| rtcp_info := InfoFIR fir;
                        rtcp_built := RtcpPacket_Build (InfoFIR fir) |} in
  let ok := next_node w (trace w) Rtcp (RtcpData rtcp_packet) in
  SendFir media_ssrc w
  = Done ok
      {| node := with_last_sent_rtcp_packet (Some rtcp_packet)
                   (with_receive_statistics media_ssrc (OnFirRequested stat) (node w));
         clock := clock w; clock_reads := clock_reads w; next_node := next_node w;
         trace := trace w ++ [EvSend Rtcp (RtcpData rtcp_packet) ok] |}.
Proof.
  intros Hstat. unfold SendFir, SendDataToNextNode. run. rewrite Hstat. run.
  rewrite rem_256_to_uint8. reflexivity.
Qed.

Lemma fir_sequence_numbers_cons media_ssrc e evs :
  fir_sequence_numbers media_ssrc (e :: evs)
  = fir_sequence_numbers media_ssrc [e] ++ fir_sequence_numbers media_ssrc evs.
Proof. unfold fir_sequence_numbers. cbn. rewrite app_nil_r. reflexivity. Qed.

(** It is enough that the count goes up by 1 modulo 256, as it does for an
    unsigned counter of any width that wraps around. *)
Lemma SendFir_times_sequence n :
  (∀ s, GetNumberOfFirRequests (OnFirRequested s) mod 256
        = (GetNumberOfFirRequests s + 1) mod 256) →
  ∀ (w : World) media_ssrc stat,
    _receive_statistics (node w) !! media_ssrc = Some stat →
    ∃ w' evs,
      SendFir_times n media_ssrc w = Done tt w'
      ∧ trace w' = trace w ++ evs
      ∧ fir_sequence_numbers media_ssrc evs
        = map (fun i => (GetNumberOfFirRequests stat + Z.of_nat i) mod 256) (seq 0 n).
Proof.
  intros Hinc. induction n as [|n IH]; intros w ssrc stat Hstat.
  - exists w, []. cbn. rewrite app_nil_r. auto.
  - cbn [SendFir_times]. unfold mbind at 1. unfold M_bind at 1.
    rewrite (SendFir_eq w ssrc stat Hstat). cbv zeta.
    match goal with |- context [SendFir_times n ssrc ?w1] =>
      destruct (IH w1 ssrc (OnFirRequested stat)) as (w' & evs & Hrun & Htr & Hseq)
    end.
    { cbn. apply lookup_insert_eq. }
    rewrite Hrun. eexists _, (_ :: evs). split; [reflexivity|].
    split. { rewrite Htr. cbn. rewrite <- app_assoc. reflexivity. }
    rewrite fir_sequence_numbers_cons, Hseq. cbn. rewrite Z.eqb_refl. cbn.
    f_equal. { f_equal. lia. }
    rewrite <- seq_shift, map_map. apply map_ext. intros i.
    rewrite Zplus_mod, Hinc, <- Zplus_mod. f_equal. lia.
Qed.

Lemma closed_form_steps c n :
  steps_of_one_mod_256 (map (fun i => (c + Z.of_nat i) mod 256) (seq 0 n)).
Proof.
  generalize 0%nat as k. induction n as [|n IH]; intros k; [exact I|].
  destruct n as [|n]; [exact I|].
  cbn [seq map steps_of_one_mod_256]. split.
  - rewrite Zplus_mod_idemp_l. f_equal. lia.
  - apply (IH (S k)).
Qed.

(** C6. Provided [OnFirRequested] raises the count of the statistics entry
    by 1: [n] calls of [SendFir] for an ssrc that has an entry send FIRs
    whose sequence numbers are count, count + 1, ... modulo 256, each the
    one before plus 1 modulo 256; for an ssrc without an entry [SendFir]
    returns false and does nothing. *)
Theorem fir_sequence_numbers_step (w : World) (media_ssrc : Z) (n : nat) :
  (∀ s, GetNumberOfFirRequests (OnFirRequested s) = GetNumberOfFirRequests s + 1) →
  match _receive_statistics (node w) !! media_ssrc with
  | Some stat =>
      ∃ w' evs,
        SendFir_times n media_ssrc w = Done tt w'
        ∧ trace w' = trace w ++ evs
        ∧ fir_sequence_numbers media_ssrc evs
          = map (fun i => (GetNumberOfFirRequests stat + Z.of_nat i) mod 256) (seq 0 n)
        ∧ steps_of_one_mod_256 (fir_sequence_numbers media_ssrc evs)
  | None => SendFir media_ssrc w = Done false w
  end.
Proof.
  intros Hinc. destruct (_receive_statistics (node w) !! media_ssrc) as [stat|] eqn:Hstat.
  - assert (Hmod : ∀ s, GetNumberOfFirRequests (OnFirRequested s) mod 256
                        = (GetNumberOfFirRequests s + 1) mod 256)
      by (intros s; rewrite Hinc; reflexivity).
    destruct (SendFir_times_sequence n Hmod w media_ssrc stat Hstat)
      as (w' & evs & Hrun & Htr & Hseq).
    exists w', evs. repeat split; try assumption.
    rewrite Hseq. apply closed_form_steps.
  - unfold SendFir. run. rewrite Hstat. reflexivity.
Qed.

(** Every computation of the model only appends to the trace. *)
Lemma grows_ret {A} (a : A) : grows (mret a).
Proof. intros w a' w' H. inversion H; subst. exists []. symmetry. apply app_nil_r. Qed.

Lemma grows_bind {A B} (m : M A) (f : A → M B) :
  grows m → (∀ a, grows (f a)) → grows (m ≫= f).
Proof.
  intros Hm Hf w b w' H. unfold mbind, M_bind in H.
  destruct (m w) as [a w1|] eqn:E; [|discriminate].
  destruct (Hm _ _ _ E) as [e1 H1]. destruct (Hf a _ _ _ H) as [e2 H2].
  exists (e1 ++ e2). rewrite H2, H1. symmetry. apply app_assoc.
Qed.

Lemma grows_undefined {A} : grows (@undefined _ A).
Proof. intros w a w' H. discriminate. Qed.

Lemma grows_this : grows this.
Proof. intros w a w' H. inversion H; subst. exists []. symmetry. apply app_nil_r. Qed.

Lemma grows_store n : grows (store n).
Proof. intros w a w' H. inversion H; subst. exists []. cbn. symmetry. apply app_nil_r. Qed.

Lemma grows_emit e : grows (emit e).
Proof. intros w a w' H. inversion H; subst. exists [e]. reflexivity. Qed.

Lemma grows_system_clock_now : grows system_clock_now.
Proof. intros w a w' H. inversion H; subst. exists []. cbn. symmetry. apply app_nil_r. Qed.

Lemma grows_SendDataToNextNode to p : grows (SendDataToNextNode to p).
Proof. intros w a w' H. inversion H; subst. eexists [_]. reflexivity. Qed.

Ltac grows_step :=
  first
    [ apply grows_bind; [|intros ?]
    | apply grows_ret
    | apply grows_undefined
    | apply grows_this
    | apply grows_store
    | apply grows_emit
    | apply grows_system_clock_now
    | apply grows_SendDataToNextNode
    | assumption
    | lazymatch goal with
      | |- grows (match ?x with _ => _ end) => destruct x
      end ].

Ltac grows_auto := unfold modify, log; cbv zeta; repeat grows_step.

Lemma grows_deliver_rtcp_infos infos : grows (deliver_rtcp_infos infos).
Proof.
  induction infos as [|info rest IH]; cbn [deliver_rtcp_infos]; grows_auto.
Qed.

(** [OnRtcpReceived] always returns, and its first event is its log line;
    the first event of [OnRtpReceived], when it returns, is its own. *)
Lemma deliver_rtcp_infos_returns infos :
  ∀ w : World, ∃ w', deliver_rtcp_infos infos w = Done tt w'.
Proof.
  induction infos as [|info rest IH]; intros w; cbn [deliver_rtcp_infos].
  - eexists. reflexivity.
  - run. destruct info as [sr| | |]; run.
    1: destruct (_receive_statistics (node w) !! sr_SenderSsrc sr);
         unfold system_clock_now; run.
    all: destruct (_observer (node w)); apply IH.
Qed.

Lemma OnRtcpReceived_first_event data (w : World) :
  ∃ b w' evs,
    OnRtcpReceived data w = Done b w'
    ∧ trace w' = trace w ++ EvLog "Get RTCP Packet - length(%d)" :: evs.
Proof.
  unfold OnRtcpReceived. run.
  destruct (ParseCompoundPacket data) as [infos|].
  - match goal with |- context [deliver_rtcp_infos infos ?w1] =>
      destruct (deliver_rtcp_infos_returns infos w1) as [w' E];
      destruct (grows_deliver_rtcp_infos _ _ _ _ E) as [evs Hevs]
    end.
    rewrite E. exists true, w', evs. split; [reflexivity|]. rewrite Hevs. cbn.
    rewrite <- app_assoc. reflexivity.
  - eexists false, _, []. split; reflexivity.
Qed.

Lemma OnRtpReceived_first_event data (w : World) b w' :
  OnRtpReceived data w = Done b w' →
  ∃ evs, trace w' = trace w ++ EvLog "%s" :: evs.
Proof.
  unfold OnRtpReceived. cbv zeta.
  match goal with |- (log "%s" ≫= ?f) w = _ → _ =>
    assert (Hrest : grows (f tt))
  end.
  { grows_auto. }
  intros H. unfold mbind at 1, M_bind at 1 in H. unfold log, emit in H.
  destruct (Hrest _ _ _ H) as [evs Hevs]. exists evs. rewrite Hevs. cbn.
  rewrite <- app_assoc. reflexivity.
Qed.

(** So the three ways [OnDataReceivedFromNextNode] can go are told apart by
    their outcome. *)
Lemma handlers_differ data (w : World) :
  OnRtcpReceived data w ≠ OnRtpReceived data w.
Proof.
  destruct (OnRtcpReceived_first_event data w) as (b & w' & evs & E & Htr).
  intros Heq. rewrite E in Heq. symmetry in Heq.
  destruct (OnRtpReceived_first_event _ _ _ _ Heq) as [evs' Htr'].
  rewrite Htr in Htr'. apply app_inv_head in Htr'. discriminate.
Qed.

Lemma OnRtcpReceived_not_rejection data (w : World) :
  OnRtcpReceived data (record_events [EvRead 0%nat; EvRead 1%nat] w)
  ≠ Done false (record_events [EvRead 0%nat; EvLog "It is not an RTP or RTCP packet."] w).
Proof.
  destruct (OnRtcpReceived_first_event data (record_events [EvRead 0%nat; EvRead 1%nat] w))
    as (b & w' & evs & E & Htr).
  rewrite E. intros Heq. inversion Heq; subst. cbn in Htr.
  rewrite <- app_assoc in Htr. apply app_inv_head in Htr. discriminate.
Qed.

Lemma OnRtpReceived_not_rejection data (w : World) :
  OnRtpReceived data (record_events [EvRead 0%nat; EvRead 1%nat] w)
  ≠ Done false (record_events [EvRead 0%nat; EvLog "It is not an RTP or RTCP packet."] w).
Proof.
  intros Heq. destruct (OnRtpReceived_first_event _ _ _ _ Heq) as [evs Htr].
  cbn in Htr. rewrite <- app_assoc in Htr. apply app_inv_head in Htr. discriminate.
Qed.

(** The classification of lines 205-226. *)
Lemma OnDataReceivedFromNextNode_eq (w : World) from b0 b1 rest :
  node_state (node w) = Started →
  (RTCP_HEADER_SIZE ≤ length (b0 :: b1 :: rest))%nat →
  OnDataReceivedFromNextNode from (b0 :: b1 :: rest) w
  = if (128 <=? byte_value b0) && (byte_value b0 <=? 191) then
      if (192 <=? byte_value b1) && (byte_value b1 <=? 223)
      then OnRtcpReceived (b0 :: b1 :: rest) (record_events [EvRead 0%nat; EvRead 1%nat] w)
      else OnRtpReceived (b0 :: b1 :: rest) (record_events [EvRead 0%nat; EvRead 1%nat] w)
    else Done false
           (record_events [EvRead 0%nat; EvLog "It is not an RTP or RTCP packet."] w).
Proof.
  intros Hs Hlen. unfold OnDataReceivedFromNextNode, GetDataAs_uint8. run. rewrite Hs.
  cbn [length] in Hlen. apply Nat.ltb_ge in Hlen. rewrite Hlen.
  destruct ((128 <=? byte_value b0) && (byte_value b0 <=? 191)).
  - run. rewrite <- app_assoc. cbn [app].
    destruct ((192 <=? byte_value b1) && (byte_value b1 <=? 223)); reflexivity.
  - run. rewrite <- app_assoc. reflexivity.
Qed.

Lemma in_range_true lo hi v : (lo <=? v) && (v <=? hi) = true ↔ lo ≤ v ≤ hi.
Proof. rewrite andb_true_iff, !Z.leb_le. tauto. Qed.

(** C1, amended. While Started, with RTCP_HEADER_SIZE at least 2, a
    datagram of at least RTCP_HEADER_SIZE bytes is handed to
    [OnRtcpReceived] exactly when byte 0 is in [128,191] and byte 1 in
    [192,223], to [OnRtpReceived] exactly when byte 0 is in [128,191] and
    byte 1 is not in [192,223], and is refused with false when byte 0 is
    outside [128,191]. *)
Theorem datagram_dispatch (w : World) from data :
  node_state (node w) = Started →
  (2 ≤ RTCP_HEADER_SIZE)%nat →
  (RTCP_HEADER_SIZE ≤ length data)%nat →
  ∃ b0 b1 rest,
    data = b0 :: b1 :: rest
    ∧ let v0 := byte_value b0 in
      let v1 := byte_value b1 in
      let read := record_events [EvRead 0%nat; EvRead 1%nat] w in
      (OnDataReceivedFromNextNode from data w = OnRtcpReceived data read
       ↔ 128 ≤ v0 ≤ 191 ∧ 192 ≤ v1 ≤ 223)
      ∧ (OnDataReceivedFromNextNode from data w = OnRtpReceived data read
         ↔ 128 ≤ v0 ≤ 191 ∧ ¬ 192 ≤ v1 ≤ 223)
      ∧ (¬ 128 ≤ v0 ≤ 191 →
         OnDataReceivedFromNextNode from data w
         = Done false
             (record_events [EvRead 0%nat; EvLog "It is not an RTP or RTCP packet."] w)).
Proof.
  intros Hs Hmin Hlen.
  destruct data as [|b0 [|b1 rest]]; cbn in Hlen; try lia.
  exists b0, b1, rest. split; [reflexivity|]. cbv zeta.
  rewrite (OnDataReceivedFromNextNode_eq w from b0 b1 rest Hs Hlen).
  pose proof (in_range_true 128 191 (byte_value b0)) as H0.
  pose proof (in_range_true 192 223 (byte_value b1)) as H1.
  pose proof (handlers_differ (b0 :: b1 :: rest)
                (record_events [EvRead 0%nat; EvRead 1%nat] w)) as Hd.
  pose proof (OnRtcpReceived_not_rejection (b0 :: b1 :: rest) w) as Hc.
  pose proof (OnRtpReceived_not_rejection (b0 :: b1 :: rest) w) as Hp.
  destruct ((128 <=? byte_value b0) && (byte_value b0 <=? 191)) eqn:E0;
    destruct ((192 <=? byte_value b1) && (byte_value b1 <=? 223)) eqn:E1;
    try (apply H0 in E0); try (apply H1 in E1);
    try (assert (¬ 128 ≤ byte_value b0 ≤ 191) by (rewrite <- H0; congruence));
    try (assert (¬ 192 ≤ byte_value b1 ≤ 223) by (rewrite <- H1; congruence));
    (split; [|split]); try split; intros; try tauto; try reflexivity;
    exfalso;
    first [ apply Hd; congruence | apply Hc; congruence | apply Hp; congruence ].
Qed.

(** X10. What [OnRtpReceived] does for a payload type that has a track and no
    jitter buffer of either kind: the statistics entry is created or
    updated and a receiver report may be sent, then the missing jitter buffer
    is logged; the call returns false when the track's format selects a kind
    of jitter buffer and true when it selects none. *)
Lemma OnRtpReceived_without_jitter_buffer (w : World) data track :
  let packet := RtpPacket_parse data in
  _tracks (node w) !! PayloadType packet = Some track →
  _rtp_frame_jitter_buffers (node w) !! PayloadType packet = None →
  _rtp_minimal_jitter_buffers (node w) !! PayloadType packet = None →
  ∃ w' evs,
    OnRtpReceived data w
    = Done match GetOriginBitstream track with
           | OtherBitstreamFormat _ => true
           | _ => false
           end w'
    ∧ is_Some (_receive_statistics (node w') !! Ssrc packet)
    ∧ trace w'
      = trace w ++ [EvLog "%s"] ++ evs
        ++ [EvLog "Could not find jitter buffer for payload type %d"]
    ∧ (evs = []
       ∨ ∃ rr ok,
           evs = [EvSend Rtcp (RtcpData {| rtcp_info := InfoRR rr; rtcp_built := true |}) ok]
           ∧ _last_sent_rtcp_packet (node w')
             = Some {| rtcp_info := InfoRR rr; rtcp_built := true |}).
Proof.
  cbv zeta. intros Htrack Hframe Hminimal.
  unfold OnRtpReceived. cbv zeta. run. rewrite Htrack.
  destruct (_receive_statistics (node w) !! Ssrc (RtpPacket_parse data)) as [stat|];
    unfold system_clock_now; run;
    match goal with |- context [HasElapsedSinceLastReportBlock ?s ?c ?n] =>
      destruct (HasElapsedSinceLastReportBlock s c n)
    end; run;
    try match goal with |- context [GenerateReportBlock ?s ?n] =>
      destruct (GenerateReportBlock s n) as [block stat']
    end; run;
    try match goal with |- context [RtcpPacket_Build ?i] =>
      destruct (RtcpPacket_Build i)
    end; unfold SendDataToNextNode; run.
  all: destruct (GetOriginBitstream track); cbn.
  all: rewrite ?Hframe, ?Hminimal; run.
  all: first
    [ eexists _, []; split; [reflexivity|]; cbn;
      split; [rewrite lookup_insert_eq; eauto|];
      split; [rewrite <- ?app_assoc; reflexivity | left; reflexivity]
    | eexists _, [EvSend _ _ _]; split; [reflexivity|]; cbn;
      split; [rewrite lookup_insert_eq; eauto|];
      split; [rewrite <- ?app_assoc; reflexivity
             | right; eexists _, _; split; reflexivity] ].
Qed.



Lemma rtcp_footprint_refl n : rtcp_footprint n n.
Proof. repeat split. Qed.

Lemma deliver_rtcp_infos_spec infos :
  ∀ w : World, ∃ w',
    deliver_rtcp_infos infos w = Done tt w'
    ∧ trace w' = trace w ++ (if _observer (node w) then map EvRtcp infos else [])
    ∧ rtcp_footprint (node w) (node w')
    ∧ (∀ k, k ∉ sender_report_ssrcs infos →
            _receive_statistics (node w') !! k = _receive_statistics (node w) !! k).
Proof.
  induction infos as [|info rest IH]; intros w.
  - exists w. split; [reflexivity|]. split.
    { destruct (_observer (node w)); cbn; rewrite app_nil_r; reflexivity. }
    split; [apply rtcp_footprint_refl|]. reflexivity.
  - cbn [deliver_rtcp_infos].
    assert (Hstep : ∃ w1,
      (match info with
       | InfoSR sr =>
           n ← this;
           match _receive_statistics n !! sr_SenderSsrc sr with
           | Some stat =>
               now ← system_clock_now;
               modify (with_receive_statistics (sr_SenderSsrc sr)
                         (AddReceivedRtcpSenderReport stat sr now))
           | None => mret tt
           end
       | _ => mret tt
       end) w = Done tt w1
      ∧ trace w1 = trace w
      ∧ rtcp_footprint (node w) (node w1)
      ∧ (∀ k, k ∉ sender_report_ssrcs [info] →
              _receive_statistics (node w1) !! k = _receive_statistics (node w) !! k)).
    { destruct info as [sr| | |]; try (exists w; repeat split; reflexivity).
      run. destruct (_receive_statistics (node w) !! sr_SenderSsrc sr) as [stat|] eqn:E;
        unfold system_clock_now; run.
      - eexists. split; [reflexivity|]. cbn. split; [reflexivity|]. split.
        + repeat split; cbn. apply dom_insert_lookup_L. eauto.
        + intros k Hk. apply lookup_insert_ne. intros <-. apply Hk. cbn. left.
      - exists w. repeat split; reflexivity. }
    destruct Hstep as (w1 & Hrun1 & Htr1 & Hfp1 & Hst1).
    unfold mbind at 1. unfold M_bind at 1. rewrite Hrun1. run.
    assert (Hobs : _observer (node w1) = _observer (node w)) by apply Hfp1.
    rewrite Hobs.
    destruct (_observer (node w)) eqn:Eo.
    + match goal with |- context [deliver_rtcp_infos rest ?w2] =>
        destruct (IH w2) as (w' & Hrun & Htr & Hfp & Hst)
      end.
      cbn in Htr, Hfp, Hst. rewrite Hobs in Htr.
      exists w'. split; [exact Hrun|].
      split. { rewrite Htr, Htr1. rewrite <- app_assoc. reflexivity. }
      split.
      { destruct Hfp1 as (?&?&?&?&?&?&?&?&?). destruct Hfp as (?&?&?&?&?&?&?&?&?).
        repeat split; congruence. }
      intros k Hk. rewrite Hst, Hst1; [reflexivity| |];
        intros Hin; apply Hk; unfold sender_report_ssrcs in *; cbn;
        apply elem_of_app; [left|right]; [|exact Hin].
      cbn in Hin. rewrite app_nil_r in Hin. exact Hin.
    + destruct (IH w1) as (w' & Hrun & Htr & Hfp & Hst).
      rewrite Hobs in Htr.
      exists w'. split; [exact Hrun|].
      split. { rewrite Htr, Htr1. reflexivity. }
      split.
      { destruct Hfp1 as (?&?&?&?&?&?&?&?&?). destruct Hfp as (?&?&?&?&?&?&?&?&?).
        repeat split; congruence. }
      intros k Hk. rewrite Hst, Hst1; [reflexivity| |];
        intros Hin; apply Hk; unfold sender_report_ssrcs in *; cbn;
        apply elem_of_app; [left|right]; [|exact Hin].
      cbn in Hin. rewrite app_nil_r in Hin. exact Hin.
Qed.

(** What [OnRtcpReceived] does, by the result of the parser. *)
Lemma OnRtcpReceived_spec (w : World) data :
  match ParseCompoundPacket data with
  | None =>
      OnRtcpReceived data w
      = Done false (record_events [EvLog "Get RTCP Packet - length(%d)"] w)
  | Some infos =>
      ∃ w',
        OnRtcpReceived data w = Done true w'
        ∧ trace w'
          = trace w ++ EvLog "Get RTCP Packet - length(%d)"
              :: (if _observer (node w) then map EvRtcp infos else [])
        ∧ rtcp_footprint (node w) (node w')
        ∧ (∀ k, k ∉ sender_report_ssrcs infos →
                _receive_statistics (node w') !! k = _receive_statistics (node w) !! k)
  end.
Proof.
  unfold OnRtcpReceived. run.
  destruct (ParseCompoundPacket data) as [infos|]; [|reflexivity].
  match goal with |- context [deliver_rtcp_infos infos ?w1] =>
    destruct (deliver_rtcp_infos_spec infos w1) as (w' & Hrun & Htr & Hfp & Hst)
  end.
  rewrite Hrun. exists w'. split; [reflexivity|].
  split. { rewrite Htr. cbn. rewrite <- app_assoc. reflexivity. }
  split; assumption.
Qed.

(** X6. [OnRtcpReceived] returns false on a parse failure and does
    nothing but log. Otherwise it returns true, hands every parsed info to
    the observer in order (none when the observer is gone), and changes the
    node only in statistics entries that exist for the sender ssrc of a
    sender report among the infos. *)
Theorem rtcp_messages_delivered_in_order (w : World) data :
  match ParseCompoundPacket data with
  | None =>
      OnRtcpReceived data w
      = Done false (record_events [EvLog "Get RTCP Packet - length(%d)"] w)
  | Some infos =>
      ∃ w',
        OnRtcpReceived data w = Done true w'
        ∧ trace w'
          = trace w ++ EvLog "Get RTCP Packet - length(%d)"
              :: (if _observer (node w) then map EvRtcp infos else [])
        ∧ rtcp_footprint (node w) (node w')
        ∧ (∀ k, k ∉ sender_report_ssrcs infos →
                _receive_statistics (node w') !! k = _receive_statistics (node w) !! k)
  end.
Proof. exact (OnRtcpReceived_spec w data). Qed.

(** Closes the conjuncts of a footprint on an explicit node. *)
Ltac footprint_facts :=
  repeat split; cbn;
  try reflexivity;
  try (apply dom_insert_lookup_L; eauto);
  try (intros; rewrite ?lookup_insert_ne by congruence; reflexivity);
  try (repeat (etransitivity; [|apply dom_insert_subseteq]); reflexivity).

(** What [OnRtpReceived] may change when it returns. *)
Lemma OnRtpReceived_spec (w : World) data b w' :
  OnRtpReceived data w = Done b w' →
  let packet := RtpPacket_parse data in
  rtp_footprint (PayloadType packet) (Ssrc packet) (node w) (node w')
  ∧ match _tracks (node w) !! PayloadType packet with
    | None => b = false ∧ node w' = node w
    | Some _ => is_Some (_receive_statistics (node w') !! Ssrc packet)
    end.
Proof.
  cbv zeta. unfold OnRtpReceived. cbv zeta. run.
  destruct (_tracks (node w) !! PayloadType (RtpPacket_parse data)) as [track|].
  2: { intros H. inversion H; subst. cbn. split; [footprint_facts|]. split; reflexivity. }
  destruct (_receive_statistics (node w) !! Ssrc (RtpPacket_parse data)) as [stat|];
    unfold system_clock_now; run;
    match goal with |- context [HasElapsedSinceLastReportBlock ?s ?c ?n] =>
      destruct (HasElapsedSinceLastReportBlock s c n)
    end; run;
    try match goal with |- context [GenerateReportBlock ?s ?n] =>
      destruct (GenerateReportBlock s n) as [block stat']
    end; run;
    try match goal with |- context [RtcpPacket_Build ?i] =>
      destruct (RtcpPacket_Build i)
    end; unfold SendDataToNextNode; run.
  all: destruct (GetOriginBitstream track); cbn.
  all: try match goal with |- context [_rtp_frame_jitter_buffers ?n !! ?k] =>
         destruct (_rtp_frame_jitter_buffers n !! k) as [jb|] eqn:Ejb
       end.
  all: try match goal with |- context [_rtp_minimal_jitter_buffers ?n !! ?k] =>
         destruct (_rtp_minimal_jitter_buffers n !! k) as [jb|] eqn:Ejb
       end.
  all: run.
  all: try match goal with |- context [PopAvailableFrame ?x] =>
         destruct (PopAvailableFrame x) as [[[|first others]|] jb']
       end.
  all: try match goal with |- context [PopAvailablePacket ?x] =>
         destruct (PopAvailablePacket x) as [[p|] jb']
       end.
  all: run.
  all: try destruct (_observer (node w)); run.
  all: intros H; try discriminate H; inversion H; subst; clear H; cbn.
  all: split; [footprint_facts | rewrite ?lookup_insert_eq; eauto].
Qed.

(** X7. When [OnRtpReceived] returns, it has changed at most the
    statistics entry of the packet's ssrc, the jitter buffer registered for
    its payload type and the last sent RTCP packet; no key is added to a
    jitter-buffer table and none leaves the statistics table. Without a
    track for the payload type it returns false and leaves the node as it
    was; with one, the ssrc has a statistics entry afterwards. *)
Theorem rtp_handling_footprint (w : World) data b w' :
  OnRtpReceived data w = Done b w' →
  let packet := RtpPacket_parse data in
  rtp_footprint (PayloadType packet) (Ssrc packet) (node w) (node w')
  ∧ match _tracks (node w) !! PayloadType packet with
    | None => b = false ∧ node w' = node w
    | Some _ => is_Some (_receive_statistics (node w') !! Ssrc packet)
    end.
Proof. exact (OnRtpReceived_spec w data b w'). Qed.





(** [keeps] is a preorder, and every footprint of the send and receive
    paths lies within it. *)
Lemma keeps_refl n : keeps n n.
Proof.
  split; [tauto|]. split; [tauto|]. split; [repeat split; reflexivity|].
  intros H. repeat split; auto.
Qed.

Lemma keeps_trans n1 n2 n3 : keeps n1 n2 → keeps n2 n3 → keeps n1 n3.
Proof.
  intros (B1 & S1 & (G1 & T1 & F1 & M1 & R1) & Z1) (B2 & S2 & (G2 & T2 & F2 & M2 & R2) & Z2).
  split; [tauto|]. split; [tauto|].
  split. { repeat split; etransitivity; eassumption. }
  intros H. destruct (Z1 H) as (H2 & ? & ? & ? & ?). destruct (Z2 H2) as (? & ? & ? & ? & ?).
  repeat split; congruence.
Qed.

Lemma hot_path_keeps n n' : hot_path_footprint n n' → keeps n n'.
Proof.
  intros (Hs & Ho & Ht & Hg & Hsl & Hf & Hm & Hr).
  split.
  { intros Hb pt track Htr. rewrite Ht in Htr. specialize (Hb pt track Htr).
    destruct (GetOriginBitstream track); try exact I;
      rewrite <- elem_of_dom in *; congruence. }
  split.
  { intros He pt g' Hg'. destruct (Hsl pt g' Hg') as [H|H]; [eapply He; exact H|exact H]. }
  split.
  { repeat split; try (rewrite ?Ht, ?Hg, ?Hf, ?Hm; reflexivity). exact Hr. }
  intros H. repeat split; congruence.
Qed.

Lemma hot_path_footprint_refl n : hot_path_footprint n n.
Proof. repeat split; auto. Qed.

Lemma rtp_footprint_hot pt ssrc n n' : rtp_footprint pt ssrc n n' → hot_path_footprint n n'.
Proof.
  intros (Hs & Ho & Hg & Ht & _ & Hf & _ & Hm & _ & _ & Hr).
  repeat split; try assumption; try congruence;
    try (intros k g' H; left; congruence).
Qed.

Lemma rtcp_footprint_hot n n' : rtcp_footprint n n' → hot_path_footprint n n'.
Proof.
  intros (Hs & Ho & Hg & Ht & Hf & Hm & _ & _ & Hr).
  repeat split; try assumption; try congruence;
    try (intros k g' H; left; congruence); try (rewrite Hr; reflexivity).
Qed.


(** What [SendRtpPacket] may change when it returns. *)
Lemma SendRtpPacket_footprint (w : World) p b w' :
  SendRtpPacket p w = Done b w' →
  hot_path_footprint (node w) (node w')
  ∧ _rtp_frame_jitter_buffers (node w') = _rtp_frame_jitter_buffers (node w)
  ∧ _rtp_minimal_jitter_buffers (node w') = _rtp_minimal_jitter_buffers (node w)
  ∧ _receive_statistics (node w') = _receive_statistics (node w)
  ∧ (∀ k, k ≠ PayloadType p →
          _rtcp_sr_generators (node w') !! k = _rtcp_sr_generators (node w) !! k)
  ∧ (node_state (node w) = Started →
     _last_sent_rtp_packet (node w') = Some p
     ∧ ∀ g', _rtcp_sr_generators (node w') !! PayloadType p = Some g' →
             _rtcp_packet g' = None)
  ∧ (node_state (node w) ≠ Started → b = false ∧ node w' = node w).
Proof.
  assert (Hdec : node_state (node w) = Started ∨ node_state (node w) ≠ Started)
    by (destruct (node_state (node w)); auto; right; discriminate).
  destruct Hdec as [Hs|Hs].
  2: { rewrite SendRtpPacket_not_started by exact Hs. intros H. inversion H; subst. cbn.
       split; [apply hot_path_footprint_refl|]. repeat split; try reflexivity; congruence. }
  unfold SendRtpPacket. run. rewrite Hs.
  destruct (_rtcp_sr_generators (node w) !! PayloadType p) as [g|] eqn:Hg.
  - rewrite AddRTPPacketAndGenerateRtcpSR_eq.
    set (g1 := if sr_due g w then _ else _).
    unfold IsAvailableRtcpSRPacket, PopRtcpSRPacket.
    destruct (_rtcp_packet g1) as [sr|] eqn:Hsr; unfold SendDataToNextNode; run.
    + destruct (next_node w (trace w) Rtcp (RtcpData sr)); cbn;
        intros H; inversion H; subst; clear H; cbn.
      all: split; [repeat split; cbn; try reflexivity|].
      all: try (apply dom_insert_lookup_L; eauto).
      all: try (intros k g'; destruct (decide (k = PayloadType p)) as [->|Hne];
                [rewrite lookup_insert_eq; intros [= <-]; right; reflexivity
                |rewrite lookup_insert_ne by congruence; auto]).
      all: repeat split; try reflexivity; try congruence.
      all: try (intros k Hk; apply lookup_insert_ne; congruence).
      all: rewrite lookup_insert_eq; intros g' [= <-]; reflexivity.
    + intros H; inversion H; subst; clear H; cbn.
      split; [repeat split; cbn; try reflexivity|].
      all: try (apply dom_insert_lookup_L; eauto).
      all: try (intros k g'; destruct (decide (k = PayloadType p)) as [->|Hne];
                [rewrite lookup_insert_eq; intros [= <-]; right; exact Hsr
                |rewrite lookup_insert_ne by congruence; auto]).
      all: repeat split; try reflexivity; try congruence.
      all: try (intros k Hk; apply lookup_insert_ne; congruence).
      all: rewrite lookup_insert_eq; intros g' [= <-]; exact Hsr.
  - unfold SendDataToNextNode. run. intros H; inversion H; subst; clear H; cbn.
    split; [repeat split; cbn; auto|].
    repeat split; try reflexivity; try congruence.
Qed.

Lemma SendFir_footprint (w : World) ssrc b w' :
  SendFir ssrc w = Done b w' → hot_path_footprint (node w) (node w').
Proof.
  destruct (_receive_statistics (node w) !! ssrc) as [stat|] eqn:Hstat.
  - rewrite (SendFir_eq w ssrc stat Hstat). cbv zeta. intros H; inversion H; subst; clear H.
    repeat split; cbn; auto. apply dom_insert_subseteq.
  - unfold SendFir. run. rewrite Hstat. intros H; inversion H; subst.
    apply hot_path_footprint_refl.
Qed.

Lemma OnDataReceivedFromNextNode_footprint (w : World) from data b w' :
  OnDataReceivedFromNextNode from data w = Done b w' →
  hot_path_footprint (node w) (node w').
Proof.
  unfold OnDataReceivedFromNextNode, GetDataAs_uint8. run.
  destruct (node_state (node w));
    try (intros H; inversion H; subst; apply hot_path_footprint_refl).
  destruct (length data <? RTCP_HEADER_SIZE)%nat;
    [intros H; inversion H; subst; apply hot_path_footprint_refl|].
  destruct data as [|b0 [|b1 rest]]; run; unfold undefined; try discriminate.
  all: destruct ((128 <=? byte_value b0) && (byte_value b0 <=? 191)); run;
    try discriminate;
    try (intros H; inversion H; subst; apply hot_path_footprint_refl).
  destruct ((192 <=? byte_value b1) && (byte_value b1 <=? 223)).
  - match goal with |- OnRtcpReceived _ ?w1 = _ → _ =>
      pose proof (OnRtcpReceived_spec w1 (b0 :: b1 :: rest)) as Haux
    end.
    destruct (ParseCompoundPacket (b0 :: b1 :: rest)) as [infos|].
    + destruct Haux as (w2 & Hrun & _ & Hfp & _). rewrite Hrun.
      intros H; inversion H; subst. apply rtcp_footprint_hot in Hfp. exact Hfp.
    + rewrite Haux. intros H; inversion H; subst. apply hot_path_footprint_refl.
  - intros H. apply OnRtpReceived_spec in H. destruct H as [H _].
    apply rtp_footprint_hot in H. exact H.
Qed.


(** Each call keeps what [keeps] says. *)
Lemma insert_keeps_slots_empty (n : RtpRtcp) pt g :
  slots_empty n → _rtcp_packet g = None → slots_empty (with_rtcp_sr_generator pt g n).
Proof.
  intros He Hg k g'. cbn. destruct (decide (pt = k)) as [->|Hne].
  - rewrite lookup_insert_eq. intros [= <-]. exact Hg.
  - rewrite lookup_insert_ne by exact Hne. apply He.
Qed.

Lemma AddRtcpSRGenerator_keeps (w : World) pt ssrc rate b w' :
  AddRtcpSRGenerator pt ssrc rate w = Done b w' → keeps (node w) (node w').
Proof.
  unfold AddRtcpSRGenerator, RtcpSRGenerator_new, system_clock_now. run.
  destruct (node_state (node w)) eqn:Hs; run;
    intros H; inversion H; subst; clear H; try apply keeps_refl.
  cbn. split; [intros Hb; exact Hb|].
  split. { intros He. apply (insert_keeps_slots_empty (node w)); [exact He|reflexivity]. }
  split. { repeat split; cbn; try reflexivity. apply dom_insert_subseteq. }
  intros Hn. congruence.
Qed.

Lemma AddRtpReceiver_keeps (w : World) pt track b w' :
  AddRtpReceiver pt track w = Done b w' → keeps (node w) (node w').
Proof.
  unfold AddRtpReceiver. run.
  destruct (node_state (node w)) eqn:Hs; run;
    try (intros H; inversion H; subst; clear H; apply keeps_refl).
  destruct (GetOriginBitstream track) eqn:Hf; run;
    intros H; inversion H; subst; clear H; cbn.
  all: split; [|split; [intros He; exact He|split; [|intros Hn; congruence]]].
  all: try (repeat split; cbn; try reflexivity; apply dom_insert_subseteq).
  all: intros Hb k t; cbn; destruct (decide (pt = k)) as [->|Hne];
    [ rewrite lookup_insert_eq; intros [= <-]; rewrite Hf;
      try exact I; rewrite lookup_insert_eq; eauto
    | rewrite lookup_insert_ne by exact Hne; intros Ht; specialize (Hb k t Ht);
      destruct (GetOriginBitstream t); try exact I; try exact Hb;
      rewrite lookup_insert_ne by exact Hne; exact Hb ].
Qed.

Lemma Node_Start_keeps (w : World) b w' :
  Node_Start w = Done b w' → keeps (node w) (node w').
Proof.
  unfold Node_Start. run.
  destruct (node_state (node w)) eqn:Hs; run;
    intros H; inversion H; subst; clear H; try apply keeps_refl.
  cbn. split; [auto|]. split; [auto|]. split; [repeat split; reflexivity|].
  intros Hn. congruence.
Qed.

Lemma Stop_keeps (w : World) b w' :
  Stop w = Done b w' → keeps (node w) (node w').
Proof.
  unfold Stop, Node_Stop. run. intros H; inversion H; subst; clear H.
  cbn. split; [auto|]. split; [auto|]. split; [repeat split; reflexivity|].
  intros Hn. cbn. repeat split. discriminate.
Qed.

Lemma OnDataReceivedFromPrevNode_node (w : World) from data b w' :
  OnDataReceivedFromPrevNode from data w = Done b w' → node w' = node w.
Proof.
  unfold OnDataReceivedFromPrevNode, SendDataToNextNode. run.
  destruct (node_state (node w)); run;
    try (intros H; inversion H; subst; reflexivity).
  destruct (next_node w (trace w) from (RawData data)); run;
    intros H; inversion H; subst; reflexivity.
Qed.

Lemma perform_keeps c (w : World) b w' :
  perform c w = Done b w' → keeps (node w) (node w').
Proof.
  destruct c; cbn [perform]; intros H.
  - eapply AddRtcpSRGenerator_keeps; exact H.
  - eapply AddRtpReceiver_keeps; exact H.
  - eapply Node_Start_keeps; exact H.
  - eapply Stop_keeps; exact H.
  - apply hot_path_keeps. apply SendRtpPacket_footprint in H. apply H.
  - apply hot_path_keeps. eapply SendFir_footprint; exact H.
  - apply OnDataReceivedFromPrevNode_node in H. rewrite H. apply keeps_refl.
  - apply hot_path_keeps. eapply OnDataReceivedFromNextNode_footprint; exact H.
Qed.

Lemma perform_all_keeps cs :
  ∀ (w : World) bs w', perform_all cs w = Done bs w' → keeps (node w) (node w').
Proof.
  induction cs as [|c later IH]; intros w bs w' H.
  - inversion H; subst. apply keeps_refl.
  - cbn [perform_all] in H. unfold mbind at 1, M_bind at 1 in H.
    destruct (perform c w) as [b w1|] eqn:E1; [|discriminate].
    unfold mbind at 1, M_bind at 1 in H.
    destruct (perform_all later w1) as [bs1 w2|] eqn:E2; [|discriminate].
    inversion H; subst.
    eapply keeps_trans; [eapply perform_keeps; exact E1|eapply IH; exact E2].
Qed.

(** X11. After any calls on a node created with empty tables, every
    track of a supported format has a jitter buffer of the kind its format
    selects under its payload type, and no generator holds a report that
    was not sent: the lookups commented as unable to fail in
    [OnRtpReceived] cannot fail. *)
Theorem registrations_stay_consistent observer state cs (w : World) bs w' :
  node w = RtpRtcp_new observer state →
  perform_all cs w = Done bs w' →
  buffers_match (node w') ∧ slots_empty (node w').
Proof.
  intros Hn H. apply perform_all_keeps in H. destruct H as (Hb & He & _).
  rewrite Hn in Hb, He. split.
  - apply Hb. intros pt track. cbn. rewrite lookup_empty. discriminate.
  - apply He. intros pt g. cbn. rewrite lookup_empty. discriminate.
Qed.

(** X13. No call removes a key from a table: generators, tracks, jitter
    buffers and statistics entries stay for the life of the node. *)
Theorem tables_never_lose_a_key cs (w : World) bs w' :
  perform_all cs w = Done bs w' → tables_only_grow (node w) (node w').
Proof. intros H. apply perform_all_keeps in H. apply H. Qed.

(** X14. Once the node is not Ready, no sequence of calls changes
    the track table or the sets of payload types that have a generator, a
    frame jitter buffer or a minimal jitter buffer, and the node does not
    become Ready again. *)
Theorem registrations_frozen_outside_Ready cs (w : World) bs w' :
  node_state (node w) ≠ Ready →
  perform_all cs w = Done bs w' →
  node_state (node w') ≠ Ready
  ∧ _tracks (node w') = _tracks (node w)
  ∧ dom (_rtcp_sr_generators (node w')) = dom (_rtcp_sr_generators (node w))
  ∧ dom (_rtp_frame_jitter_buffers (node w')) = dom (_rtp_frame_jitter_buffers (node w))
  ∧ dom (_rtp_minimal_jitter_buffers (node w'))
    = dom (_rtp_minimal_jitter_buffers (node w)).
Proof. intros Hs H. apply perform_all_keeps in H. apply H. exact Hs. Qed.



(** The return value of [OnRtpReceived] is its verdict. *)
Lemma OnRtpReceived_result (w : World) data :
  result (OnRtpReceived data w) = OnRtpReceived_verdict (node w) (RtpPacket_parse data).
Proof.
  unfold OnRtpReceived, OnRtpReceived_verdict. cbv zeta. run.
  destruct (_tracks (node w) !! PayloadType (RtpPacket_parse data)) as [track|];
    [|reflexivity].
  destruct (_receive_statistics (node w) !! Ssrc (RtpPacket_parse data)) as [stat|];
    unfold system_clock_now; run;
    match goal with |- context [HasElapsedSinceLastReportBlock ?s ?c ?n] =>
      destruct (HasElapsedSinceLastReportBlock s c n)
    end; run;
    try match goal with |- context [GenerateReportBlock ?s ?n] =>
      destruct (GenerateReportBlock s n) as [block stat']
    end; run;
    try match goal with |- context [RtcpPacket_Build ?i] =>
      destruct (RtcpPacket_Build i)
    end; unfold SendDataToNextNode; run.
  all: destruct (GetOriginBitstream track); cbn.
  all: try match goal with |- context [_rtp_frame_jitter_buffers ?n !! ?k] =>
         destruct (_rtp_frame_jitter_buffers n !! k) as [jb|] eqn:Ejb
       end.
  all: try match goal with |- context [_rtp_minimal_jitter_buffers ?n !! ?k] =>
         destruct (_rtp_minimal_jitter_buffers n !! k) as [jb|] eqn:Ejb
       end.
  all: run.
  all: try match goal with |- context [PopAvailableFrame ?x] =>
         destruct (PopAvailableFrame x) as [[[|first others]|] jb']
       end.
  all: try match goal with |- context [PopAvailablePacket ?x] =>
         destruct (PopAvailablePacket x) as [[p|] jb']
       end.
  all: run.
  all: try destruct (_observer (node w)); reflexivity.
Qed.

(** X8. What [OnRtpReceived] returns depends only on the tracks, the
    jitter buffers and the observer: not on the statistics, the clock,
    whether a receiver report was built, or what the node below answered to
    its send. *)
Theorem rtp_result_ignores_statistics_and_sends (w1 w2 : World) data :
  _tracks (node w1) = _tracks (node w2) →
  _rtp_frame_jitter_buffers (node w1) = _rtp_frame_jitter_buffers (node w2) →
  _rtp_minimal_jitter_buffers (node w1) = _rtp_minimal_jitter_buffers (node w2) →
  _observer (node w1) = _observer (node w2) →
  result (OnRtpReceived data w1) = result (OnRtpReceived data w2).
Proof.
  intros Ht Hf Hm Ho. rewrite !OnRtpReceived_result. unfold OnRtpReceived_verdict.
  rewrite Ht, Hf, Hm, Ho. reflexivity.
Qed.

(** X12. On a node whose tracks all have their jitter buffer, as after
    any registrations, [OnRtpReceived] returns true exactly when the payload
    type of the packet has a track. *)
Theorem rtp_fails_only_without_track (w : World) data b w' :
  buffers_match (node w) →
  OnRtpReceived data w = Done b w' →
  (b = true ↔ is_Some (_tracks (node w) !! PayloadType (RtpPacket_parse data))).
Proof.
  intros Hb H. pose proof (OnRtpReceived_result w data) as Hr. rewrite H in Hr. cbn in Hr.
  unfold OnRtpReceived_verdict in Hr.
  destruct (_tracks (node w) !! PayloadType (RtpPacket_parse data)) as [track|] eqn:Ht.
  - specialize (Hb _ _ Ht). split; [eauto|intros _].
    destruct (GetOriginBitstream track);
      try match type of Hb with
          | is_Some _ => destruct Hb as [? Hjb]; rewrite Hjb in Hr
          end;
      repeat case_match; congruence.
  - injection Hr as ->. split; [discriminate|]. intros [? ?]. discriminate.
Qed.

(** X9. [OnRtpReceived] reads through a null pointer in exactly two
    cases: a frame jitter buffer pops a frame without packets while an
    observer is present (line 313), or a minimal jitter buffer releases a
    packet while the observer is null (line 352, which lacks the check of
    line 305). *)
Theorem rtp_undefined_iff (w : World) data :
  let packet := RtpPacket_parse data in
  OnRtpReceived data w = Undefined ↔
  ∃ track,
    _tracks (node w) !! PayloadType packet = Some track
    ∧ (((GetOriginBitstream track = H264_RTP_RFC_6184
         ∨ GetOriginBitstream track = VP8_RTP_RFC_7741
         ∨ GetOriginBitstream track = AAC_MPEG4_GENERIC)
        ∧ _observer (node w) = true
        ∧ ∃ jb, _rtp_frame_jitter_buffers (node w) !! PayloadType packet = Some jb
                ∧ fst (PopAvailableFrame (FrameInsertPacket jb packet)) = Some [])
       ∨ (GetOriginBitstream track = OPUS_RTP_RFC_7587
          ∧ _observer (node w) = false
          ∧ ∃ jb p, _rtp_minimal_jitter_buffers (node w) !! PayloadType packet = Some jb
                    ∧ fst (PopAvailablePacket (MinimalInsertPacket jb packet)) = Some p)).
Proof.
  cbv zeta. pose proof (OnRtpReceived_result w data) as Hr.
  assert (Hu : OnRtpReceived data w = Undefined
               ↔ OnRtpReceived_verdict (node w) (RtpPacket_parse data) = None).
  { rewrite <- Hr. destruct (OnRtpReceived data w); cbn; split; congruence. }
  rewrite Hu. clear Hr Hu. unfold OnRtpReceived_verdict.
  destruct (_tracks (node w) !! PayloadType (RtpPacket_parse data)) as [track|].
  2: { split; [discriminate|]. intros (t & Ht & _). discriminate. }
  split.
  - intros H. exists track. split; [reflexivity|].
    destruct (GetOriginBitstream track) eqn:Hf; try discriminate.
    1-3: left; split; [tauto|];
      destruct (_rtp_frame_jitter_buffers (node w) !! _) as [jb|]; try discriminate;
      destruct (fst (PopAvailableFrame _)) as [[|]|] eqn:Hp; try discriminate;
      destruct (_observer (node w)); try discriminate; eauto.
    right. split; [reflexivity|].
    destruct (_rtp_minimal_jitter_buffers (node w) !! _) as [jb|]; try discriminate.
    destruct (fst (PopAvailablePacket _)) as [p|] eqn:Hp; try discriminate.
    destruct (_observer (node w)); try discriminate. eauto.
  - intros (t & [= <-] & [(Hne & Ho & jb & Hjb & Hp)|(He & Ho & jb & p & Hjb & Hp)]).
    + destruct Hne as [Hf|[Hf|Hf]]; rewrite Hf, Hjb, Hp, Ho; reflexivity.
    + rewrite He, Hjb, Hp, Ho. reflexivity.
Qed.

(** The lifecycle gate of [OnDataReceivedFromPrevNode]. *)
Lemma OnDataReceivedFromPrevNode_not_started (w : World) from data :
  node_state (node w) ≠ Started →
  OnDataReceivedFromPrevNode from data w
  = Done false (record_events
      [EvLog "Node has not started, so the received data has been canceled."] w).
Proof.
  intros H. unfold OnDataReceivedFromPrevNode. run.
  destruct (node_state (node w)); try reflexivity. congruence.
Qed.

(** X15. While the node is not Started, any sequence of calls of
    [SendRtpPacket], [OnDataReceivedFromPrevNode] and
    [OnDataReceivedFromNextNode] returns false each time, sends nothing,
    delivers nothing, reads no byte and leaves the node as it was: each call
    only logs. *)
Theorem gated_calls_refused_outside_Started cs :
  ∀ w : World,
    node_state (node w) ≠ Started →
    Forall gated cs →
    perform_all cs w
    = Done (map (fun _ => false) cs)
        (record_events
           (map (fun _ =>
                   EvLog "Node has not started, so the received data has been canceled.")
                cs) w).
Proof.
  induction cs as [|c later IH]; intros w Hs Hg.
  - cbn. unfold mret, M_ret, record_events. rewrite app_nil_r. destruct w; reflexivity.
  - inversion Hg as [|? ? Hc Hl]; subst.
    cbn [perform_all]. unfold mbind at 1. unfold M_bind at 1.
    assert (E : perform c w
                = Done false (record_events
                    [EvLog "Node has not started, so the received data has been canceled."]
                    w)).
    { destruct c; try contradiction; cbn [perform].
      - apply SendRtpPacket_not_started; exact Hs.
      - apply OnDataReceivedFromPrevNode_not_started; exact Hs.
      - apply OnDataReceivedFromNextNode_not_started; exact Hs. }
    rewrite E. unfold mbind at 1. unfold M_bind at 1.
    rewrite IH; [|exact Hs|exact Hl].
    unfold mret, M_ret, record_events. cbn. rewrite <- app_assoc. reflexivity.
Qed.

(** X16. While Started, [OnDataReceivedFromPrevNode] sends the data as
    it is, under the node type it came with, returns what the node below
    answered, logs a refusal, and leaves the node as it was. *)
Theorem data_from_above_forwarded_unchanged (w : World) from data :
  node_state (node w) = Started →
  let ok := next_node w (trace w) from (RawData data) in
  OnDataReceivedFromPrevNode from data w
  = Done ok
      (record_events
         (EvSend from (RawData data) ok
          :: (if ok then [] else [EvLog "Send data failed from(%d) data_len(%d)"])) w).
Proof.
  intros Hs. cbv zeta. unfold OnDataReceivedFromPrevNode, SendDataToNextNode. run.
  rewrite Hs. destruct (next_node w (trace w) from (RawData data)); run.
  - reflexivity.
  - rewrite <- app_assoc. reflexivity.
Qed.

(** X17. When [SendRtpPacket] returns it has left the lifecycle state,
    the observer, the tracks, the jitter buffers, the statistics and every
    generator of another payload type alone, and added or removed no
    generator; after a call while Started the generator of the packet's
    payload type holds no report. *)
Theorem send_rtp_footprint (w : World) p b w' :
  SendRtpPacket p w = Done b w' →
  node_state (node w') = node_state (node w)
  ∧ _observer (node w') = _observer (node w)
  ∧ _tracks (node w') = _tracks (node w)
  ∧ _rtp_frame_jitter_buffers (node w') = _rtp_frame_jitter_buffers (node w)
  ∧ _rtp_minimal_jitter_buffers (node w') = _rtp_minimal_jitter_buffers (node w)
  ∧ _receive_statistics (node w') = _receive_statistics (node w)
  ∧ dom (_rtcp_sr_generators (node w')) = dom (_rtcp_sr_generators (node w))
  ∧ (∀ k, k ≠ PayloadType p →
          _rtcp_sr_generators (node w') !! k = _rtcp_sr_generators (node w) !! k)
  ∧ (node_state (node w) = Started →
     ∀ g', _rtcp_sr_generators (node w') !! PayloadType p = Some g' →
           _rtcp_packet g' = None).
Proof.
  intros H. apply SendRtpPacket_footprint in H.
  destruct H as ((Hs & Ho & Ht & Hg & _) & Hf & Hm & Hr & Hk & Hst & _).
  repeat split; try assumption. intros Hstarted. apply Hst. exact Hstarted.
Qed.


(** One [SendRtpPacket] on a node whose generator for the payload type holds
    no report. *)
Lemma SendRtpPacket_step (w : World) p g :
  node_state (node w) = Started →
  _rtcp_sr_generators (node w) !! PayloadType p = Some g →
  _rtcp_packet g = None →
  ∃ ok w1 evs,
    SendRtpPacket p w = Done ok w1
    ∧ node_state (node w1) = Started
    ∧ clock w1 = clock w
    ∧ clock_reads w1 = (readings_used g w + clock_reads w)%nat
    ∧ _rtcp_sr_generators (node w1) !! PayloadType p
      = Some (if sr_due g w
              then snd (PopRtcpSRPacket (generated g p (reading w (readings_used g w - 1))))
              else accumulated g p)
    ∧ trace w1 = trace w ++ evs
    ∧ sent_rtp_packets evs = [p]
    ∧ sent_rtcp_packets evs
      = if sr_due g w
        then match _rtcp_packet (generated g p (reading w (readings_used g w - 1))) with
             | Some sr => [sr]
             | None => []
             end
        else [].
Proof.
  intros Hs Hg Hnone. unfold SendRtpPacket. run. rewrite Hs, Hg.
  rewrite AddRTPPacketAndGenerateRtcpSR_eq.
  unfold IsAvailableRtcpSRPacket, PopRtcpSRPacket.
  destruct (sr_due g w); cbn -[readings_used]; unfold SendDataToNextNode; run.
  - match goal with |- context [next_node w (trace w) Rtcp ?x] =>
      destruct (next_node w (trace w) Rtcp x)
    end; cbn -[readings_used];
      eexists _, _, [_; _; _]; (split; [reflexivity|]); cbn -[readings_used];
      rewrite lookup_insert_eq, <- !app_assoc; repeat split; exact Hs.
  - rewrite Hnone. run.
    eexists _, _, [_]; (split; [reflexivity|]); cbn -[readings_used].
    rewrite lookup_insert_eq. repeat split. exact Hs.
Qed.

Lemma sent_rtcp_packets_app l1 l2 :
  sent_rtcp_packets (l1 ++ l2) = sent_rtcp_packets l1 ++ sent_rtcp_packets l2.
Proof. apply flat_map_app. Qed.

Lemma sent_rtp_packets_app l1 l2 :
  sent_rtp_packets (l1 ++ l2) = sent_rtp_packets l1 ++ sent_rtp_packets l2.
Proof. apply flat_map_app. Qed.

(** The node and a copy of its generator, run side by side on the same
    clock. *)
Lemma sent_reports_are_the_generators ps :
  ∀ (w wg : World) g since,
    node_state (node w) = Started →
    Forall (fun p => _rtcp_sr_generators (node w) !! PayloadType p = Some g) ps →
    Forall (fun p => ∀ q, q ∈ ps → PayloadType q = PayloadType p) ps →
    _rtcp_packet g = None →
    clock wg = clock w → clock_reads wg = clock_reads w →
    ∃ bs w' evs es wg',
      perform_all (map CallSendRtpPacket ps) w = Done bs w'
      ∧ trace w' = trace w ++ evs
      ∧ observe_all g since ps wg = Done es wg'
      ∧ sent_rtcp_packets evs = map em_report es
      ∧ sent_rtp_packets evs = ps.
Proof.
  induction ps as [|p rest IH]; intros w wg g since Hs Hg Hpt Hnone Hc Hr.
  - exists [], w, [], [], wg. cbn. rewrite app_nil_r. repeat split.
  - inversion Hg as [|? ? Hgp Hgrest]; subst.
    destruct (SendRtpPacket_step w p g Hs Hgp Hnone)
      as (ok & w1 & evs1 & Hrun1 & Hs1 & Hc1 & Hr1 & Hg1 & Htr1 & Hrtp1 & Hrtcp1).
    assert (Hdue : sr_due g wg = sr_due g w)
      by (unfold sr_due, reading; rewrite Hc, Hr; reflexivity).
    assert (Hused : readings_used g wg = readings_used g w)
      by (unfold readings_used, reading; rewrite Hc, Hr; reflexivity).
    assert (Hread : ∀ i, reading wg i = reading w i)
      by (intros i; unfold reading; rewrite Hc, Hr; reflexivity).
    set (g' := if sr_due g w
               then snd (PopRtcpSRPacket (generated g p (reading w (readings_used g w - 1))))
               else accumulated g p) in *.
    assert (Hnone' : _rtcp_packet g' = None).
    { subst g'. destruct (sr_due g w); [reflexivity|exact Hnone]. }
    assert (Hsame : ∀ q, q ∈ rest → PayloadType q = PayloadType p).
    { inversion Hpt as [|? ? Hp _]; subst. intros q Hq. apply Hp. right. exact Hq. }
    destruct (IH w1 (advance (readings_used g w) wg) g'
                (if sr_due g w then [] else since ++ [p]))
      as (bs & w' & evs & es & wg' & Hrun & Htr & Hobs & Hrtcp & Hrtp).
    + exact Hs1.
    + apply Forall_forall. intros q Hq. rewrite (Hsame q Hq). exact Hg1.
    + apply Forall_forall. intros q Hq q' Hq'. rewrite (Hsame q Hq), (Hsame q' Hq').
      reflexivity.
    + exact Hnone'.
    + cbn. congruence.
    + cbn. congruence.
    + cbn [map perform_all perform]. unfold mbind at 1. unfold M_bind at 1.
      rewrite Hrun1. unfold mbind at 1. unfold M_bind at 1. rewrite Hrun.
      rewrite observe_all_cons by exact Hnone. cbv zeta.
      rewrite Hdue, Hused, Hread. subst g'.
      destruct (sr_due g w).
      * rewrite Hobs. eexists _, w', (evs1 ++ evs), _, wg'.
        split; [reflexivity|]. split; [rewrite Htr, Htr1, app_assoc; reflexivity|].
        split; [reflexivity|].
        rewrite sent_rtcp_packets_app, sent_rtp_packets_app, Hrtcp1, Hrtp1, Hrtcp, Hrtp.
        split; reflexivity.
      * rewrite Hobs. eexists _, w', (evs1 ++ evs), _, wg'.
        split; [reflexivity|]. split; [rewrite Htr, Htr1, app_assoc; reflexivity|].
        split; [reflexivity|].
        rewrite sent_rtcp_packets_app, sent_rtp_packets_app, Hrtcp1, Hrtp1, Hrtcp, Hrtp.
        split; reflexivity.
Qed.

(** X18. Sending packets of one payload type through a Started node
    sends downward, besides the packets themselves in order, exactly the
    reports that its generator builds when it observes these packets on the
    same clock, in the same order. *)
Theorem node_sends_the_reports_of_its_generator (w : World) pt g ps :
  node_state (node w) = Started →
  _rtcp_sr_generators (node w) !! pt = Some g →
  _rtcp_packet g = None →
  Forall (fun p => PayloadType p = pt) ps →
  ∃ bs w' evs es wg,
    perform_all (map CallSendRtpPacket ps) w = Done bs w'
    ∧ trace w' = trace w ++ evs
    ∧ observe_all g [] ps w = Done es wg
    ∧ sent_rtcp_packets evs = map em_report es
    ∧ sent_rtp_packets evs = ps.
Proof.
  intros Hs Hg Hnone Hpt.
  apply (sent_reports_are_the_generators ps w w g []); try assumption; try reflexivity.
  - apply Forall_forall. intros p Hp. rewrite Forall_forall in Hpt.
    rewrite (Hpt p Hp). exact Hg.
  - apply Forall_forall. intros p Hp q Hq. rewrite Forall_forall in Hpt.
    rewrite (Hpt p Hp), (Hpt q Hq). reflexivity.
Qed.



(** X19. Provided a statistics entry reports the payload type it was
    created with and keeps it when it records a packet or builds a report
    block: after [OnRtpReceived] has handled a packet of a registered
    payload type, [GetReceivedPayloadType] of its ssrc is the payload type of
    the first packet seen from that ssrc. *)
Theorem received_payload_type_is_the_first_seen (w : World) data b w' :
  (∀ pt ssrc den now, GetPayloadType (RtpReceiveStatistics_new pt ssrc den now) = pt) →
  (∀ s p now, GetPayloadType (AddReceivedRtpPacket s p now) = GetPayloadType s) →
  (∀ s now, GetPayloadType (snd (GenerateReportBlock s now)) = GetPayloadType s) →
  let packet := RtpPacket_parse data in
  is_Some (_tracks (node w) !! PayloadType packet) →
  OnRtpReceived data w = Done b w' →
  GetReceivedPayloadType (Ssrc packet) w'
  = Done match _receive_statistics (node w) !! Ssrc packet with
         | Some stat => GetPayloadType stat
         | None => PayloadType packet
         end w'.
Proof.
  intros Hnew Hadd Hgen. cbv zeta. intros [track Ht].
  unfold OnRtpReceived. cbv zeta. run. rewrite Ht.
  destruct (_receive_statistics (node w) !! Ssrc (RtpPacket_parse data)) as [stat|];
    unfold system_clock_now; run;
    match goal with |- context [HasElapsedSinceLastReportBlock ?s ?c ?n] =>
      destruct (HasElapsedSinceLastReportBlock s c n)
    end; run;
    try match goal with |- context [GenerateReportBlock ?s ?n] =>
      pose proof (Hgen s n) as Hg;
      destruct (GenerateReportBlock s n) as [block stat']; cbn in Hg
    end; run;
    try match goal with |- context [RtcpPacket_Build ?i] =>
      destruct (RtcpPacket_Build i)
    end; unfold SendDataToNextNode; run.
  all: destruct (GetOriginBitstream track); cbn.
  all: try match goal with |- context [_rtp_frame_jitter_buffers ?n !! ?k] =>
         destruct (_rtp_frame_jitter_buffers n !! k) as [jb|] eqn:Ejb
       end.
  all: try match goal with |- context [_rtp_minimal_jitter_buffers ?n !! ?k] =>
         destruct (_rtp_minimal_jitter_buffers n !! k) as [jb|] eqn:Ejb
       end.
  all: run.
  all: try match goal with |- context [PopAvailableFrame ?x] =>
         destruct (PopAvailableFrame x) as [[[|first others]|] jb']
       end.
  all: try match goal with |- context [PopAvailablePacket ?x] =>
         destruct (PopAvailablePacket x) as [[p|] jb']
       end.
  all: run.
  all: try destruct (_observer (node w)); run.
  all: intros H; try discriminate H; inversion H; subst; clear H.
  all: unfold GetReceivedPayloadType; run; rewrite lookup_insert_eq.
  all: rewrite ?Hg, ?Hadd, ?Hnew; reflexivity.
Qed.

End NodeProperties.

Section GeneratorOnSample.

#[local] Existing Instances Sample.types Sample.collaborators.

(** C2. A generator created at T = 0 observes one packet 2^32 - 1000 ms
    later and one 2^32 + 1 ms after T. Both calls build a report, both
    reports are built after T + 10000 ms, and they are 1001 ms apart: the
    elapsed time since creation, cut to 32 bits, reads 1 ms at the second
    call. *)
Theorem sr_cadence_after_uint32_wrap :
  ∃ g0 w1 e1 e2 w2,
    RtcpSRGenerator_new 1 90000 (Sample.world (Sample.node_in Ready) Sample.clock_across_wrap)
      = Done g0 w1
    ∧ _created_time g0 = 0
    ∧ observe_all g0 [] [Sample.rtp_packet_96; Sample.rtp_packet_96] w1 = Done [e1; e2] w2
    ∧ built_at e1 = ms 4294966296
    ∧ built_at e2 = ms 4294967297
    ∧ _created_time g0 + ms 10000 < built_at e1
    ∧ built_at e2 - built_at e1 = ms 1001.
Proof.
  do 5 eexists.
  split; [reflexivity|].
  split; [reflexivity|].
  split; [vm_compute; reflexivity|].
  repeat split; reflexivity.
Qed.

End GeneratorOnSample.

Section NodeOnSample.

#[local] Existing Instances Sample.types Sample.collaborators.

Lemma datagram_dispatch_witness :
  let w := Sample.world (Sample.node_in Started) Sample.steady_clock in
  node_state (node w) = Started
  ∧ (2 ≤ RTCP_HEADER_SIZE)%nat
  ∧ (RTCP_HEADER_SIZE ≤ length Sample.rtcp_datagram)%nat
  ∧ ∃ b0 b1 rest,
      Sample.rtcp_datagram = b0 :: b1 :: rest
      ∧ let v0 := byte_value b0 in
        let v1 := byte_value b1 in
        let read := record_events [EvRead 0%nat; EvRead 1%nat] w in
        (OnDataReceivedFromNextNode Rtp Sample.rtcp_datagram w
         = OnRtcpReceived Sample.rtcp_datagram read
         ↔ 128 ≤ v0 ≤ 191 ∧ 192 ≤ v1 ≤ 223)
        ∧ (OnDataReceivedFromNextNode Rtp Sample.rtcp_datagram w
           = OnRtpReceived Sample.rtcp_datagram read
           ↔ 128 ≤ v0 ≤ 191 ∧ ¬ 192 ≤ v1 ≤ 223)
        ∧ (¬ 128 ≤ v0 ≤ 191 →
           OnDataReceivedFromNextNode Rtp Sample.rtcp_datagram w
           = Done false
               (record_events
                  [EvRead 0%nat; EvLog "It is not an RTP or RTCP packet."] w)).
Proof.
  cbv zeta. split; [reflexivity|]. split; [cbn; lia|]. split; [cbn; lia|].
  apply (datagram_dispatch (Sample.world (Sample.node_in Started) Sample.steady_clock)
           Rtp Sample.rtcp_datagram); [reflexivity | cbn; lia | cbn; lia].
Defined.

(** C1 as stated fails before Start: the node is Ready, the datagram has
    the size of an RTCP header, byte 0 is 128 and byte 1 is 200, and the call
    returns false after the lifecycle log line without entering
    [OnRtcpReceived]. *)
Lemma dispatch_only_while_started :
  let w := Sample.world (Sample.node_in Ready) Sample.steady_clock in
  (RTCP_HEADER_SIZE ≤ length Sample.rtcp_datagram)%nat
  ∧ Sample.rtcp_datagram = [x80; xc8; x00; x06]
  ∧ 128 ≤ byte_value x80 ≤ 191
  ∧ 192 ≤ byte_value xc8 ≤ 223
  ∧ OnDataReceivedFromNextNode Rtp Sample.rtcp_datagram w
    = Done false
        (record_events
           [EvLog "Node has not started, so the received data has been canceled."] w)
  ∧ ∀ w', OnDataReceivedFromNextNode Rtp Sample.rtcp_datagram w
          ≠ OnRtcpReceived Sample.rtcp_datagram w'.
Proof.
  cbv zeta. split; [cbn; lia|]. split; [reflexivity|].
  split; [vm_compute; split; discriminate|]. split; [vm_compute; split; discriminate|].
  split; [reflexivity|].
  intros w'. discriminate.
Qed.

Lemma short_datagram_rejected_unread_witness :
  let w := Sample.world (Sample.node_in Started) Sample.steady_clock in
  node_state (node w) = Started
  ∧ (length [x80] < RTCP_HEADER_SIZE)%nat
  ∧ (2 ≤ RTCP_HEADER_SIZE)%nat
  ∧ (length [x80] ≤ 1)%nat
  ∧ OnDataReceivedFromNextNode Rtp [x80] w
    = Done false (record_events [EvLog "It is not an RTP or RTCP packet."] w).
Proof.
  cbv zeta. split; [reflexivity|]. split; [cbn; lia|]. split; [cbn; lia|].
  split; [cbn; lia|].
  destruct (short_datagram_rejected_unread
              (Sample.world (Sample.node_in Started) Sample.steady_clock) Rtp [x80]
              eq_refl) as [_ Hshort].
  apply Hshort; cbn; lia.
Defined.

Lemma unsupported_receiver_leaves_track_witness :
  let w := Sample.world (Sample.node_in Ready) Sample.steady_clock in
  node_state (node w) = Ready
  ∧ ¬ supported (GetOriginBitstream Sample.unsupported_track)
  ∧ _rtp_frame_jitter_buffers (node w) !! 96 = None
  ∧ _rtp_minimal_jitter_buffers (node w) !! 96 = None
  ∧ ∃ w',
      AddRtpReceiver 96 Sample.unsupported_track w = Done false w'
      ∧ _tracks (node w') = <[96 := Sample.unsupported_track]> (_tracks (node w))
      ∧ _rtp_frame_jitter_buffers (node w') = _rtp_frame_jitter_buffers (node w)
      ∧ _rtp_minimal_jitter_buffers (node w') = _rtp_minimal_jitter_buffers (node w)
      ∧ _tracks (node w') !! 96 = Some Sample.unsupported_track
      ∧ _rtp_frame_jitter_buffers (node w') !! 96 = None
      ∧ _rtp_minimal_jitter_buffers (node w') !! 96 = None.
Proof.
  cbv zeta.
  assert (Hf : ¬ supported (GetOriginBitstream Sample.unsupported_track)).
  { unfold supported. cbn. intros [H|[H|[H|H]]]; discriminate. }
  split; [reflexivity|]. split; [exact Hf|].
  split; [reflexivity|]. split; [reflexivity|].
  destruct (unsupported_receiver_leaves_track
              (Sample.world (Sample.node_in Ready) Sample.steady_clock)
              96 Sample.unsupported_track eq_refl Hf)
    as (w' & Hrun & Htracks & Hframe & Hminimal & Hleft).
  exists w'. split; [exact Hrun|]. split; [exact Htracks|].
  split; [exact Hframe|]. split; [exact Hminimal|].
  apply Hleft; reflexivity.
Defined.

(** C9 as stated fails: when payload type 96 has an H.264 receiver, so a
    frame jitter buffer, [AddRtpReceiver] with a track of an unsupported
    format for 96 returns false and replaces the track, and the frame jitter
    buffer stays registered for 96. *)
Lemma unsupported_receiver_can_keep_a_jitter_buffer :
  let w := Sample.world (Sample.node_in Ready) Sample.steady_clock in
  ∃ w1 w2,
    AddRtpReceiver 96 Sample.h264_track w = Done true w1
    ∧ node_state (node w1) = Ready
    ∧ ¬ supported (GetOriginBitstream Sample.unsupported_track)
    ∧ AddRtpReceiver 96 Sample.unsupported_track w1 = Done false w2
    ∧ _tracks (node w2) !! 96 = Some Sample.unsupported_track
    ∧ is_Some (_rtp_frame_jitter_buffers (node w2) !! 96)
    ∧ _rtp_minimal_jitter_buffers (node w2) !! 96 = None.
Proof.
  cbv zeta. eexists _, _.
  split; [vm_compute; reflexivity|].
  split; [reflexivity|].
  split; [unfold supported; cbn; intros [H|[H|[H|H]]]; discriminate|].
  split; [vm_compute; reflexivity|].
  split; [vm_compute; reflexivity|].
  split; [eexists; vm_compute; reflexivity | vm_compute; reflexivity].
Qed.

(** C5 as stated fails: in Ready, [AddRtpReceiver] with a track of an
    unsupported format returns false. *)
Lemma AddRtpReceiver_can_fail_in_Ready :
  let w := Sample.world (Sample.node_in Ready) Sample.steady_clock in
  node_state (node w) = Ready
  ∧ result (AddRtpReceiver 96 Sample.unsupported_track w) = Some false.
Proof. cbv zeta. split; reflexivity. Qed.

Lemma registration_gate_witness :
  let ready := Sample.world (Sample.node_in Ready) Sample.steady_clock in
  let started := Sample.world (Sample.node_in Started) Sample.steady_clock in
  (node_state (node ready) = Ready
   ∧ supported (GetOriginBitstream Sample.h264_track)
   ∧ result (AddRtcpSRGenerator 96 1 90000 ready) = Some true
   ∧ result (AddRtpReceiver 96 Sample.h264_track ready) = Some true)
  ∧ (node_state (node started) ≠ Ready
     ∧ AddRtcpSRGenerator 96 1 90000 started
       = Done false
           (record_events [EvLog "It can only be called in the ready state."] started)
     ∧ AddRtpReceiver 96 Sample.h264_track started
       = Done false
           (record_events [EvLog "It can only be called in the ready state."] started)).
Proof.
  cbv zeta. split.
  - assert (Hf : supported (GetOriginBitstream Sample.h264_track)) by (left; reflexivity).
    split; [reflexivity|]. split; [exact Hf|].
    destruct (registration_gate (Sample.world (Sample.node_in Ready) Sample.steady_clock)
                96 1 90000 Sample.h264_track) as [Hready _].
    destruct (Hready eq_refl) as [(g & w1 & w' & _ & Hgen & _) Hrecv].
    destruct (Hrecv Hf) as (w'' & Hrun & _).
    rewrite Hgen, Hrun. split; reflexivity.
  - assert (Hs : node_state (node (Sample.world (Sample.node_in Started) Sample.steady_clock))
                 ≠ Ready) by discriminate.
    split; [exact Hs|].
    destruct (registration_gate (Sample.world (Sample.node_in Started) Sample.steady_clock)
                96 1 90000 Sample.h264_track) as [_ Hother].
    exact (Hother Hs).
Defined.

Lemma fir_sequence_numbers_step_witness :
  let w := Sample.world Sample.node_with_statistics Sample.steady_clock in
  (∀ s, GetNumberOfFirRequests (OnFirRequested s) = GetNumberOfFirRequests s + 1)
  ∧ ∃ w' evs,
      SendFir_times 4 7 w = Done tt w'
      ∧ trace w' = trace w ++ evs
      ∧ fir_sequence_numbers 7 evs = [254; 255; 0; 1].
Proof.
  cbv zeta.
  assert (Hinc : ∀ s, GetNumberOfFirRequests (OnFirRequested s)
                      = GetNumberOfFirRequests s + 1) by (intros s; reflexivity).
  split; [exact Hinc|].
  pose proof (fir_sequence_numbers_step
                (Sample.world Sample.node_with_statistics Sample.steady_clock) 7 4 Hinc)
    as H.
  change (_receive_statistics
            (node (Sample.world Sample.node_with_statistics Sample.steady_clock)) !! 7)
    with (Some Sample.statistics_254) in H.
  destruct H as (w' & evs & Hrun & Htr & Hseq & _).
  exists w', evs. split; [exact Hrun|]. split; [exact Htr|]. exact Hseq.
Defined.

Lemma rtp_forwarded_after_report_witness :
  let w := Sample.world_refusing_rtcp Sample.node_with_generator Sample.steady_clock in
  node_state (node w) = Started
  ∧ ∃ w' sr,
      SendRtpPacket Sample.rtp_packet_96 w = Done true w'
      ∧ _last_sent_rtp_packet (node w') = Some Sample.rtp_packet_96
      ∧ _last_sent_rtcp_packet (node w') = Some sr
      ∧ trace w'
        = [EvSend Rtcp (RtcpData sr) false;
           EvLog "Send RTCP failed : pt(%d) ssrc(%u)";
           EvSend Rtp (RtpData Sample.rtp_packet_96) true].
Proof.
  cbv zeta. split; [reflexivity|].
  destruct (rtp_forwarded_after_report
              (Sample.world_refusing_rtcp Sample.node_with_generator Sample.steady_clock)
              Sample.rtp_packet_96 eq_refl)
    as (ok & w' & before & Hrun & Hrtp & Htr & Hok & Hsr).
  change (_rtcp_sr_generators
            (node (Sample.world_refusing_rtcp Sample.node_with_generator
                     Sample.steady_clock))
          !! PayloadType Sample.rtp_packet_96)
    with (Some {| _ssrc := 1; _codec_rate := 90000; _created_time := 0;
                  _last_generated_time := 0; _packet_count := 4; _octec_count := 400;
                  _rtcp_generated_count := 0;
                  _rtcp_packet := @None (@RtcpPacket Sample.types) |}) in Hsr.
  destruct Hsr as (g1 & w1 & Hadd & Hmatch).
  vm_compute in Hadd. injection Hadd as <- <-.
  cbn in Hmatch. destruct Hmatch as (Hbefore & Hrtcp & _).
  rewrite Hbefore in Hok. change (ok = true) in Hok. subst ok.
  exists w'. eexists. split; [exact Hrun|]. split; [exact Hrtp|].
  split; [exact Hrtcp|]. rewrite Htr, Hbefore. reflexivity.
Defined.

(** C4. [SendFir] has no lifecycle check. A node registers an H.264
    receiver, starts, receives one RTP datagram of ssrc 7 (which creates the
    statistics entry and sends a receiver report) and is stopped. [SendFir 7]
    then returns true, replaces the last sent RTCP packet by the FIR, raises
    the FIR count of the entry from 0 to 1 and sends the FIR downward. *)
Theorem SendFir_runs_after_Stop :
  ∃ w1 w2 rr fir,
    Sample.receive_then_stop (Sample.world (Sample.node_in Ready) Sample.steady_clock)
      = Done true w1
    ∧ node_state (node w1) = Stopped
    ∧ _last_sent_rtcp_packet (node w1) = Some {| rtcp_info := InfoRR rr; rtcp_built := true |}
    ∧ (Sample.fir_requests <$> _receive_statistics (node w1) !! 7) = Some 0
    ∧ SendFir 7 w1 = Done true w2
    ∧ _last_sent_rtcp_packet (node w2)
      = Some {| rtcp_info := InfoFIR fir; rtcp_built := true |}
    ∧ (Sample.fir_requests <$> _receive_statistics (node w2) !! 7) = Some 1
    ∧ trace w2 = trace w1 ++ [EvSend Rtcp (RtcpData {| rtcp_info := InfoFIR fir;
                                                      rtcp_built := true |}) true].
Proof.
  do 4 eexists.
  split; [vm_compute; reflexivity|].
  split; [reflexivity|].
  split; [vm_compute; reflexivity|].
  split; [vm_compute; reflexivity|].
  split; [vm_compute; reflexivity|].
  split; [vm_compute; reflexivity|].
  split; [vm_compute; reflexivity|].
  vm_compute; reflexivity.
Qed.

(** C10. A receiver with an unsupported format is refused for payload type
    96, which leaves the track registered without a jitter buffer; the node
    starts and receives an RTP datagram of payload type 96 and ssrc 7. The
    statistics entry is created and updated, a receiver report is sent, the
    missing jitter buffer is logged, and the call returns true. *)
Theorem rtp_without_jitter_buffer_returns_true :
  ∃ w1 w2 rr stat,
    Sample.register_unsupported_then_start
      (Sample.world (Sample.node_in Ready) Sample.steady_clock) = Done true w1
    ∧ node_state (node w1) = Started
    ∧ _tracks (node w1) !! 96 = Some Sample.unsupported_track
    ∧ _rtp_frame_jitter_buffers (node w1) !! 96 = None
    ∧ _rtp_minimal_jitter_buffers (node w1) !! 96 = None
    ∧ _receive_statistics (node w1) !! 7 = None
    ∧ PayloadType (RtpPacket_parse Sample.rtp_datagram) = 96
    ∧ Ssrc (RtpPacket_parse Sample.rtp_datagram) = 7
    ∧ OnDataReceivedFromNextNode Rtp Sample.rtp_datagram w1 = Done true w2
    ∧ _receive_statistics (node w2) !! 7 = Some stat
    ∧ Sample.received stat = 1
    ∧ _last_sent_rtcp_packet (node w2) = Some {| rtcp_info := InfoRR rr; rtcp_built := true |}
    ∧ trace w2
      = trace w1 ++
        [EvRead 0%nat; EvRead 1%nat; EvLog "%s";
         EvSend Rtcp (RtcpData {| rtcp_info := InfoRR rr; rtcp_built := true |}) true;
         EvLog "Could not find jitter buffer for payload type %d"].
Proof.
  do 4 eexists.
  split; [vm_compute; reflexivity|].
  split; [reflexivity|].
  split; [vm_compute; reflexivity|].
  split; [vm_compute; reflexivity|].
  split; [vm_compute; reflexivity|].
  split; [vm_compute; reflexivity|].
  split; [vm_compute; reflexivity|].
  split; [vm_compute; reflexivity|].
  split; [vm_compute; reflexivity|].
  split; [vm_compute; reflexivity|].
  split; [vm_compute; reflexivity|].
  split; [vm_compute; reflexivity|].
  vm_compute; reflexivity.
Qed.

End NodeOnSample.

Section ExtrasOnSample.

#[local] Existing Instances Sample.types Sample.collaborators.

(** Evaluate the left side of an equation between outcomes. *)
Ltac evaluate H :=
  match type of H with
  | ?lhs = _ =>
      let v := eval vm_compute in lhs in
      let E := fresh "E" in
      assert (E : lhs = v) by (vm_compute; reflexivity);
      rewrite E in H; clear E
  end.

(** The sample clocks never run backwards. *)
Lemma slow_clock_monotone n :
  monotone_clock (Sample.world n Sample.slow_clock).
Proof. intros i j Hij. cbn. unfold Sample.slow_clock. lia. Qed.

Lemma steady_clock_monotone n :
  monotone_clock (Sample.world n Sample.steady_clock).
Proof. intros i j Hij. cbn. unfold Sample.steady_clock. lia. Qed.

Lemma clock_after_silence_monotone n :
  monotone_clock (Sample.world n Sample.clock_after_silence).
Proof. intros i j Hij. cbn. unfold Sample.clock_after_silence. lia. Qed.

Lemma sr_cadence_witness :
  let w := Sample.world (Sample.node_in Started) Sample.steady_clock in
  monotone_clock w
  ∧ ∃ g0 w1 es w2,
      RtcpSRGenerator_new 1 90000 w = Done g0 w1
      ∧ observe_all g0 []
          [Sample.rtp_packet_96; Sample.rtp_packet_96; Sample.rtp_packet_96] w1
        = Done es w2
      ∧ cadence (_created_time g0) (_last_generated_time g0) es.
Proof.
  cbv zeta. split; [apply steady_clock_monotone|].
  apply (sr_cadence 1 90000
           [Sample.rtp_packet_96; Sample.rtp_packet_96; Sample.rtp_packet_96]
           (Sample.world (Sample.node_in Started) Sample.steady_clock)).
  apply steady_clock_monotone.
Defined.

(** On the sample clock, a packet one and a half seconds into a 90 kHz
    stream triggers a report with [msw] 1 and [lsw] 2^31. *)
Lemma sender_report_identity_witness :
  let w := Sample.world (Sample.node_in Started) Sample.steady_clock in
  ∃ g0 w1 e w2 report,
    RtcpSRGenerator_new 1 90000 w = Done g0 w1
    ∧ observe_all g0 [] [Sample.rtp_packet_at_1500_ms] w1 = Done [e] w2
    ∧ rtcp_info (em_report e) = InfoSR report
    ∧ sr_SenderSsrc report = 1
    ∧ sr_Timestamp report = 135000
    ∧ sr_Msw report = 1
    ∧ sr_Lsw report = 2147483648.
Proof.
  cbv zeta.
  destruct (sender_report_identity 1 90000 [Sample.rtp_packet_at_1500_ms]
              (Sample.world (Sample.node_in Started) Sample.steady_clock))
    as (g0 & w1 & es & w2 & Hnew & _ & _ & Hrun & Hall).
  evaluate Hnew. injection Hnew as <- <-.
  evaluate Hrun. injection Hrun as <- <-.
  apply Forall_cons in Hall as [He _].
  destruct He as (report & p & Hrep & Hlast & Hssrc & Hts & _ & Hlsw & Hmsw & _).
  injection Hlast as <-.
  eexists _, _, _, _, report.
  split; [vm_compute; reflexivity|].
  split; [vm_compute; reflexivity|].
  split; [exact (f_equal rtcp_info Hrep)|].
  split; [exact Hssrc|]. split; [exact Hts|].
  split; [rewrite Hmsw by (cbn; lia); reflexivity|].
  rewrite Hlsw. vm_compute. reflexivity.
Defined.

Lemma no_report_within_500_ms_witness :
  let w := Sample.world (Sample.node_in Started) Sample.slow_clock in
  monotone_clock w
  ∧ _last_generated_time Sample.generator_at_0 ≤ reading w 0
  ∧ reading w 2 ≤ _last_generated_time Sample.generator_at_0 + ms 500
  ∧ ∃ w', AddRTPPacketAndGenerateRtcpSR Sample.generator_at_0 Sample.rtp_packet_96 w
          = Done (accumulated Sample.generator_at_0 Sample.rtp_packet_96) w'.
Proof.
  cbv zeta. split; [apply slow_clock_monotone|].
  split; [vm_compute; discriminate|]. split; [vm_compute; discriminate|].
  apply (no_report_within_500_ms Sample.generator_at_0 Sample.rtp_packet_96
           (Sample.world (Sample.node_in Started) Sample.slow_clock)).
  - apply slow_clock_monotone.
  - vm_compute; discriminate.
  - vm_compute; discriminate.
Defined.

Lemma report_when_due_witness :
  let w := Sample.world (Sample.node_in Started) Sample.steady_clock in
  let g := Sample.generator_at_0 in
  monotone_clock w
  ∧ reading w 1 - _last_generated_time g < ms (2 ^ 32)
  ∧ ((_created_time g ≤ reading w 0 < _created_time g + ms 10000)
     ∧ _last_generated_time g + ms 501 ≤ reading w 1)
  ∧ ∃ now w',
      AddRTPPacketAndGenerateRtcpSR g Sample.rtp_packet_96 w
      = Done (generated g Sample.rtp_packet_96 now) w'
      ∧ reading w 1 ≤ now.
Proof.
  cbv zeta.
  assert (H1 : reading (Sample.world (Sample.node_in Started) Sample.steady_clock) 1
               - _last_generated_time Sample.generator_at_0 < ms (2 ^ 32))
    by (vm_compute; reflexivity).
  assert (H2 : (_created_time Sample.generator_at_0
                ≤ reading (Sample.world (Sample.node_in Started) Sample.steady_clock) 0
                < _created_time Sample.generator_at_0 + ms 10000)
               ∧ _last_generated_time Sample.generator_at_0 + ms 501
                 ≤ reading (Sample.world (Sample.node_in Started) Sample.steady_clock) 1).
  { split; [split|]; vm_compute; first [reflexivity | discriminate]. }
  split; [apply steady_clock_monotone|]. split; [exact H1|]. split; [exact H2|].
  apply (report_when_due Sample.generator_at_0 Sample.rtp_packet_96
           (Sample.world (Sample.node_in Started) Sample.steady_clock)).
  - apply steady_clock_monotone.
  - exact H1.
  - right. exact H2.
Defined.

Lemma no_report_after_uint32_wrap_of_silence_witness :
  let w := Sample.world (Sample.node_in Started) Sample.clock_after_silence in
  let g := Sample.generator_at_0 in
  monotone_clock w
  ∧ _last_generated_time g + ms (2 ^ 32) ≤ reading w 1
  ∧ reading w 2 ≤ _last_generated_time g + ms (2 ^ 32) + ms 500
  ∧ ∃ w', AddRTPPacketAndGenerateRtcpSR g Sample.rtp_packet_96 w
          = Done (accumulated g Sample.rtp_packet_96) w'.
Proof.
  cbv zeta. split; [apply clock_after_silence_monotone|].
  split; [vm_compute; discriminate|]. split; [vm_compute; discriminate|].
  apply (no_report_after_uint32_wrap_of_silence Sample.generator_at_0 Sample.rtp_packet_96
           (Sample.world (Sample.node_in Started) Sample.clock_after_silence)).
  - apply clock_after_silence_monotone.
  - vm_compute; discriminate.
  - vm_compute; discriminate.
Defined.


Lemma rtp_handling_footprint_witness :
  let w := Sample.world Sample.node_with_receiver Sample.steady_clock in
  ∃ w',
    OnRtpReceived Sample.rtp_datagram w = Done true w'
    ∧ rtp_footprint 96 7 (node w) (node w')
    ∧ is_Some (_receive_statistics (node w') !! 7).
Proof.
  cbv zeta. eexists. split; [vm_compute; reflexivity|].
  match goal with |- rtp_footprint _ _ _ (node ?w') ∧ _ =>
    assert (Hrun : OnRtpReceived Sample.rtp_datagram
                     (Sample.world Sample.node_with_receiver Sample.steady_clock)
                   = Done true w') by (vm_compute; reflexivity);
    destruct (rtp_handling_footprint _ _ _ _ Hrun) as [Hfp Hst]
  end.
  split; [exact Hfp|exact Hst].
Defined.

Lemma registrations_stay_consistent_witness :
  let w := Sample.world (Sample.node_in Ready) Sample.steady_clock in
  node w = RtpRtcp_new true Ready
  ∧ ∃ bs w',
      perform_all Sample.session w = Done bs w'
      ∧ bs = [true; true; false; true; true; true; true; true; false]
      ∧ buffers_match (node w') ∧ slots_empty (node w').
Proof.
  cbv zeta. split; [reflexivity|].
  eexists _, _. split; [vm_compute; reflexivity|]. split; [reflexivity|].
  match goal with |- buffers_match (node ?w') ∧ _ =>
    assert (Hrun : perform_all Sample.session
                     (Sample.world (Sample.node_in Ready) Sample.steady_clock)
                   = Done [true; true; false; true; true; true; true; true; false] w')
      by (vm_compute; reflexivity);
    exact (registrations_stay_consistent true Ready Sample.session
             (Sample.world (Sample.node_in Ready) Sample.steady_clock) _ _ eq_refl Hrun)
  end.
Defined.

Lemma tables_never_lose_a_key_witness :
  let w := Sample.world (Sample.node_in Ready) Sample.steady_clock in
  ∃ bs w',
    perform_all Sample.session w = Done bs w'
    ∧ tables_only_grow (node w) (node w').
Proof.
  cbv zeta. exists [true; true; false; true; true; true; true; true; false].
  eexists. split; [vm_compute; reflexivity|].
  match goal with |- tables_only_grow _ (node ?w') =>
    assert (Hrun : perform_all Sample.session
                     (Sample.world (Sample.node_in Ready) Sample.steady_clock)
                   = Done [true; true; false; true; true; true; true; true; false] w')
      by (vm_compute; reflexivity);
    exact (tables_never_lose_a_key _ _ _ _ Hrun)
  end.
Defined.

Lemma registrations_frozen_outside_Ready_witness :
  let w := Sample.world Sample.node_with_receiver_and_statistics Sample.steady_clock in
  node_state (node w) ≠ Ready
  ∧ ∃ bs w',
      perform_all Sample.calls_after_start w = Done bs w'
      ∧ bs = [false; false; true; true; true; true; false]
      ∧ node_state (node w') ≠ Ready
      ∧ _tracks (node w') = _tracks (node w)
      ∧ dom (_rtcp_sr_generators (node w')) = dom (_rtcp_sr_generators (node w))
      ∧ dom (_rtp_frame_jitter_buffers (node w'))
        = dom (_rtp_frame_jitter_buffers (node w))
      ∧ dom (_rtp_minimal_jitter_buffers (node w'))
        = dom (_rtp_minimal_jitter_buffers (node w)).
Proof.
  cbv zeta. split; [discriminate|].
  eexists _, _. split; [vm_compute; reflexivity|]. split; [reflexivity|].
  match goal with |- node_state (node ?w') ≠ Ready ∧ _ =>
    assert (Hrun : perform_all Sample.calls_after_start
                     (Sample.world Sample.node_with_receiver_and_statistics
                        Sample.steady_clock)
                   = Done [false; false; true; true; true; true; false] w')
      by (vm_compute; reflexivity);
    refine (registrations_frozen_outside_Ready _ _ _ _ _ Hrun); discriminate
  end.
Defined.

Lemma rtp_result_ignores_statistics_and_sends_witness :
  let w1 := Sample.world Sample.node_with_receiver Sample.steady_clock in
  let w2 := Sample.world_refusing_rtcp Sample.node_with_receiver_and_statistics
              Sample.slow_clock in
  _tracks (node w1) = _tracks (node w2)
  ∧ _rtp_frame_jitter_buffers (node w1) = _rtp_frame_jitter_buffers (node w2)
  ∧ _rtp_minimal_jitter_buffers (node w1) = _rtp_minimal_jitter_buffers (node w2)
  ∧ _observer (node w1) = _observer (node w2)
  ∧ result (OnRtpReceived Sample.rtp_datagram w1)
    = result (OnRtpReceived Sample.rtp_datagram w2).
Proof.
  cbv zeta. split; [reflexivity|]. split; [reflexivity|]. split; [reflexivity|].
  split; [reflexivity|].
  apply (rtp_result_ignores_statistics_and_sends
           (Sample.world Sample.node_with_receiver Sample.steady_clock)
           (Sample.world_refusing_rtcp Sample.node_with_receiver_and_statistics
              Sample.slow_clock)); reflexivity.
Defined.

(** The sample receiver has its jitter buffer. *)
Lemma node_with_receiver_buffers_match : buffers_match Sample.node_with_receiver.
Proof.
  intros pt track. cbn. rewrite lookup_insert. case_decide as Hpt.
  - subst pt. intros [= <-]. cbn. rewrite lookup_insert_eq. eauto.
  - rewrite lookup_empty. discriminate.
Qed.

Lemma rtp_fails_only_without_track_witness :
  let w := Sample.world Sample.node_with_receiver Sample.steady_clock in
  buffers_match (node w)
  ∧ ∃ w',
      OnRtpReceived Sample.rtp_datagram w = Done true w'
      ∧ (true = true
         ↔ is_Some (_tracks (node w) !! PayloadType (RtpPacket_parse Sample.rtp_datagram))).
Proof.
  cbv zeta. split; [apply node_with_receiver_buffers_match|].
  eexists. split; [vm_compute; reflexivity|].
  refine (rtp_fails_only_without_track
            (Sample.world Sample.node_with_receiver Sample.steady_clock)
            Sample.rtp_datagram true _ node_with_receiver_buffers_match _).
  vm_compute; reflexivity.
Defined.

Lemma gated_calls_refused_outside_Started_witness :
  let w := Sample.world (Sample.node_in Stopped) Sample.steady_clock in
  node_state (node w) ≠ Started
  ∧ Forall gated Sample.gated_calls
  ∧ perform_all Sample.gated_calls w
    = Done [false; false; false]
        (record_events
           [EvLog "Node has not started, so the received data has been canceled.";
            EvLog "Node has not started, so the received data has been canceled.";
            EvLog "Node has not started, so the received data has been canceled."] w).
Proof.
  cbv zeta.
  assert (Hg : Forall gated Sample.gated_calls) by (repeat constructor).
  split; [discriminate|]. split; [exact Hg|].
  apply (gated_calls_refused_outside_Started Sample.gated_calls
           (Sample.world (Sample.node_in Stopped) Sample.steady_clock));
    [discriminate | exact Hg].
Defined.

Lemma data_from_above_forwarded_unchanged_witness :
  let w := Sample.world_refusing_rtcp (Sample.node_in Started) Sample.steady_clock in
  node_state (node w) = Started
  ∧ OnDataReceivedFromPrevNode Rtcp Sample.rtcp_datagram w
    = Done false
        (record_events
           [EvSend Rtcp (RawData Sample.rtcp_datagram) false;
            EvLog "Send data failed from(%d) data_len(%d)"] w).
Proof.
  cbv zeta. split; [reflexivity|].
  apply (data_from_above_forwarded_unchanged
           (Sample.world_refusing_rtcp (Sample.node_in Started) Sample.steady_clock)
           Rtcp Sample.rtcp_datagram).
  reflexivity.
Defined.

Lemma send_rtp_footprint_witness :
  let w := Sample.world Sample.node_with_generator Sample.steady_clock in
  ∃ w',
    SendRtpPacket Sample.rtp_packet_96 w = Done true w'
    ∧ _tracks (node w') = _tracks (node w)
    ∧ _receive_statistics (node w') = _receive_statistics (node w)
    ∧ dom (_rtcp_sr_generators (node w')) = dom (_rtcp_sr_generators (node w)).
Proof.
  cbv zeta. eexists. split; [vm_compute; reflexivity|].
  match goal with |- _tracks (node ?w') = _ ∧ _ =>
    assert (Hrun : SendRtpPacket Sample.rtp_packet_96
                     (Sample.world Sample.node_with_generator Sample.steady_clock)
                   = Done true w') by (vm_compute; reflexivity);
    destruct (send_rtp_footprint _ _ _ _ Hrun) as (_ & _ & Ht & _ & _ & Hr & Hd & _)
  end.
  split; [exact Ht|]. split; [exact Hr|exact Hd].
Defined.

Lemma node_sends_the_reports_of_its_generator_witness :
  let w := Sample.world Sample.node_with_generator Sample.steady_clock in
  let ps := [Sample.rtp_packet_96; Sample.rtp_packet_96] in
  node_state (node w) = Started
  ∧ Forall (fun p => PayloadType p = 96) ps
  ∧ ∃ g bs w' evs es wg,
      _rtcp_sr_generators (node w) !! 96 = Some g
      ∧ _rtcp_packet g = None
      ∧ perform_all (map CallSendRtpPacket ps) w = Done bs w'
      ∧ trace w' = trace w ++ evs
      ∧ observe_all g [] ps w = Done es wg
      ∧ sent_rtcp_packets evs = map em_report es
      ∧ sent_rtp_packets evs = ps.
Proof.
  cbv zeta.
  assert (Hpt : Forall (fun p => PayloadType p = 96)
                  [Sample.rtp_packet_96; Sample.rtp_packet_96])
    by (repeat constructor).
  split; [reflexivity|]. split; [exact Hpt|].
  assert (Hg : _rtcp_sr_generators
                 (node (Sample.world Sample.node_with_generator Sample.steady_clock))
               !! 96 = Some (accumulated
                               (accumulated
                                  (accumulated (accumulated Sample.generator_at_0
                                                  Sample.rtp_packet_96)
                                     Sample.rtp_packet_96) Sample.rtp_packet_96)
                               Sample.rtp_packet_96))
    by (vm_compute; reflexivity).
  destruct (node_sends_the_reports_of_its_generator
              (Sample.world Sample.node_with_generator Sample.steady_clock) 96 _
              [Sample.rtp_packet_96; Sample.rtp_packet_96]
              eq_refl Hg eq_refl Hpt)
    as (bs & w' & evs & es & wg & H).
  eexists. exists bs, w', evs, es, wg. split; [exact Hg|].
  split; [reflexivity|]. exact H.
Defined.

(** The sample statistics entries keep their payload type. *)
Lemma sample_statistics_keep_the_payload_type :
  (∀ pt ssrc den now, GetPayloadType (RtpReceiveStatistics_new pt ssrc den now) = pt)
  ∧ (∀ s p now, GetPayloadType (AddReceivedRtpPacket s p now) = GetPayloadType s)
  ∧ (∀ s now, GetPayloadType (snd (GenerateReportBlock s now)) = GetPayloadType s).
Proof. repeat split. Qed.

Lemma received_payload_type_is_the_first_seen_witness :
  let w := Sample.world Sample.node_with_receiver Sample.steady_clock in
  is_Some (_tracks (node w) !! PayloadType (RtpPacket_parse Sample.rtp_datagram))
  ∧ ∃ w',
      OnRtpReceived Sample.rtp_datagram w = Done true w'
      ∧ GetReceivedPayloadType 7 w' = Done 96 w'.
Proof.
  cbv zeta.
  assert (Ht : is_Some
                 (_tracks (node (Sample.world Sample.node_with_receiver Sample.steady_clock))
                  !! PayloadType (RtpPacket_parse Sample.rtp_datagram)))
    by (vm_compute; eauto).
  split; [exact Ht|].
  eexists. split; [vm_compute; reflexivity|].
  destruct sample_statistics_keep_the_payload_type as (H1 & H2 & H3).
  match goal with |- GetReceivedPayloadType _ ?w' = _ =>
    assert (Hrun : OnRtpReceived Sample.rtp_datagram
                     (Sample.world Sample.node_with_receiver Sample.steady_clock)
                   = Done true w') by (vm_compute; reflexivity);
    exact (received_payload_type_is_the_first_seen _ _ _ _ H1 H2 H3 Ht Hrun)
  end.
Defined.

Lemma OnRtpReceived_without_jitter_buffer_witness :
  let w := Sample.world Sample.node_with_unsupported_track Sample.steady_clock in
  _tracks (node w) !! PayloadType (RtpPacket_parse Sample.rtp_datagram)
  = Some Sample.unsupported_track
  ∧ _rtp_frame_jitter_buffers (node w) !! PayloadType (RtpPacket_parse Sample.rtp_datagram)
    = None
  ∧ _rtp_minimal_jitter_buffers (node w)
    !! PayloadType (RtpPacket_parse Sample.rtp_datagram) = None
  ∧ ∃ w', OnRtpReceived Sample.rtp_datagram w = Done true w'
          ∧ is_Some (_receive_statistics (node w') !! 7).
Proof.
  cbv zeta.
  assert (Ht : _tracks
                 (node (Sample.world Sample.node_with_unsupported_track
                          Sample.steady_clock))
               !! PayloadType (RtpPacket_parse Sample.rtp_datagram)
               = Some Sample.unsupported_track) by (vm_compute; reflexivity).
  assert (Hf : _rtp_frame_jitter_buffers
                 (node (Sample.world Sample.node_with_unsupported_track
                          Sample.steady_clock))
               !! PayloadType (RtpPacket_parse Sample.rtp_datagram) = None)
    by (vm_compute; reflexivity).
  assert (Hm : _rtp_minimal_jitter_buffers
                 (node (Sample.world Sample.node_with_unsupported_track
                          Sample.steady_clock))
               !! PayloadType (RtpPacket_parse Sample.rtp_datagram) = None)
    by (vm_compute; reflexivity).
  split; [exact Ht|]. split; [exact Hf|]. split; [exact Hm|].
  destruct (OnRtpReceived_without_jitter_buffer
              (Sample.world Sample.node_with_unsupported_track Sample.steady_clock)
              Sample.rtp_datagram Sample.unsupported_track Ht Hf Hm)
    as (w' & evs & Hrun & Hst & _).
  exists w'. split; [exact Hrun|exact Hst].
Defined.

End ExtrasOnSample.
